(** * asubot: schedule adapter, cache, notification tick and delivery

    A shallow embedding of the schedule engine of [main.py]:
    [ASUApi.get_schedule], [RedisCache], [TelegramBot.format_schedule],
    [TelegramBot.get_cached_schedule], [TelegramBot._process_message_queue],
    [TelegramBot.check_notifications] and [TelegramBot.process_broadcast].

    Python code that performs I/O is written in a state-and-exception monad
    over one [world] record; the behaviour of the external collaborators
    (the timetable server, Telegram, Redis) is supplied by oracles. *)

From Stdlib Require Import ZArith String Ascii List Bool Lia Sorted Permutation.
From stdpp Require Import base option list gmap strings pretty.

Local Open Scope string_scope.
Local Open Scope list_scope.

(** ** Python values and built-ins used by the code *)

Module Py.

(** [s.rstrip(c)] for a one-character argument. *)
Fixpoint rstrip (c : ascii) (s : string) : string :=
  match s with
  | EmptyString => EmptyString
  | String a t =>
      match rstrip c t with
      | EmptyString => if Ascii.eqb a c then EmptyString else String a EmptyString
      | t' => String a t'
      end
  end.

(** [s.split(c)] for a one-character separator: never the empty list. *)
Fixpoint split (c : ascii) (s : string) : list string :=
  match s with
  | EmptyString => [EmptyString]
  | String a t =>
      if Ascii.eqb a c then EmptyString :: split c t
      else match split c t with
           | w :: ws => String a w :: ws
           | [] => [String a EmptyString]
           end
  end.

(** [l[-k]] for [k >= 1]; [None] stands for [IndexError]. *)
Definition from_end {A} (k : nat) (l : list A) : option A :=
  match k with
  | O => None
  | S k' => rev l !! k'
  end.

(** [sub in s] on strings. *)
Definition contains (sub s : string) : bool :=
  match String.index 0 sub s with
  | Some _ => true
  | None => false
  end.

(** [s.startswith(p)]. *)
Definition startswith (p s : string) : bool := String.prefix p s.

(** Truthiness of [str | None]. *)
Definition truthy_str (o : option string) : bool :=
  match o with
  | Some (String _ _) => true
  | _ => false
  end.

(** Exceptions.  Every constructor but [CancelledError] is a subclass of
    [Exception]; [asyncio.CancelledError] derives from [BaseException]. *)
Inductive exn : Type :=
| TypeError | AttributeError | KeyError | IndexError | ValueError
| JSONDecodeError | ClientError | TelegramError | RedisError
| CancelledError.

Definition is_Exception (e : exn) : bool :=
  match e with
  | CancelledError => false
  | _ => true
  end.

(** An expression evaluates to a value or raises. *)
Inductive res (A : Type) : Type :=
| Ret (a : A)
| Raise (e : exn).
Arguments Ret {A} a.
Arguments Raise {A} e.

Definition res_bind {A B} (r : res A) (k : A -> res B) : res B :=
  match r with
  | Ret a => k a
  | Raise e => Raise e
  end.

(** Parsed JSON documents, as [json.loads] builds them. *)
#[local] Unset Elimination Schemes.
Inductive json : Type :=
| JNull
| JBool (b : bool)
| JNum (n : Z)
| JStr (s : string)
| JArr (l : list json)
| JObj (m : gmap string json).
#[local] Set Elimination Schemes.

Definition truthy (j : json) : bool :=
  match j with
  | JNull => false
  | JBool b => b
  | JNum n => negb (n =? 0)%Z
  | JStr s => negb (String.eqb s "")
  | JArr l => negb (Nat.eqb (List.length l) 0)
  | JObj m => negb (Nat.eqb (size m) 0)
  end.

Definition is_str (k : string) (j : json) : bool :=
  match j with
  | JStr s => String.eqb s k
  | _ => false
  end.

(** [k in d] for a string [k]. *)
Definition contains_key (k : string) (d : json) : res bool :=
  match d with
  | JObj m => Ret (bool_decide (is_Some (m !! k)))
  | JArr l => Ret (existsb (is_str k) l)
  | JStr s => Ret (contains k s)
  | JNull | JBool _ | JNum _ => Raise TypeError
  end.

(** [d[k]] for a string [k]. *)
Definition getitem (k : string) (d : json) : res json :=
  match d with
  | JObj m => match m !! k with Some v => Ret v | None => Raise KeyError end
  | _ => Raise TypeError
  end.

(** [d.get(k, dflt)]. *)
Definition get (k : string) (dflt : json) (d : json) : res json :=
  match d with
  | JObj m => Ret (default dflt (m !! k))
  | _ => Raise AttributeError
  end.

(** [len(v)]. *)
Definition len (v : json) : res nat :=
  match v with
  | JStr s => Ret (String.length s)
  | JArr l => Ret (List.length l)
  | JObj m => Ret (size m)
  | JNull | JBool _ | JNum _ => Raise TypeError
  end.

(** [d[k] = v]. *)
Definition setitem (k : string) (v : json) (d : json) : res json :=
  match d with
  | JObj m => Ret (JObj (<[k := v]> m))
  | _ => Raise TypeError
  end.

End Py.
Import Py.

(** ** The world: everything the bot can observe or change *)

(** Records passed to [logging.info], [logging.warning], [logging.error]. *)
Inductive log_record : Type :=
| Info_fetching (url : string) (params : gmap string string)
| Info_raw_response (text : string)
| Info_received (lessons_count : nat)
| Info_retry_without_date
| Warn_no_records
| Err_parsing_json (e : exn)
| Err_failed_status (status : Z)
| Err_fetching (e : exn)
| Err_redis_set_many (e : exn)
| Err_redis_get_many (e : exn)
| Err_redis_init (e : exn)
| Err_message_queue (e : exn)
| Info_checking_notifications (current_time : string)
| Info_found_users (n : nat)
| Info_notification_sent (tg_id : Z)
| Err_notification (tg_id : Z) (e : exn)
| Err_check_notifications (e : exn)
| Err_broadcast (tg_id : Z) (e : exn).

(** One HTTP GET issued through the aiohttp session. *)
Record request : Type := { req_url : string; req_params : gmap string string }.

(** One call of [bot.send_message], with the clock reading at the call. *)
Record bot_call : Type := { call_time : Z; call_chat : Z; call_text : string }.

(** Status messages shown to the administrator who started a broadcast. *)
Inductive status_msg : Type :=
| Status_start (total : nat)
| Status_progress (success total fail : nat)
| Status_final (success fail total : nat).

(** What [get_cached_schedule] hands back: [None], or the coroutine object
    made by the [n]-th un-awaited call of [self.api.get_schedule]. *)
Inductive pyval : Type :=
| PNone
| PCoroutine (n : nat).

Record world : Type := {
  log : list log_record;
  http_sent : list request;
  bot_calls : list bot_call;
  status_msgs : list (status_msg * bool);      (* shown to the admin, and whether it got through *)
  clock : Z;                                   (* milliseconds *)
  message_queue : list (string * Z);           (* asyncio.Queue of (message, chat_id) *)
  tasks_done : nat;
  redis_store : gmap string (string * nat);    (* key -> (value, ttl in seconds) *)
  redis_execs : nat;
  lru : list ((string * string) * pyval);      (* functools.lru_cache, most recent first *)
  cache_last_update : gmap string Z;
  schedule_cache : gmap string pyval;
  adapter_calls : list (string * string)
}.

Definition set_log (v : list log_record) (w : world) : world :=
  {| log := v; http_sent := http_sent w; bot_calls := bot_calls w;
     status_msgs := status_msgs w; clock := clock w; message_queue := message_queue w;
     tasks_done := tasks_done w; redis_store := redis_store w;
     redis_execs := redis_execs w; lru := lru w;
     cache_last_update := cache_last_update w; schedule_cache := schedule_cache w;
     adapter_calls := adapter_calls w |}.

Definition set_http_sent (v : list request) (w : world) : world :=
  {| log := log w; http_sent := v; bot_calls := bot_calls w;
     status_msgs := status_msgs w; clock := clock w; message_queue := message_queue w;
     tasks_done := tasks_done w; redis_store := redis_store w;
     redis_execs := redis_execs w; lru := lru w;
     cache_last_update := cache_last_update w; schedule_cache := schedule_cache w;
     adapter_calls := adapter_calls w |}.

Definition set_bot_calls (v : list bot_call) (w : world) : world :=
  {| log := log w; http_sent := http_sent w; bot_calls := v;
     status_msgs := status_msgs w; clock := clock w; message_queue := message_queue w;
     tasks_done := tasks_done w; redis_store := redis_store w;
     redis_execs := redis_execs w; lru := lru w;
     cache_last_update := cache_last_update w; schedule_cache := schedule_cache w;
     adapter_calls := adapter_calls w |}.

Definition set_status_msgs (v : list (status_msg * bool)) (w : world) : world :=
  {| log := log w; http_sent := http_sent w; bot_calls := bot_calls w;
     status_msgs := v; clock := clock w; message_queue := message_queue w;
     tasks_done := tasks_done w; redis_store := redis_store w;
     redis_execs := redis_execs w; lru := lru w;
     cache_last_update := cache_last_update w; schedule_cache := schedule_cache w;
     adapter_calls := adapter_calls w |}.

Definition set_clock (v : Z) (w : world) : world :=
  {| log := log w; http_sent := http_sent w; bot_calls := bot_calls w;
     status_msgs := status_msgs w; clock := v; message_queue := message_queue w;
     tasks_done := tasks_done w; redis_store := redis_store w;
     redis_execs := redis_execs w; lru := lru w;
     cache_last_update := cache_last_update w; schedule_cache := schedule_cache w;
     adapter_calls := adapter_calls w |}.

Definition set_message_queue (v : list (string * Z)) (w : world) : world :=
  {| log := log w; http_sent := http_sent w; bot_calls := bot_calls w;
     status_msgs := status_msgs w; clock := clock w; message_queue := v;
     tasks_done := tasks_done w; redis_store := redis_store w;
     redis_execs := redis_execs w; lru := lru w;
     cache_last_update := cache_last_update w; schedule_cache := schedule_cache w;
     adapter_calls := adapter_calls w |}.

Definition set_tasks_done (v : nat) (w : world) : world :=
  {| log := log w; http_sent := http_sent w; bot_calls := bot_calls w;
     status_msgs := status_msgs w; clock := clock w; message_queue := message_queue w;
     tasks_done := v; redis_store := redis_store w; redis_execs := redis_execs w;
     lru := lru w; cache_last_update := cache_last_update w;
     schedule_cache := schedule_cache w; adapter_calls := adapter_calls w |}.

Definition set_redis (v : gmap string (string * nat)) (n : nat) (w : world) : world :=
  {| log := log w; http_sent := http_sent w; bot_calls := bot_calls w;
     status_msgs := status_msgs w; clock := clock w; message_queue := message_queue w;
     tasks_done := tasks_done w; redis_store := v; redis_execs := n; lru := lru w;
     cache_last_update := cache_last_update w; schedule_cache := schedule_cache w;
     adapter_calls := adapter_calls w |}.

Definition set_lru (v : list ((string * string) * pyval)) (w : world) : world :=
  {| log := log w; http_sent := http_sent w; bot_calls := bot_calls w;
     status_msgs := status_msgs w; clock := clock w; message_queue := message_queue w;
     tasks_done := tasks_done w; redis_store := redis_store w;
     redis_execs := redis_execs w; lru := v; cache_last_update := cache_last_update w;
     schedule_cache := schedule_cache w; adapter_calls := adapter_calls w |}.

Definition set_cache_last_update (v : gmap string Z) (w : world) : world :=
  {| log := log w; http_sent := http_sent w; bot_calls := bot_calls w;
     status_msgs := status_msgs w; clock := clock w; message_queue := message_queue w;
     tasks_done := tasks_done w; redis_store := redis_store w;
     redis_execs := redis_execs w; lru := lru w; cache_last_update := v;
     schedule_cache := schedule_cache w; adapter_calls := adapter_calls w |}.

Definition set_adapter_calls (v : list (string * string)) (w : world) : world :=
  {| log := log w; http_sent := http_sent w; bot_calls := bot_calls w;
     status_msgs := status_msgs w; clock := clock w; message_queue := message_queue w;
     tasks_done := tasks_done w; redis_store := redis_store w;
     redis_execs := redis_execs w; lru := lru w;
     cache_last_update := cache_last_update w; schedule_cache := schedule_cache w;
     adapter_calls := v |}.

(** A freshly started bot: nothing logged, nothing sent, empty caches. *)
Definition fresh : world :=
  {| log := []; http_sent := []; bot_calls := []; status_msgs := []; clock := 0%Z;
     message_queue := []; tasks_done := 0; redis_store := ∅; redis_execs := 0;
     lru := []; cache_last_update := ∅; schedule_cache := ∅; adapter_calls := [] |}.

(** ** Statements: state passing with exceptions *)

Definition M (A : Type) : Type := world -> res A * world.

Definition ret {A} (a : A) : M A := fun w => (Ret a, w).
Definition raise {A} (e : exn) : M A := fun w => (Raise e, w).
Definition bind {A B} (m : M A) (k : A -> M B) : M B :=
  fun w => match m w with
           | (Ret a, w') => k a w'
           | (Raise e, w') => (Raise e, w')
           end.
Definition lift {A} (r : res A) : M A := fun w => (r, w).

#[global] Instance M_ret : MRet M := @ret.
#[global] Instance M_bind : MBind M := fun A B k m => bind m k.

(** [do x <- m; k] runs [m], binds its value and goes on with [k];
    [m;; k] (stdpp's notation) discards the value. *)
Notation "'do' x <- m ; k" := (bind m (fun x => k))
  (at level 10, x name, m at level 100, k at level 200, only parsing).
Notation "'do' ' p <- m ; k" := (bind m (fun x => match x with p => k end))
  (at level 10, p pattern, m at level 100, k at level 200, only parsing).

(** [try: body  except Exception as e: handler e]. *)
Definition try_except {A} (body : M A) (handler : exn -> M A) : M A :=
  fun w => match body w with
           | (Raise e, w') => if is_Exception e then handler e w' else (Raise e, w')
           | r => r
           end.

(** [try: body  finally: fin]. *)
Definition try_finally {A} (body : M A) (fin : M unit) : M A :=
  fun w => match body w with
           | (r, w') => match fin w' with
                        | (Ret _, w'') => (r, w'')
                        | (Raise e, w'') => (Raise e, w'')
                        end
           end.

Definition logging (r : log_record) : M unit :=
  fun w => (Ret tt, set_log (log w ++ [r]) w).

(** The result and the final world of running a statement. *)
Definition result {A} (m : M A) (w : world) : res A := fst (m w).
Definition after {A} (m : M A) (w : world) : world := snd (m w).

(** ** ASUApi: the remote schedule source adapter *)

Module ASUApi.

Record t : Type := { base_url : string; api_token : string }.

(** What the timetable server does with one GET.  [Transport_error]: the
    request or the reading of the body raises.  [Response status text body]:
    [body = None] when [response.json()] raises. *)
Inductive http_outcome : Type :=
| Transport_error
| Response (status : Z) (text : string) (body : option json).

(** The server: the outcome of the [n]-th request of the session. *)
Definition upstream : Type := nat -> request -> http_outcome.

(** Query dates as the handlers build them: [strftime('%Y%m%d')] for one
    day, two of them joined by a dash for a week. *)
Inductive date_spec : Type :=
| Single_date (d : string)
| Date_range (d1 d2 : string).

Definition date_param (ds : date_spec) : string :=
  match ds with
  | Single_date d => d
  | Date_range d1 d2 => d1 +:+ "-" +:+ d2
  end.

Definition is_digit (a : ascii) : bool :=
  let n := nat_of_ascii a in Nat.leb 48 n && Nat.leb n 57.

Fixpoint all_digits (s : string) : bool :=
  match s with
  | EmptyString => true
  | String a t => is_digit a && all_digits t
  end.

(** A date printed by [strftime('%Y%m%d')]: digits only, not empty. *)
Definition strftime_date (d : string) : bool :=
  all_digits d && negb (String.eqb d "").

Definition wf_date_spec (ds : date_spec) : bool :=
  match ds with
  | Single_date d => strftime_date d
  | Date_range d1 d2 => strftime_date d1 && strftime_date d2
  end.

Definition build_params (api : t) (date : option string) : gmap string string :=
  let params : gmap string string :=
    <["api_token" := api_token api]> (<["file" := "list.json"]> ∅) in
  if truthy_str date then <["date" := default "" date]> params else params.

Definition build_url (api : t) (path : string) : string :=
  if startswith "lecturers/" path then
    let lecturer_id := List.last (split "/" path) "" in
    rstrip "/" (base_url api) +:+ "/timetable/lecturers/15/65/" +:+ lecturer_id +:+ "/"
  else
    rstrip "/" (base_url api) +:+ "/timetable/students/15/" +:+ path.

(** [date and '-' in date]: the request was for a week. *)
Definition is_week_request (date : option string) : bool :=
  truthy_str date && contains "-" (default "" date).

(** ['schedule' in data and data['schedule'].get('records', [])], as a
    condition. *)
Definition has_records (data : json) : res bool :=
  res_bind (contains_key "schedule" data) (fun b =>
  if b then
    res_bind (getitem "schedule" data) (fun s =>
    res_bind (get "records" (JArr []) s) (fun r => Ret (truthy r)))
  else Ret false).

(** [len(data['schedule']['records'])]. *)
Definition lessons_count (data : json) : res nat :=
  res_bind (getitem "schedule" data) (fun s =>
  res_bind (getitem "records" s) len).

Section WithServer.
Variable server : upstream.

(** [self.session.get(url, params=params)] entered as a context manager. *)
Definition session_get (url : string) (params : gmap string string)
  : M (Z * string * option json) :=
  fun w =>
    let rq := {| req_url := url; req_params := params |} in
    let w' := set_http_sent (http_sent w ++ [rq]) w in
    match server (List.length (http_sent w)) rq with
    | Transport_error => (Raise ClientError, w')
    | Response status text body => (Ret (status, text, body), w')
    end.

(** [await response.json()]. *)
Definition response_json (body : option json) : M json :=
  match body with
  | Some data => ret data
  | None => raise JSONDecodeError
  end.

(** The success path shared by the first answer and the retry: log the
    count, tag the payload with the URL, return it. *)
Definition return_schedule (url : string) (data : json) : M (option json) :=
  do n <- lift (lessons_count data);
  logging (Info_received n);;
  do data' <- lift (setitem "url" (JStr url) data);
  ret (Some data').

Definition no_records : M (option json) :=
  logging Warn_no_records;;
  ret None.

Definition get_schedule (api : t) (path : string) (date : option string)
  : M (option json) :=
  let params := build_params api date in
  let url := build_url api path in
  try_except
    (logging (Info_fetching url params);;
     do '(status, text, body) <- session_get url params;
     logging (Info_raw_response text);;
     if (status =? 200)%Z then
       try_except
         (do data <- response_json body;
          do b <- lift (has_records data);
          if b then return_schedule url data
          else if is_week_request date then
            logging Info_retry_without_date;;
            let params := delete "date" params in
            do '(_, _, retry_body) <- session_get url params;
            do retry_data <- response_json retry_body;
            do b' <- lift (has_records retry_data);
            if b' then return_schedule url retry_data
            else no_records
          else no_records)
         (fun e => logging (Err_parsing_json e);; ret None)
     else
       logging (Err_failed_status status);;
       ret None)
    (fun e => logging (Err_fetching e);; ret None).

End WithServer.

End ASUApi.

(** ** RedisCache: the shared cache tier *)

Module RedisCache.

(** Commands buffered by a redis-py pipeline. *)
Inductive command : Type :=
| SET (key value : string) (ex : nat)
| GET (key : string).

(** A reply: the stored string, or nil.  [SET] answers ["OK"]. *)
Definition reply : Type := option string.

Definition apply_command (c : command) (store : gmap string (string * nat))
  : reply * gmap string (string * nat) :=
  match c with
  | SET key value ex => (Some "OK", <[key := (value, ex)]> store)
  | GET key => (fst <$> store !! key, store)
  end.

Fixpoint apply_commands (cs : list command) (store : gmap string (string * nat))
  : list reply * gmap string (string * nat) :=
  match cs with
  | [] => ([], store)
  | c :: rest =>
      let '(r, store') := apply_command c store in
      let '(rs, store'') := apply_commands rest store' in
      (r :: rs, store'')
  end.

Record t : Type := { default_ttl : nat }.

(** [RedisCache.__init__]: building the client opens no connection. *)
Definition init : t := {| default_ttl := 300 |}.

(** [ttl or self.default_ttl]. *)
Definition ttl_or_default (self : t) (ttl : option nat) : nat :=
  match ttl with
  | Some (S n) => S n
  | _ => default_ttl self
  end.

(** Truthiness of a reply: nil and the empty string are falsy. *)
Definition truthy_reply (v : reply) : bool := truthy_str v.

Section WithCodec.
Context {V : Type}.
(** [json.dumps] and [json.loads]; [None] where they raise, [dumps] on a
    value that cannot be serialised ([TypeError]) and [loads] on a string
    that is not JSON ([JSONDecodeError]). *)
Variable dumps : V -> option string.
Variable loads : string -> option V.

Definition call_dumps (value : V) : res string :=
  match dumps value with
  | Some s => Ret s
  | None => Raise TypeError
  end.

Definition call_loads (v : string) : res V :=
  match loads v with
  | Some x => Ret x
  | None => Raise JSONDecodeError
  end.

(** Whether the [n]-th [pipeline.execute()] reaches the server.  The
    pipeline is a MULTI/EXEC transaction: when it does not, the call raises
    and none of the buffered commands is applied. *)
Variable connection : nat -> bool.

Definition execute (pipeline : list command) : M (list reply) :=
  fun w =>
    if connection (redis_execs w) then
      let '(replies, store') := apply_commands pipeline (redis_store w) in
      (Ret replies, set_redis store' (S (redis_execs w)) w)
    else (Raise RedisError, set_redis (redis_store w) (S (redis_execs w)) w).

(** [for key, value in mapping.items(): pipeline.set(key, dumps(value), ex=...)]. *)
Fixpoint queue_sets (self : t) (mapping : list (string * V)) (ttl : option nat)
    (pipeline : list command) : res (list command) :=
  match mapping with
  | [] => Ret pipeline
  | (key, value) :: rest =>
      res_bind (call_dumps value) (fun s =>
      queue_sets self rest ttl (pipeline ++ [SET key s (ttl_or_default self ttl)]))
  end.

Definition set_many (self : t) (mapping : list (string * V)) (ttl : option nat)
  : M unit :=
  let pipeline := [] in
  try_except
    (do pipeline <- lift (queue_sets self mapping ttl pipeline);
     do _ <- execute pipeline;
     ret tt)
    (fun e => logging (Err_redis_set_many e)).

(** [[loads(v) if v else None for v in values]]. *)
Fixpoint decode (values : list reply) : res (list (option V)) :=
  match values with
  | [] => Ret []
  | v :: rest =>
      res_bind (if truthy_reply v then
                  res_bind (call_loads (default "" v)) (fun x => Ret (Some x))
                else Ret None) (fun x =>
      res_bind (decode rest) (fun xs => Ret (x :: xs)))
  end.

Definition get_many (self : t) (keys : list string) : M (list (option V)) :=
  try_except
    (let pipeline := map GET keys in
     do values <- execute pipeline;
     lift (decode values))
    (fun e =>
       logging (Err_redis_get_many e);;
       ret (replicate (List.length keys) None)).

End WithCodec.

(** [TelegramBot.__init__]: [self.redis_cache] is [None] when the
    constructor raises. *)
Definition init_redis_cache (ctor : res t) : M (option t) :=
  try_except
    (do c <- lift ctor; ret (Some c))
    (fun e => logging (Err_redis_init e);; ret None).

End RedisCache.

(** ** TelegramBot *)

Module TelegramBot.

(** *** format_schedule: subject, filter, grouping and order *)

Record lesson_group : Type := { groupId : Z; groupCode : string }.

(** One element of [schedule.records]. *)
Record lesson : Type := {
  lessonDate : string;
  lessonTimeStart : string;
  lessonTimeEnd : string;
  subjectTitle : string;
  lessonSubjectType : string;
  lessonLecturers : list string;
  lessonGroups : list lesson_group
}.

(** The dictionary handed to [format_schedule]: the payload's records, the
    URL added by the adapter and the group added by the handler. *)
Record schedule_data : Type := {
  records : list lesson;
  requested_group : option lesson_group;
  url : option string
}.

(** [schedule_type]: whose schedule the heading names. *)
Inductive heading : Type :=
| Heading_blank
| Heading_group (code : string)
| Heading_lecturer (name : string).

Record subject : Type := {
  schedule_type : heading;
  is_group_schedule : bool;
  target_group : option string
}.

Definition group_subject (g : lesson_group) : subject :=
  {| schedule_type := Heading_group (groupCode g);
     is_group_schedule := true;
     target_group := Some (groupCode g) |}.

Definition unresolved (h : heading) : subject :=
  {| schedule_type := h; is_group_schedule := false; target_group := None |}.

(** The inner [for group_info in lesson['lessonGroups']] with its [break]. *)
Fixpoint find_group (group_id : string) (groups : list lesson_group)
  : option lesson_group :=
  match groups with
  | [] => None
  | g :: rest =>
      if String.eqb (pretty (groupId g)) group_id then Some g
      else find_group group_id rest
  end.

(** The outer [for lesson in records], left at the first match. *)
Fixpoint find_in_records (group_id : string) (rs : list lesson)
  : option lesson_group :=
  match rs with
  | [] => None
  | l :: rest =>
      match find_group group_id (lessonGroups l) with
      | Some g => Some g
      | None => find_in_records group_id rest
      end
  end.

Section Format.
(** [self.db.get_lecturer_by_id(lecturer_id)['lecturerName']]. *)
Variable get_lecturer_by_id : string -> option string.

Definition resolve_subject (sd : schedule_data) : res subject :=
  match requested_group sd with
  | Some group => Ret (group_subject group)
  | None =>
      match url sd with
      | None => Ret (unresolved Heading_blank)
      | Some u =>
          if contains "lecturers" u then
            match from_end 2 (split "/" u) with
            | None => Raise IndexError
            | Some lecturer_id =>
                match get_lecturer_by_id lecturer_id with
                | Some name => Ret (unresolved (Heading_lecturer name))
                | None => Ret (unresolved Heading_blank)
                end
            end
          else
            let group_id := rstrip "/" (List.last (split "/" u) "") in
            match find_in_records group_id (records sd) with
            | Some group => Ret (group_subject group)
            | None => Ret (unresolved Heading_blank)
            end
      end
  end.

(** [target_group in lesson_groups]. *)
Definition in_groups (target : option string) (codes : list string) : bool :=
  match target with
  | Some code => existsb (String.eqb code) codes
  | None => false
  end.

(** Whether the grouping loop keeps the lesson (does not [continue]). *)
Definition kept (sub : subject) (l : lesson) : bool :=
  if is_group_schedule sub then
    in_groups (target_group sub) (map groupCode (lessonGroups l))
  else true.

(** [lessons_by_date[date].append(lesson)] on an insertion-ordered dict. *)
Fixpoint dict_append (date : string) (l : lesson)
    (d : list (string * list lesson)) : list (string * list lesson) :=
  match d with
  | [] => [(date, [l])]
  | (k, ls) :: rest =>
      if String.eqb k date then (k, ls ++ [l]) :: rest
      else (k, ls) :: dict_append date l rest
  end.

Definition lessons_by_date (sub : subject) (rs : list lesson)
  : list (string * list lesson) :=
  fold_left
    (fun d l => if kept sub l then dict_append (lessonDate l) l d else d)
    rs [].

(** What the grouping loop maintains: dates are distinct keys, and every
    lesson sits under its own date. *)
Definition well_grouped (d : list (string * list lesson)) : Prop :=
  NoDup (map fst d)
  /\ Forall (fun day => Forall (fun l => lessonDate l = fst day) (snd day)) d.

(** [sorted] and [list.sort]: a stable sort on a string key, strings
    compared as Python compares them (position by position). *)
Fixpoint insert_by {A} (key : A -> string) (x : A) (l : list A) : list A :=
  match l with
  | [] => [x]
  | y :: t =>
      if String.leb (key x) (key y) then x :: y :: t
      else y :: insert_by key x t
  end.

Fixpoint sort_by {A} (key : A -> string) (l : list A) : list A :=
  match l with
  | [] => []
  | x :: t => insert_by key x (sort_by key t)
  end.

(** [x] does not come after [y] in the order of the key. *)
Definition key_le {A} (key : A -> string) (x y : A) : Prop :=
  String.leb (key x) (key y) = true.

(** The blocks written to the message, in the order they are written:
    [for date, lessons in sorted(lessons_by_date.items())], each with
    [lessons.sort(key=lambda x: x['lessonTimeStart'])]. *)
Definition day_blocks (sub : subject) (rs : list lesson)
  : list (string * list lesson) :=
  map (fun '(date, lessons) => (date, sort_by lessonTimeStart lessons))
      (sort_by fst (lessons_by_date sub rs)).

(** The formatted schedule, before it is laid out as text. *)
Inductive formatted : Type :=
| No_schedule
| Schedule (sub : subject) (days : list (string * list lesson)).

Definition format_schedule (schedule : option schedule_data) : res formatted :=
  match schedule with
  | None => Ret No_schedule
  | Some sd =>
      match records sd with
      | [] => Ret No_schedule
      | _ =>
          res_bind (resolve_subject sd) (fun sub =>
          Ret (Schedule sub (day_blocks sub (records sd))))
      end
  end.

End Format.

(** Every lesson written to the message. *)
Definition lessons_of (f : formatted) : list lesson :=
  match f with
  | No_schedule => []
  | Schedule _ days => concat (map snd days)
  end.

(** The subject and the number of lessons of a formatted schedule. *)
Definition lessons_of_result (r : res formatted) : option (subject * nat) :=
  match r with
  | Ret (Schedule sub days) => Some (sub, List.length (concat (map snd days)))
  | _ => None
  end.

(** *** get_cached_schedule and its lru_cache *)

Definition maxsize : nat := 100.

(** [timedelta(minutes=5)], in milliseconds. *)
Definition cache_timeout : Z := 300000.

Definition truthy_pyval (v : pyval) : bool :=
  match v with
  | PNone => false
  | PCoroutine _ => true
  end.

(** The body of the method, reached on an lru_cache miss. *)
Definition get_cached_schedule_body (group_id date : string) : M pyval :=
  fun w =>
    let cache_key := group_id +:+ "_" +:+ date in
    let fetch :=
      let schedule := PCoroutine (List.length (adapter_calls w)) in
      let w' := set_adapter_calls (adapter_calls w ++ [(group_id, date)]) w in
      if truthy_pyval schedule then
        (Ret schedule,
         set_cache_last_update (<[cache_key := clock w']> (cache_last_update w')) w')
      else (Ret schedule, w') in
    match cache_last_update w !! cache_key with
    | Some t =>
        if (clock w - t <? cache_timeout)%Z then
          (Ret (default PNone (schedule_cache w !! cache_key)), w)
        else fetch
    | None => fetch
    end.

Definition same_args (k : string * string) (e : (string * string) * pyval) : bool :=
  String.eqb (fst k) (fst (fst e)) && String.eqb (snd k) (snd (fst e)).

Definition lru_find (k : string * string) (c : list ((string * string) * pyval))
  : option pyval :=
  snd <$> List.find (same_args k) c.

(** [@lru_cache(maxsize=100)]: a hit returns the stored result and makes
    the entry the most recent; a miss runs the body, stores its result and
    drops the least recent entry when the cache is full. *)
Definition get_cached_schedule (group_id date : string) : M pyval :=
  fun w =>
    let k := (group_id, date) in
    match lru_find k (lru w) with
    | Some v =>
        (Ret v, set_lru ((k, v) :: List.filter (fun e => negb (same_args k e)) (lru w)) w)
    | None =>
        match get_cached_schedule_body group_id date w with
        | (Ret v, w') => (Ret v, set_lru (take maxsize ((k, v) :: lru w')) w')
        | (Raise e, w') => (Raise e, w')
        end
    end.

(** [clear_expired_cache]: drop the expired time stamps; the lru_cache is
    cleared when there was at least one. *)
Definition clear_expired_cache : M unit :=
  fun w =>
    let current_time := clock w in
    let expired (t : Z) : bool := (cache_timeout <? current_time - t)%Z in
    let stale := filter (fun kt => expired (snd kt) = true) (cache_last_update w) in
    let w' := set_cache_last_update
                (filter (fun kt => expired (snd kt) = false) (cache_last_update w)) w in
    if Nat.eqb (size stale) 0 then (Ret tt, w') else (Ret tt, set_lru [] w').

(** Time passing between two calls. *)
Definition elapse (dt : Z) : M unit :=
  fun w => (Ret tt, set_clock (clock w + dt)%Z w).

(** *** The outbound channel *)

(** What Telegram does with one [send_message]: how long the call takes
    (milliseconds) and whether it returns or raises. *)
Record tg_outcome : Type := { took : nat; sent : res unit }.

(** Telegram: the outcome of the [n]-th call, given recipient and text. *)
Definition telegram : Type := nat -> Z -> string -> tg_outcome.

(** [asyncio.sleep(0.05)]. *)
Definition min_delay : nat := 50.

(** [await asyncio.sleep(ms / 1000)] in a handler, a task nothing
    cancels while it sleeps: the clock moves on by the delay.  The task of
    the drain loop, which [shutdown] cancels, sleeps through [nap] below. *)
Definition sleep (ms : nat) : M unit :=
  fun w => (Ret tt, set_clock (clock w + Z.of_nat ms)%Z w).

(** What becomes of the task of the drain loop where it is suspended
    other than in a send: in the [asyncio.sleep] it enters with [n] calls of
    the channel made ([None]: it sleeps the delay out; [Some ms]: it is
    cancelled after [ms] milliseconds), and in [get()] on the empty queue
    ([true]: it is cancelled there; [false]: it stays suspended).  [get()]
    on a queue that holds an item returns it without suspending. *)
Record interruptions : Type := {
  in_sleep : nat -> option nat;
  in_get : bool
}.

(** How a run of the drain loop ends: left by [break], so that the method
    returns, or suspended in [get()] on the empty queue. *)
Inductive ending : Type := Left_by_break | Suspended_in_get.

Module NotificationRow.
(** A row of [get_users_for_notification]. *)
Record t : Type := {
  tg_id : Z;
  groupId : Z;
  groupCode : string;
  notification_time : string
}.
End NotificationRow.

Module UserRow.
(** A row of [SELECT * FROM users]; [is_banned] is a nullable flag. *)
Record t : Type := { tg_id : Z; is_banned : option Z }.
End UserRow.

Section Outbound.
Variable tg : telegram.

(** [await bot.send_message(chat_id=..., text=..., parse_mode='HTML')]. *)
Definition bot_send_message (chat_id : Z) (text : string) : M unit :=
  fun w =>
    let o := tg (List.length (bot_calls w)) chat_id text in
    let call := {| call_time := clock w; call_chat := chat_id; call_text := text |} in
    let w' := set_bot_calls (bot_calls w ++ [call]) w in
    (sent o, set_clock (clock w' + Z.of_nat (took o))%Z w').

(** *** The delivery queue and its drain loop *)

(** [send_message]: [await self.message_queue.put((message, chat_id))]. *)
Definition send_message (chat_id : Z) (message : string) : M unit :=
  fun w => (Ret tt, set_message_queue (message_queue w ++ [(message, chat_id)]) w).

Definition task_done : M unit :=
  fun w => (Ret tt, set_tasks_done (S (tasks_done w)) w).

Variable cancel : interruptions.

(** [await asyncio.sleep(0.05)] in the drain loop: slept out, or cut
    short by the cancellation of the task. *)
Definition nap : M unit :=
  fun w =>
    match in_sleep cancel (List.length (bot_calls w)) with
    | None => (Ret tt, set_clock (clock w + Z.of_nat min_delay)%Z w)
    | Some ms =>
        (Raise CancelledError,
         set_clock (clock w + Z.of_nat (Nat.min ms min_delay))%Z w)
    end.

(** One turn of the [while True] loop for the item [get()] returned.  The
    result says whether the loop goes on ([true]) or was left by [break]. *)
Definition process_item (item : string * Z) : M bool :=
  let '(message, chat_id) := item in
  fun w =>
    match try_finally
            (bot_send_message chat_id message;;
             nap)
            task_done w with
    | (Ret _, w') => (Ret true, w')
    | (Raise CancelledError, w') => (Ret false, w')
    | (Raise e, w') =>
        if is_Exception e then (logging (Err_message_queue e);; ret true) w'
        else (Raise e, w')
    end.

(** The loop, from the items waiting in the queue.  On the empty queue
    [get()] suspends the task; nothing hands over an item during the run, so
    the task stays there unless it is cancelled, which leaves the loop
    without an item taken or marked done. *)
Fixpoint drain (q : list (string * Z)) : M ending :=
  match q with
  | [] => ret (if in_get cancel then Left_by_break else Suspended_in_get)
  | item :: rest =>
      do go_on <- (fun w => process_item item (set_message_queue rest w));
      if go_on then drain rest else ret Left_by_break
  end.

Definition _process_message_queue : M ending :=
  fun w => drain (message_queue w) w.

(** *** check_notifications: one tick of a notification bucket *)


Definition nl : string := String (ascii_of_nat 10) EmptyString.

Section Tick.
Variable server : ASUApi.upstream.
Variable api : ASUApi.t.
(** [self.format_schedule(schedule)] on the raw payload: the text, or the
    exception a malformed record raises. *)
Variable render : json -> res string.
(** [self.db.get_users_for_notification(current_time)]. *)
Variable get_users_for_notification : string -> res (list NotificationRow.t).
(** [strftime('%H:%M')] of the clock, and [strftime('%Y%m%d')] of the
    clock plus one day. *)
Variable hhmm : Z -> string.
Variable tomorrow_of : Z -> string.

Definition datetime_now : M Z := fun w => (Ret (clock w), w).

(** The message for one subscriber: the formatted schedule when the
    lookup gave one ([schedule and 'schedule' in schedule]), the line saying
    there are no classes otherwise. *)
Definition no_classes (tomorrow : string) : string :=
  "📅 На завтра (" +:+ tomorrow +:+ ") занятий нет".

Definition notification_text (tomorrow : string) (schedule : option json)
  : res string :=
  match schedule with
  | Some data =>
      if truthy data then
        res_bind (contains_key "schedule" data) (fun has =>
        if has then
          res_bind (render data) (fun message =>
          Ret ("📅 Расписание на завтра:" +:+ nl +:+ nl +:+ message))
        else Ret (no_classes tomorrow))
      else Ret (no_classes tomorrow)
  | None => Ret (no_classes tomorrow)
  end.

(** The body of [for user in users], with its own [try]. *)
Definition notify_user (user : NotificationRow.t) : M unit :=
  try_except
    (do now <- datetime_now;
     let tomorrow := tomorrow_of now in
     do schedule <- ASUApi.get_schedule server api
                      (pretty (NotificationRow.groupId user)) (Some tomorrow);
     do message <- lift (notification_text tomorrow schedule);
     bot_send_message (NotificationRow.tg_id user) message;;
     logging (Info_notification_sent (NotificationRow.tg_id user)))
    (fun e => logging (Err_notification (NotificationRow.tg_id user) e)).

Fixpoint for_each {A} (l : list A) (body : A -> M unit) : M unit :=
  match l with
  | [] => ret tt
  | x :: rest => body x;; for_each rest body
  end.

Definition check_notifications : M unit :=
  try_except
    (do now <- datetime_now;
     let current_time := hhmm now in
     logging (Info_checking_notifications current_time);;
     do users <- lift (get_users_for_notification current_time);
     logging (Info_found_users (List.length users));;
     for_each users notify_user)
    (fun e => logging (Err_check_notifications e)).

End Tick.

(** *** process_broadcast *)


(** [not u.get('is_banned')]. *)
Definition not_banned (u : UserRow.t) : bool :=
  match UserRow.is_banned u with
  | Some z => (z =? 0)%Z
  | None => true
  end.

Section Broadcast.
(** Whether the [n]-th [reply_text] / [edit_text] to the administrator goes
    through. *)
Variable admin_chat : nat -> bool.
(** [self.db.get_all_users()]. *)
Variable get_all_users : res (list UserRow.t).

Definition post_status (m : status_msg) : M unit :=
  fun w =>
    let ok := admin_chat (List.length (status_msgs w)) in
    (if ok then Ret tt else Raise TelegramError,
     set_status_msgs (status_msgs w ++ [(m, ok)]) w).

(** The body of [for user in users].  The counters are local variables: an
    increment made before an exception is kept, so the handler receives the
    counter as it stands at the point of the raise. *)
Definition broadcast_one (total_users : nat) (message_text : string)
    (user : UserRow.t) (counts : nat * nat) : M (nat * nat) :=
  let '(success_count, fail_count) := counts in
  let handler success_count e :=
    let fail_count := S fail_count in
    logging (Err_broadcast (UserRow.tg_id user) e);;
    ret (success_count, fail_count) in
  try_except
    (bot_send_message (UserRow.tg_id user) message_text;;
     let success_count := S success_count in
     try_except
       ((if Nat.eqb (success_count mod 10) 0
         then post_status (Status_progress success_count total_users fail_count)
         else ret tt);;
        sleep min_delay;;
        ret (success_count, fail_count))
       (handler success_count))
    (handler success_count).

Fixpoint broadcast_loop (total_users : nat) (message_text : string)
    (users : list UserRow.t) (counts : nat * nat) : M (nat * nat) :=
  match users with
  | [] => ret counts
  | user :: rest =>
      do counts <- broadcast_one total_users message_text user counts;
      broadcast_loop total_users message_text rest counts
  end.

Definition process_broadcast (text : option string) : M unit :=
  if negb (truthy_str text) then ret tt
  else
    let message_text := default "" text in
    do all_users <- lift get_all_users;
    let users := List.filter not_banned all_users in
    let total_users := List.length users in
    let success_count := 0 in
    let fail_count := 0 in
    post_status (Status_start total_users);;
    do '(success_count, fail_count) <-
      broadcast_loop total_users message_text users (success_count, fail_count);
    post_status (Status_final success_count fail_count total_users).

End Broadcast.

End Outbound.

End TelegramBot.

(** ** Observations used in the statements *)

(** *** Running a statement *)

(** A statement that can only raise subclasses of [Exception]. *)
Definition safe {A} (m : M A) : Prop :=
  forall w e, result m w = Raise e -> is_Exception e = true.

(** A statement that never raises. *)
Definition total {A} (m : M A) : Prop :=
  forall w, exists a, result m w = Ret a.

(** A statement all of whose runs relate the worlds before and after. *)
Definition keeps (R : world -> world -> Prop) {A} (m : M A) : Prop :=
  forall w, R w (after m w).

(** *** Requests, log records and calls *)

(** The two requests [get_schedule] can issue: the one carrying the
    parameters as built, and the retry after [params.pop('date')]. *)
Definition first_request (api : ASUApi.t) (path : string) (date : option string)
  : request :=
  {| req_url := ASUApi.build_url api path;
     req_params := ASUApi.build_params api date |}.

Definition fallback_request (api : ASUApi.t) (path : string) (date : option string)
  : request :=
  {| req_url := ASUApi.build_url api path;
     req_params := delete "date" (ASUApi.build_params api date) |}.

(** The records logged, the calls made and the status messages posted
    between two worlds. *)
Definition new_log (w w' : world) : list log_record :=
  drop (List.length (log w)) (log w').
Definition new_calls (w w' : world) : list bot_call :=
  drop (List.length (bot_calls w)) (bot_calls w').
Definition new_status (w w' : world) : list (status_msg * bool) :=
  drop (List.length (status_msgs w)) (status_msgs w').


(** *** The drain loop *)

(** The queue item a call of the channel was made for. *)
Definition item_of_call (c : bot_call) : string * Z := (call_text c, call_chat c).

(** What the [i]-th call of [bot.send_message] came to. *)
Definition outcome_of (tg : TelegramBot.telegram) (i : nat) (c : bot_call)
  : TelegramBot.tg_outcome :=
  tg i (call_chat c) (call_text c).

(** The loop is left after the [i]-th call: the send was cancelled, or it
    returned and the sleep after it was cancelled. *)
Definition leaves_loop (tg : TelegramBot.telegram) (cancel : TelegramBot.interruptions)
    (i : nat) (c : bot_call) : bool :=
  match TelegramBot.sent (outcome_of tg i c) with
  | Ret _ =>
      match TelegramBot.in_sleep cancel (S i) with
      | Some _ => true
      | None => false
      end
  | Raise e => negb (is_Exception e)
  end.

(** The time from the [i]-th call to the end of its turn of the loop: the
    call itself and, when it returned, the sleep. *)
Definition turn_time (tg : TelegramBot.telegram) (cancel : TelegramBot.interruptions)
    (i : nat) (c : bot_call) : Z :=
  (Z.of_nat (TelegramBot.took (outcome_of tg i c))
   + match TelegramBot.sent (outcome_of tg i c) with
     | Ret _ =>
         match TelegramBot.in_sleep cancel (S i) with
         | None => Z.of_nat TelegramBot.min_delay
         | Some ms => Z.of_nat (Nat.min ms TelegramBot.min_delay)
         end
     | Raise _ => 0
     end)%Z.

(** The calls [cs], the first of them the [b]-th call and made at [t],
    follow one another turn by turn, and none but the last leaves the
    loop. *)
Fixpoint in_turns (tg : TelegramBot.telegram) (cancel : TelegramBot.interruptions)
    (b : nat) (t : Z) (cs : list bot_call) : Prop :=
  match cs with
  | [] => True
  | c :: rest =>
      call_time c = t
      /\ (leaves_loop tg cancel b c = true -> rest = [])
      /\ in_turns tg cancel (S b) (t + turn_time tg cancel b c)%Z rest
  end.

(** The time at the end of these turns. *)
Fixpoint end_of_turns (tg : TelegramBot.telegram) (cancel : TelegramBot.interruptions)
    (b : nat) (t : Z) (cs : list bot_call) : Z :=
  match cs with
  | [] => t
  | c :: rest => end_of_turns tg cancel (S b) (t + turn_time tg cancel b c)%Z rest
  end.

(** The errors the loop logs for these calls: one for every send that
    raised an [Exception]. *)
Fixpoint errors_logged (tg : TelegramBot.telegram) (b : nat) (cs : list bot_call)
  : list log_record :=
  match cs with
  | [] => []
  | c :: rest =>
      match TelegramBot.sent (outcome_of tg b c) with
      | Raise e => if is_Exception e then [Err_message_queue e] else []
      | Ret _ => []
      end ++ errors_logged tg (S b) rest
  end.

(** Whether the last of these calls, the first of them the [b]-th, left
    the loop. *)
Fixpoint last_leaves (tg : TelegramBot.telegram) (cancel : TelegramBot.interruptions)
    (b : nat) (cs : list bot_call) : bool :=
  match cs with
  | [] => false
  | c :: rest =>
      match rest with
      | [] => leaves_loop tg cancel b c
      | _ :: _ => last_leaves tg cancel (S b) rest
      end
  end.

(** Nothing cancels the task of the drain loop while it sleeps. *)
Definition sleeps_out (cancel : TelegramBot.interruptions) : Prop :=
  forall n, TelegramBot.in_sleep cancel n = None.

(** *** The tick and the broadcast *)

(** What the tick logs about one subscriber: the notification was sent,
    or an error was logged with the subscriber's id. *)
Definition verdict (r : log_record) : option (Z * bool) :=
  match r with
  | Info_notification_sent tg_id => Some (tg_id, true)
  | Err_notification tg_id _ => Some (tg_id, false)
  | _ => None
  end.

Definition verdicts (l : list log_record) : list (Z * bool) := omap verdict l.

(** A step that logs no verdict and touches neither the outbound channel,
    the delivery queue, the status messages nor the clock. *)
Definition quiet (w w' : world) : Prop :=
  (exists l, log w' = log w ++ l /\ verdicts l = [])
  /\ bot_calls w' = bot_calls w
  /\ message_queue w' = message_queue w
  /\ status_msgs w' = status_msgs w
  /\ clock w' = clock w.

(** A step that leaves the delivery queue as it was. *)
Definition queue_untouched (w w' : world) : Prop :=
  message_queue w' = message_queue w.

(** Telegram never cancels the task: whatever a send raises is an
    [Exception]. *)
Definition no_cancellation (tg : TelegramBot.telegram) : Prop :=
  forall n chat_id text e,
    TelegramBot.sent (tg n chat_id text) = Raise e -> is_Exception e = true.

(** What one turn of the tick's loop does for a subscriber: it logs one
    verdict carrying the subscriber's id and makes at most one call of the
    outbound channel, to that subscriber; a notification logged as sent was
    sent by that call. *)
Definition handled (user : TelegramBot.NotificationRow.t) (w w' : world) : Prop :=
  exists l b cs,
    log w' = log w ++ l
    /\ verdicts l = [(TelegramBot.NotificationRow.tg_id user, b)]
    /\ bot_calls w' = bot_calls w ++ cs
    /\ ((cs = [] /\ b = false)
        \/ exists c, cs = [c] /\ call_chat c = TelegramBot.NotificationRow.tg_id user).

(** The ids of the subscribers whose notification was logged as sent. *)
Definition sent_to (l : list log_record) : list Z :=
  map fst (List.filter snd (verdicts l)).

(** A progress message of a broadcast. *)
Definition is_progress (m : status_msg * bool) : Prop :=
  match fst m with
  | Status_progress _ _ _ => True
  | _ => False
  end.

(** What one turn of the broadcast loop does: exactly one call of the
    outbound channel, to the user and with the broadcast text; the delivery
    queue stays as it was and only progress messages are posted. *)
Definition attempted (message_text : string) (user : TelegramBot.UserRow.t)
    (w w' : world) : Prop :=
  (exists c,
      bot_calls w' = bot_calls w ++ [c]
      /\ call_chat c = TelegramBot.UserRow.tg_id user
      /\ call_text c = message_text)
  /\ exists st, status_msgs w' = status_msgs w ++ st /\ Forall is_progress st.

(** *** Lookups through the cache *)










(** *** Digit strings *)

(** The number a string of decimal digits writes. *)
Fixpoint decimal (s : string) : N :=
  match s with
  | EmptyString => 0
  | String a t => (N_of_ascii a - 48) * 10 ^ N.of_nat (String.length t) + decimal t
  end.

(** Two strings written alike: of one length, with digits in the same
    places and the same characters elsewhere, as two ['%Y%m%d'] dates are,
    or two zero-padded times. *)
Fixpoint same_layout (a b : string) : bool :=
  match a, b with
  | EmptyString, EmptyString => true
  | String x a', String y b' =>
      (if ASUApi.is_digit x then ASUApi.is_digit y else Ascii.eqb x y)
      && same_layout a' b'
  | _, _ => false
  end.

(** The digits of a string, and the number they spell. *)
Fixpoint digits_of (s : string) : string :=
  match s with
  | EmptyString => EmptyString
  | String x s' => if ASUApi.is_digit x then String x (digits_of s') else digits_of s'
  end.

Definition number_of (s : string) : N := decimal (digits_of s).

(** ** Sample data *)

(** A sample deployment used in the examples. *)
Definition demo_api : ASUApi.t :=
  {| ASUApi.base_url := "https://asu.example/api/"; ASUApi.api_token := "T" |}.

(** A well-formed payload with no records, and one with a single record. *)
Definition empty_payload : json :=
  JObj {[ "schedule" := JObj {[ "records" := JArr [] ]} ]}.
Definition one_record_payload : json :=
  JObj {[ "schedule" := JObj {[ "records" := JArr [JObj {[ "lessonDate" := JStr "20240102" ]}] ]} ]}.

(** Servers that always answer the same way. *)
Definition empty_server : ASUApi.upstream :=
  fun _ _ => ASUApi.Response 200 "{}" (Some empty_payload).
Definition one_record_server : ASUApi.upstream :=
  fun _ _ => ASUApi.Response 200 "{}" (Some one_record_payload).

(** A sample payload: four lessons on two days for two groups, out of
    order, and the dictionaries the handlers pass to [format_schedule]. *)
Definition group_4 : TelegramBot.lesson_group :=
  {| TelegramBot.groupId := 4242; TelegramBot.groupCode := "305s11-4" |}.
Definition group_5 : TelegramBot.lesson_group :=
  {| TelegramBot.groupId := 4243; TelegramBot.groupCode := "305s11-5" |}.

Definition demo_lesson (date start title : string)
    (groups : list TelegramBot.lesson_group) : TelegramBot.lesson :=
  {| TelegramBot.lessonDate := date;
     TelegramBot.lessonTimeStart := start;
     TelegramBot.lessonTimeEnd := "";
     TelegramBot.subjectTitle := title;
     TelegramBot.lessonSubjectType := "";
     TelegramBot.lessonLecturers := ["Ivanov"];
     TelegramBot.lessonGroups := groups |}.

Definition demo_records : list TelegramBot.lesson :=
  [ demo_lesson "20240102" "10:00" "Algebra" [group_4];
    demo_lesson "20240102" "08:30" "Physics" [group_4; group_5];
    demo_lesson "20240101" "12:00" "History" [group_5];
    demo_lesson "20240101" "09:00" "Logic" [group_4] ].

Definition demo_group_data : TelegramBot.schedule_data :=
  {| TelegramBot.records := demo_records;
     TelegramBot.requested_group := Some group_4;
     TelegramBot.url := Some "https://asu.example/api/timetable/students/15/4242" |}.

(** Two lessons of one day whose start times are not padded, the earlier
    one first. *)
Definition unpadded_data : TelegramBot.schedule_data :=
  {| TelegramBot.records :=
       [ demo_lesson "20240102" "9:00" "Logic" [group_4];
         demo_lesson "20240102" "10:00" "Algebra" [group_4] ];
     TelegramBot.requested_group := Some group_4;
     TelegramBot.url := None |}.

Definition demo_lecturer_data : TelegramBot.schedule_data :=
  {| TelegramBot.records := demo_records;
     TelegramBot.requested_group := None;
     TelegramBot.url := Some "https://asu.example/api/timetable/lecturers/15/65/77/" |}.

Definition demo_lecturers (lecturer_id : string) : option string :=
  if String.eqb lecturer_id "77" then Some "Ivanov" else None.

(** Telegram rejecting the first message at once and taking the others. *)
Definition rejects_first : TelegramBot.telegram :=
  fun n _ _ =>
    match n with
    | O => {| TelegramBot.took := 0; TelegramBot.sent := Raise TelegramError |}
    | S _ => {| TelegramBot.took := 0; TelegramBot.sent := Ret tt |}
    end.

(** Telegram taking every message in 20 ms. *)
Definition accepts_all : TelegramBot.telegram :=
  fun _ _ _ => {| TelegramBot.took := 20; TelegramBot.sent := Ret tt |}.

Definition two_queued : world :=
  set_message_queue [("first", 1%Z); ("second", 2%Z)] fresh.

(** A drain loop nothing cancels, one cancelled 10 ms into its first
    sleep, and one cancelled while it waits on the empty queue. *)
Definition undisturbed : TelegramBot.interruptions :=
  {| TelegramBot.in_sleep := fun _ => None; TelegramBot.in_get := false |}.

Definition cancelled_in_first_sleep : TelegramBot.interruptions :=
  {| TelegramBot.in_sleep := fun n => if Nat.eqb n 1 then Some 10 else None;
     TelegramBot.in_get := false |}.

Definition cancelled_when_idle : TelegramBot.interruptions :=
  {| TelegramBot.in_sleep := fun _ => None; TelegramBot.in_get := true |}.

(** Sample users: the second one is banned. *)
Definition demo_users : list TelegramBot.UserRow.t :=
  [ {| TelegramBot.UserRow.tg_id := 11; TelegramBot.UserRow.is_banned := Some 0%Z |};
    {| TelegramBot.UserRow.tg_id := 12; TelegramBot.UserRow.is_banned := Some 1%Z |};
    {| TelegramBot.UserRow.tg_id := 13; TelegramBot.UserRow.is_banned := None |} ].

(** Sample subscribers of one notification bucket. *)
Definition demo_subscribers : list TelegramBot.NotificationRow.t :=
  [ {| TelegramBot.NotificationRow.tg_id := 21;
       TelegramBot.NotificationRow.groupId := 4242;
       TelegramBot.NotificationRow.groupCode := "305s11-4";
       TelegramBot.NotificationRow.notification_time := "08:00" |};
    {| TelegramBot.NotificationRow.tg_id := 22;
       TelegramBot.NotificationRow.groupId := 4243;
       TelegramBot.NotificationRow.groupCode := "305s11-5";
       TelegramBot.NotificationRow.notification_time := "08:00" |} ].

(** Sample collaborators of a tick and of a broadcast. *)
Definition render_plain (data : json) : res string := Ret "schedule".
Definition render_broken (data : json) : res string := Raise KeyError.
Definition subscribers_at (current_time : string)
  : res (list TelegramBot.NotificationRow.t) := Ret demo_subscribers.
Definition hhmm_fixed (now : Z) : string := "08:00".
Definition tomorrow_fixed (now : Z) : string := "20240102".
Definition admin_online (n : nat) : bool := true.

Definition demo_tick (server : ASUApi.upstream) (tg : TelegramBot.telegram)
    (render : json -> res string) : M unit :=
  TelegramBot.check_notifications tg server demo_api render
    subscribers_at hhmm_fixed tomorrow_fixed.

Definition demo_broadcast (tg : TelegramBot.telegram) : M unit :=
  TelegramBot.process_broadcast tg admin_online (Ret demo_users) (Some "hello").

(** ** Further observations *)

(** Handing a list of messages to [send_message], one call each. *)
Definition enqueue_all (msgs : list (Z * string)) : M unit :=
  TelegramBot.for_each msgs (fun m => TelegramBot.send_message (fst m) (snd m)).

(** The queue item [send_message] makes of its arguments. *)
Definition item_of_message (m : Z * string) : string * Z := (snd m, fst m).

(** A world in which the schedule of a group was looked up at time 0 and
    400 seconds have passed since. *)
Definition stale_lookup : world :=
  after (TelegramBot.elapse 400000)
    (after (TelegramBot.get_cached_schedule "4242" "20240102") fresh).


(** A server with nothing for the week asked for, answering the retry
    with a record under an error status. *)
Definition retry_500_server : ASUApi.upstream :=
  fun n _ =>
    match n with
    | O => ASUApi.Response 200 "{}" (Some empty_payload)
    | S _ => ASUApi.Response 500 "{}" (Some one_record_payload)
    end.

(** Telegram cancelling the task at the first send. *)
Definition cancels_first : TelegramBot.telegram :=
  fun n _ _ =>
    match n with
    | O => {| TelegramBot.took := 0; TelegramBot.sent := Raise CancelledError |}
    | S _ => {| TelegramBot.took := 0; TelegramBot.sent := Ret tt |}
    end.



(** The heading of a notification that carries a schedule. *)
Definition with_heading (message : string) : string :=
  "📅 Расписание на завтра:" +:+ TelegramBot.nl +:+ TelegramBot.nl +:+ message.

(** The payload as [get_schedule] tags it, before a handler adds a group:
    the records and the URL of the request. *)
Definition tagged_by_adapter (api : ASUApi.t) (path : string)
    (rs : list TelegramBot.lesson) : TelegramBot.schedule_data :=
  {| TelegramBot.records := rs;
     TelegramBot.requested_group := None;
     TelegramBot.url := Some (ASUApi.build_url api path) |}.

(** The subject [format_schedule] settles on when the URL names a lecturer
    and when it names a group. *)
Definition lecturer_subject (get_lecturer_by_id : string -> option string)
    (lecturer_id : string) : TelegramBot.subject :=
  TelegramBot.unresolved
    match get_lecturer_by_id lecturer_id with
    | Some name => TelegramBot.Heading_lecturer name
    | None => TelegramBot.Heading_blank
    end.

Definition url_group_subject (group_id : string) (rs : list TelegramBot.lesson)
  : TelegramBot.subject :=
  match TelegramBot.find_in_records group_id rs with
  | Some group => TelegramBot.group_subject group
  | None => TelegramBot.unresolved TelegramBot.Heading_blank
  end.

(** The first list stored under a key of an insertion-ordered dict. *)
Fixpoint dict_get {A} (k : string) (d : list (string * A)) : option A :=
  match d with
  | [] => None
  | (k', v) :: rest => if String.eqb k' k then Some v else dict_get k rest
  end.

(** The lessons of the payload the grouping loop files under a date, in
    the order of the payload. *)
Definition filed_under (sub : TelegramBot.subject) (date : string)
    (rs : list TelegramBot.lesson) : list TelegramBot.lesson :=
  List.filter
    (fun l => TelegramBot.kept sub l && String.eqb (TelegramBot.lessonDate l) date) rs.

(** The lessons of a list that start at a given time. *)
Definition starting_at (t : string) (ls : list TelegramBot.lesson)
  : list TelegramBot.lesson :=
  List.filter (fun l => String.eqb (TelegramBot.lessonTimeStart l) t) ls.

(** What the grouping loop has stored under a date once it has gone
    through the lessons [rs]: nothing when none of them is filed there. *)
Definition filing (sub : TelegramBot.subject) (date : string)
    (rs : list TelegramBot.lesson) : option (list TelegramBot.lesson) :=
  match filed_under sub date rs with
  | [] => None
  | ls => Some ls
  end.

(** A group none of the sample lessons is given to, and the dictionary a
    handler passes for it. *)
Definition group_9 : TelegramBot.lesson_group :=
  {| TelegramBot.groupId := 4249; TelegramBot.groupCode := "305s11-9" |}.

Definition demo_other_group_data : TelegramBot.schedule_data :=
  {| TelegramBot.records := demo_records;
     TelegramBot.requested_group := Some group_9;
     TelegramBot.url := Some "https://asu.example/api/timetable/students/15/4249" |}.

(** Two lessons of the sample payload that start together, in payload
    order. *)
Definition demo_same_start : list TelegramBot.lesson :=
  [ demo_lesson "20240102" "08:30" "Physics" [group_4; group_5];
    demo_lesson "20240102" "08:30" "Algebra" [group_4] ].

(** How many of the calls were delivered, the first of them being the
    [i]-th call of the channel. *)
Fixpoint count_delivered (tg : TelegramBot.telegram) (i : nat) (cs : list bot_call)
  : nat :=
  match cs with
  | [] => 0
  | c :: rest =>
      match TelegramBot.sent (tg i (call_chat c) (call_text c)) with
      | Ret _ => 1
      | Raise _ => 0
      end + count_delivered tg (S i) rest
  end.

(** How many of the status messages did not get through. *)
Definition failed_posts (st : list (status_msg * bool)) : nat :=
  List.length (List.filter (fun m => negb (snd m)) st).

(** The success counts the progress messages report. *)
Definition progress_count (m : status_msg * bool) : option nat :=
  match fst m with
  | Status_progress success _ _ => Some success
  | _ => None
  end.

Definition progress_counts (st : list (status_msg * bool)) : list nat :=
  omap progress_count st.

(** The multiples of ten above [s0] and up to [s], and those up to [s]:
    10, 20, ... *)
Definition tens_between (s0 s : nat) : list nat :=
  map (fun k => 10 * k) (seq (S (s0 / 10)) (s / 10 - s0 / 10)).

Definition tens_up_to (s : nat) : list nat := tens_between 0 s.

(** Twelve users, none banned, and a broadcast to them watched by an
    administrator whose chat takes no progress message. *)
Definition twelve_users : list TelegramBot.UserRow.t :=
  map (fun n => {| TelegramBot.UserRow.tg_id := Z.of_nat n;
                   TelegramBot.UserRow.is_banned := None |}) (seq 100 12).

Definition admin_misses_progress (n : nat) : bool :=
  match n with
  | 1 => false
  | _ => true
  end.

(** A world with two stamped keys, one of them older than the time-out:
    group 4242 was looked up at time 0, group 4243 at 200 seconds, and it
    is 400 seconds now. *)
Definition mixed_lookups : world :=
  after (TelegramBot.elapse 200000)
    (after (TelegramBot.get_cached_schedule "4243" "20240102")
       (after (TelegramBot.elapse 200000)
          (after (TelegramBot.get_cached_schedule "4242" "20240102") fresh))).

(** ** button_handler: the dispatch on callback data, and the menus *)

Module ButtonHandler.

(** [InlineKeyboardButton(text, callback_data=...)]. *)
Record button : Type := { text : string; callback_data : string }.

(** The branch of the [if]/[elif] chain that handles a callback query,
    with what the branch reads off the data.  [Unhandled]: no branch
    matches. *)
Inductive branch : Type :=
| Start
| Search_group
| Search_lecturer
| Saved_groups
| Saved_lecturers
| Lecturer (lecturer_id request_type : string)
| Group_today (group_id : string)
| Group_tomorrow (group_id : string)
| Group_week (group_id : string)
| Save_group (group_id : string)
| Save_lecturer (lecturer_id : string)
| Delete_group (group_id : string)
| Delete_lecturer (lecturer_id : string)
| Tech_cards
| Techcard (group_id : string)
| Admin
| Admin_techcards
| Admin_detailed_stats
| Admin_users
| Admin_users_active
| Admin_users_banned
| Admin_users_search
| Admin_users_mass
| Admin_broadcast
| Admin_system
| Admin_graphs
| Admin_users_active_page (action : string)
| Schedule_notification
| Export_schedule
| Notifications
| Notify_setup (group_id : string)
| Set_notify (group_id time : string)
| Notify_disable (group_id : string)
| Groups_page (direction search_query : string) (page : Z)
| Lecturers_page (direction search_query : string) (page : Z)
| Admin_techcard_list
| Admin_techcard_add
| Admin_techcard_action (action : string)
| Admin_clear_cache
| Admin_check_db
| Admin_techcard_stats
| Admin_techcard_search
| Unhandled.

(** [parts[k]]. *)
Definition item (k : nat) (parts : list string) : res string :=
  match parts !! k with
  | Some p => Ret p
  | None => Raise IndexError
  end.

(** [str(n)] for an [int]. *)
Definition str (n : Z) : string := pretty n.

Section Dispatch.
(** [int(s)] on strings other than an optional minus sign followed by
    decimal digits (blanks, a plus sign, underscores, other scripts). *)
Variable other_int : string -> res Z.

(** [int(s)]. *)
Definition int (s : string) : res Z :=
  if ASUApi.strftime_date s then Ret (Z.of_N (decimal s))
  else
    match s with
    | String "-" t =>
        if ASUApi.strftime_date t then Ret (- Z.of_N (decimal t))%Z else other_int s
    | _ => other_int s
    end.

(** The branches that page through search results:
    [parts[0]], [parts[2]], [int(parts[3])]. *)
Definition page_args (data : string) : res (string * string * Z) :=
  let parts := split "_" data in
  res_bind (item 0 parts) (fun direction =>
  res_bind (item 2 parts) (fun search_query =>
  res_bind (item 3 parts) (fun p =>
  res_bind (int p) (fun page =>
  Ret (direction, search_query, page))))).

Definition route (data : string) : res branch :=
  if String.eqb data "start" then Ret Start
  else if String.eqb data "search_group" then Ret Search_group
  else if String.eqb data "search_lecturer" then Ret Search_lecturer
  else if String.eqb data "saved_groups" then Ret Saved_groups
  else if String.eqb data "saved_lecturers" then Ret Saved_lecturers
  else if startswith "lecturer_" data then
    let parts := split "_" data in
    res_bind (item 1 parts) (fun lecturer_id =>
    res_bind (if Nat.ltb 2 (List.length parts) then item 2 parts else Ret "today")
      (fun request_type =>
    Ret (Lecturer lecturer_id request_type)))
  else if startswith "group_" data then
    res_bind (item 1 (split "_" data)) (fun group_id => Ret (Group_today group_id))
  else if startswith "tomorrow_" data then
    res_bind (item 1 (split "_" data)) (fun group_id => Ret (Group_tomorrow group_id))
  else if startswith "week_" data then
    res_bind (item 1 (split "_" data)) (fun group_id => Ret (Group_week group_id))
  else if startswith "save_group_" data then
    res_bind (item 2 (split "_" data)) (fun group_id => Ret (Save_group group_id))
  else if startswith "save_lecturer_" data then
    res_bind (item 2 (split "_" data)) (fun lecturer_id => Ret (Save_lecturer lecturer_id))
  else if startswith "delete_group_" data then
    res_bind (item 2 (split "_" data)) (fun group_id => Ret (Delete_group group_id))
  else if startswith "delete_lecturer_" data then
    res_bind (item 2 (split "_" data)) (fun lecturer_id => Ret (Delete_lecturer lecturer_id))
  else if String.eqb data "tech_cards" then Ret Tech_cards
  else if startswith "techcard_" data then
    res_bind (item 1 (split "_" data)) (fun group_id => Ret (Techcard group_id))
  else if String.eqb data "admin" then Ret Admin
  else if String.eqb data "admin_techcards" then Ret Admin_techcards
  else if String.eqb data "admin_detailed_stats" then Ret Admin_detailed_stats
  else if String.eqb data "admin_users" then Ret Admin_users
  else if String.eqb data "admin_users_active" then Ret Admin_users_active
  else if String.eqb data "admin_users_banned" then Ret Admin_users_banned
  else if String.eqb data "admin_users_search" then Ret Admin_users_search
  else if String.eqb data "admin_users_mass" then Ret Admin_users_mass
  else if String.eqb data "admin_broadcast" then Ret Admin_broadcast
  else if String.eqb data "admin_system" then Ret Admin_system
  else if String.eqb data "admin_graphs" then Ret Admin_graphs
  else if startswith "admin_users_active_" data then
    Ret (Admin_users_active_page (List.last (split "_" data) ""))
  else if String.eqb data "notify_morning" || String.eqb data "notify_evening"
          || String.eqb data "notify_disable" then Ret Schedule_notification
  else if String.eqb data "export_google" || String.eqb data "export_apple"
          || String.eqb data "export_ical" then Ret Export_schedule
  else if String.eqb data "notifications" then Ret Notifications
  else if startswith "notify_setup_" data then
    (* [setup_notification_time] reads the group off the data itself *)
    res_bind (item 2 (split "_" data)) (fun group_id => Ret (Notify_setup group_id))
  else if startswith "set_notify_" data then
    match split "_" data with
    | [_; _; group_id; time] => Ret (Set_notify group_id time)
    | _ => Raise ValueError
    end
  else if startswith "notify_disable_" data then
    res_bind (item 2 (split "_" data)) (fun group_id => Ret (Notify_disable group_id))
  else if startswith "next_page_" data || startswith "prev_page_" data then
    res_bind (page_args data) (fun '(direction, search_query, page) =>
    Ret (Groups_page direction search_query page))
  else if startswith "next_lecturer_" data || startswith "prev_lecturer_" data then
    res_bind (page_args data) (fun '(direction, search_query, page) =>
    Ret (Lecturers_page direction search_query page))
  else if String.eqb data "admin_techcard_list" then Ret Admin_techcard_list
  else if String.eqb data "admin_techcard_add" then Ret Admin_techcard_add
  else if startswith "admin_techcard_" data then
    Ret (Admin_techcard_action (List.last (split "_" data) ""))
  else if String.eqb data "admin_clear_cache" then Ret Admin_clear_cache
  else if String.eqb data "admin_check_db" then Ret Admin_check_db
  else if String.eqb data "admin_techcard_stats" then Ret Admin_techcard_stats
  else if String.eqb data "admin_techcard_search" then Ret Admin_techcard_search
  else Ret Unhandled.

(** Where each button of a keyboard leads. *)
Definition routes (keyboard : list (list button)) : list (list (res branch)) :=
  map (map (fun b => route (callback_data b))) keyboard.

End Dispatch.

(** *** The menus *)

Definition back_to_main_menu : button :=
  {| text := "🔙 Вернуться в главное меню"; callback_data := "start" |}.






(** [admin_techcards_handler] and [admin_users_mass_handler]. *)
Definition admin_techcards_keyboard : list (list button) :=
  [ [ {| text := "➕ Добавить техкарту"; callback_data := "admin_techcard_add" |} ];
    [ {| text := "📋 Список техкарт"; callback_data := "admin_techcard_list" |} ];
    [ {| text := "🔍 Поиск техкарты"; callback_data := "admin_techcard_search" |} ];
    [ {| text := "📊 Статистика"; callback_data := "admin_techcard_stats" |} ];
    [ {| text := "🔙 Назад"; callback_data := "admin" |} ] ].

Definition admin_users_mass_keyboard : list (list button) :=
  [ [ {| text := "📨 Рассылка всем"; callback_data := "admin_broadcast" |} ];
    [ {| text := "🔄 Сброс настроек"; callback_data := "admin_mass_reset" |} ];
    [ {| text := "❌ Удалить неактивных"; callback_data := "admin_mass_delete_inactive" |} ];
    [ {| text := "🔙 Назад"; callback_data := "admin_users" |} ] ].

(** *** Paging through the groups found *)

(** A row of [search_groups]. *)
Record group_row : Type := { groupId : Z; groupCode : string; facultyTitle : string }.

Definition GROUPS_PER_PAGE : Z := 10.

(** [(len(groups) + GROUPS_PER_PAGE - 1) // GROUPS_PER_PAGE]. *)
Definition total_pages {A} (groups : list A) : Z :=
  ((Z.of_nat (List.length groups) + GROUPS_PER_PAGE - 1) / GROUPS_PER_PAGE)%Z.

(** The page shown for the page asked. *)
Definition shown_page (page total : Z) : Z :=
  if (page <? 1)%Z then 1
  else if (total <? page)%Z then total
  else page.

(** A bound of a slice, as Python brings it into the list. *)
Definition slice_bound (n i : Z) : Z :=
  if (i <? 0)%Z then Z.max (i + n) 0 else Z.min i n.

(** [l[start:stop]]. *)
Definition slice {A} (start stop : Z) (l : list A) : list A :=
  let n := Z.of_nat (List.length l) in
  let a := slice_bound n start in
  let b := slice_bound n stop in
  take (Z.to_nat (b - a)) (drop (Z.to_nat a) l).

(** [groups[start_idx:end_idx]] for a page already brought into range. *)
Definition page_slice {A} (page : Z) (groups : list A) : list A :=
  let start_idx := ((page - 1) * GROUPS_PER_PAGE)%Z in
  let end_idx := (start_idx + GROUPS_PER_PAGE)%Z in
  slice start_idx end_idx groups.

Definition current_groups {A} (page : Z) (groups : list A) : list A :=
  page_slice (shown_page page (total_pages groups)) groups.

Definition group_button (group : group_row) : button :=
  {| text := "📋 " +:+ groupCode group +:+ " (" +:+ facultyTitle group +:+ ")";
     callback_data := "group_" +:+ str (groupId group) |}.

Definition nav_buttons (search_query : string) (page total : Z) : list button :=
  (if (1 <? page)%Z
   then [ {| text := "⬅️ Предыдущая";
             callback_data := "prev_page_" +:+ search_query +:+ "_" +:+ str (page - 1)%Z |} ]
   else [])
  ++ [ {| text := "📄 Стр. " +:+ str page +:+ "/" +:+ str total;
          callback_data := "current_page" |} ]
  ++ (if (page <? total)%Z
      then [ {| text := "➡️ Следующая";
                callback_data := "next_page_" +:+ search_query +:+ "_" +:+ str (page + 1)%Z |} ]
      else []).

(** The keyboard of one page of the groups found. *)
Definition groups_keyboard (search_query : string) (page : Z) (groups : list group_row)
  : list (list button) :=
  let total := total_pages groups in
  let page := shown_page page total in
  map (fun group => [group_button group]) (page_slice page groups)
  ++ [ nav_buttons search_query page total;
       [ {| text := "🔍 Новый поиск"; callback_data := "search_group" |} ];
       [ back_to_main_menu ] ].

End ButtonHandler.

(** [int] where only plain decimal numerals are ever parsed. *)
Definition no_other_int (s : string) : res Z := Raise ValueError.

(** The pages of a list, first to last. *)
Definition page_numbers {A} (groups : list A) : list Z :=
  map Z.of_nat (seq 1 (Z.to_nat (ButtonHandler.total_pages groups))).

(** Twenty-three groups found by a search. *)
Definition demo_found : list ButtonHandler.group_row :=
  map (fun n => {| ButtonHandler.groupId := Z.of_nat n;
                   ButtonHandler.groupCode := "305s11-" +:+ pretty n;
                   ButtonHandler.facultyTitle := "Faculty" |}) (seq 1 23).

(** [action in ['next', 'prev']]: the actions the branch for
    ['admin_techcard_...'] data does anything for. *)
Definition turns_techcard_page (action : string) : bool :=
  String.eqb action "next" || String.eqb action "prev".

(** ** Handlers: the chat with the user of an update, beside the world *)

Module Handlers.

(** Records the handlers pass to [logging.warning] and [logging.error]. *)
Inductive note : Type :=
| Err_notify_admin (admin_id : Z) (e : exn)
| Err_update_caused_error (error : string)
| Err_in_error_handler (e : exn)
| Warn_clearing_redis (e : exn)
| Err_clearing_cache (e : exn)
| Err_in_message_handler (e : exn)
| Err_in_admin_broadcast_handler (e : exn)
| Err_in_send_command (e : exn).

(** A message put before the user of the update by [reply_text],
    [edit_text] or [query.answer]. *)
Record shown_msg : Type := {
  body : string;
  reply_markup : list (list ButtonHandler.button)
}.

Definition plain (body : string) : shown_msg :=
  {| body := body; reply_markup := [] |}.

(** The chat with that user: what was put before them, and whether it got
    through; what the handlers logged; [context.user_data['state']]. *)
Record desk : Type := {
  shown : list (shown_msg * bool);
  notes : list note;
  state : option string
}.

Definition empty_desk : desk := {| shown := []; notes := []; state := None |}.

(** Handlers run on the world and the desk. *)
Definition H (A : Type) : Type := world * desk -> res A * (world * desk).

Definition hret {A} (a : A) : H A := fun s => (Ret a, s).
Definition hraise {A} (e : exn) : H A := fun s => (Raise e, s).
Definition hbind {A B} (m : H A) (k : A -> H B) : H B :=
  fun s => match m s with
           | (Ret a, s') => k a s'
           | (Raise e, s') => (Raise e, s')
           end.

#[global] Instance H_ret : MRet H := @hret.
#[global] Instance H_bind : MBind H := fun A B k m => hbind m k.

(** [try: body  except Exception as e: handler e]. *)
Definition htry {A} (body : H A) (handler : exn -> H A) : H A :=
  fun s => match body s with
           | (Raise e, s') => if is_Exception e then handler e s' else (Raise e, s')
           | r => r
           end.

(** A statement of the schedule engine, run by a handler. *)
Definition in_world {A} (m : M A) : H A :=
  fun s => match m (fst s) with
           | (r, w') => (r, (w', snd s))
           end.

Definition note_down (n : note) : H unit :=
  fun s => (Ret tt,
            (fst s, {| shown := shown (snd s); notes := notes (snd s) ++ [n];
                       state := state (snd s) |})).

(** [context.user_data['state'] = v]. *)
Definition set_state (v : option string) : H unit :=
  fun s => (Ret tt,
            (fst s, {| shown := shown (snd s); notes := notes (snd s); state := v |})).

Fixpoint hfor {A} (l : list A) (body : A -> H unit) : H unit :=
  match l with
  | [] => hret tt
  | x :: rest => body x;; hfor rest body
  end.

Definition hresult {A} (m : H A) (s : world * desk) : res A := fst (m s).
Definition hworld {A} (m : H A) (s : world * desk) : world := fst (snd (m s)).
Definition hdesk {A} (m : H A) (s : world * desk) : desk := snd (snd (m s)).

Record tg_user : Type := { user_id : Z; username : option string }.

(** [update.message]. *)
Record message : Type := {
  message_text : option string;
  chat_id : Z;
  chat_type : string;
  (* [reply_to_message and reply_to_message.from_user.id == context.bot.id] *)
  replies_to_the_bot : bool
}.

(** The parts of an [Update] the handlers read. *)
Record update : Type := {
  effective_user : option tg_user;
  effective_chat : option Z;
  update_message : option message;
  callback_query : option string;      (* [callback_query.data] *)
  effective_message : bool             (* there is one to reply to *)
}.

(** [x in ADMIN_IDS]. *)
Definition is_admin (ADMIN_IDS : list Z) (x : Z) : bool := bool_decide (x ∈ ADMIN_IDS).

Section WithChat.
(** Whether the [n]-th message put before the user gets through. *)
Variable chat : nat -> bool.

Definition show (m : shown_msg) : H unit :=
  fun s =>
    let ok := chat (List.length (shown (snd s))) in
    (if ok then Ret tt else Raise TelegramError,
     (fst s, {| shown := shown (snd s) ++ [(m, ok)]; notes := notes (snd s);
                state := state (snd s) |})).

(** [update.message.reply_text]: an update without a message has nothing
    to reply to. *)
Definition reply_text (u : update) (m : shown_msg) : H unit :=
  match update_message u with
  | Some _ => show m
  | None => hraise AttributeError
  end.

(** *** broadcast_command *)

Definition no_access : string := "⛔️ У вас нет доступа к этой команде".

Definition broadcast_usage : string :=
  "❌ Неверный формат команды" +:+ TelegramBot.nl
  +:+ "Использование: /broadcast [текст]".

Section Commands.
Variable tg : TelegramBot.telegram.
Variable admin_chat : nat -> bool.
Variable get_all_users : res (list TelegramBot.UserRow.t).
Variable ADMIN_IDS : list Z.

(** [update.effective_user.id]. *)
Definition effective_user_id (u : update) : H Z :=
  match effective_user u with
  | Some user => hret (user_id user)
  | None => hraise AttributeError
  end.

(** [update.message.text], as [process_broadcast] reads it: [None] also
    when there is no message. *)
Definition text_of (u : update) : option string :=
  match update_message u with
  | Some m => message_text m
  | None => None
  end.

(** [process_broadcast], with its last statement: the state is reset when
    the end is reached. *)
Definition process_broadcast (u : update) : H unit :=
  if negb (truthy_str (text_of u)) then hret tt
  else
    in_world (TelegramBot.process_broadcast tg admin_chat get_all_users (text_of u));;
    set_state None.

Definition broadcast_command (u : update) (args : list string) : H unit :=
  x ← effective_user_id u;
  if negb (is_admin ADMIN_IDS x) then reply_text u (plain no_access)
  else
    match args with
    | [] => reply_text u (plain broadcast_usage)
    | _ =>
        reply_text u (plain "📨 Начинаю рассылку...");;
        process_broadcast u
    end.

(** *** error_handler *)

(** [context.error]: its class, as the handler tells them apart
    ([TimedOut] is a [NetworkError]), and [str(context.error)]. *)
Inductive error_class : Type := TimedOut | NetworkError | Other_error.

Record failure : Type := { class : error_class; repr : string }.

(** [s or 'нет']. *)
Definition or_none (s : option string) : string :=
  match s with
  | Some (String a t) => String a t
  | _ => "нет"
  end.

(** [f"{s}"] for [str | None]. *)
Definition fstr (s : option string) : string := default "None" s.

Definition error_info (u : update) (error : failure) : list string :=
  [ "❌ <b>Произошла ошибка:</b>"; "Ошибка: " +:+ repr error ]
  ++ match effective_user u with
     | Some user =>
         [ "Пользователь ID: " +:+ pretty (user_id user);
           "Username: @" +:+ or_none (username user) ]
     | None => []
     end
  ++ match effective_chat u with
     | Some chat_id => [ "Чат ID: " +:+ pretty chat_id ]
     | None => []
     end
  ++ match callback_query u with
     | Some data => [ "Действие: callback_query = " +:+ data ]
     | None =>
         match update_message u with
         | Some m => [ "Действие: message = " +:+ fstr (message_text m) ]
         | None => []
         end
     end.

(** ["\n".join(lines)]. *)
Definition join_lines (lines : list string) : string :=
  String.concat TelegramBot.nl lines.

Definition user_error_text (error : failure) : string :=
  match class error with
  | TimedOut => "Превышено время ожидания ответа. Попробуйте позже."
  | NetworkError => "Проблемы с сетью. Попробуйте позже."
  | Other_error => "Произошла ошибка при обработке запроса. Попробуйте позже."
  end.

Definition notify_admin (admin_error_text : string) (admin_id : Z) : H unit :=
  htry (in_world (TelegramBot.bot_send_message tg admin_id admin_error_text))
       (fun e => note_down (Err_notify_admin admin_id e)).

(** The handler is also called with no update, for an error raised
    outside the handling of one; [update.effective_user] then raises. *)
Definition error_handler (update : option update) (error : failure) : H unit :=
  htry
    (match update with
     | None => hraise AttributeError
     | Some u =>
         let admin_error_text := join_lines (error_info u error) in
         hfor ADMIN_IDS (notify_admin admin_error_text);;
         (if effective_message u
          then show {| body := user_error_text error;
                       reply_markup :=
                         [[ {| ButtonHandler.text := "🔙 В главное меню";
                               ButtonHandler.callback_data := "start" |} ]] |}
          else hret tt);;
         note_down (Err_update_caused_error (repr error))
     end)
    (fun e => note_down (Err_in_error_handler e)).

(** *** message_handler *)

Definition is_group_chat (m : message) : bool :=
  String.eqb (chat_type m) "group" || String.eqb (chat_type m) "supergroup".

(** The message built in the [except] branch. *)
Definition handler_error_msg (u : update) (e : string) : string :=
  "❌ Произошла ошибка:" +:+ TelegramBot.nl +:+ e +:+ TelegramBot.nl
  +:+ match effective_user u with
      | Some user =>
          "Пользователь ID: " +:+ pretty (user_id user) +:+ TelegramBot.nl
          +:+ "Username: @" +:+ fstr (username user) +:+ TelegramBot.nl
      | None => ""
      end
  +:+ match update_message u with
      | Some m => "Чат ID: " +:+ pretty (chat_id m)
      | None => ""
      end.

(** [str(e)] for the exceptions of the handler. *)
Variable str_of_exn : exn -> string.

(** [self.send_welcome_message]: the class has no such method. *)
Definition send_welcome_message : H unit := hraise AttributeError.

Definition message_handler (u : update) : H unit :=
  htry
    (match update_message u with
     | None => hret tt
     | Some m =>
         match message_text m with
         | None | Some EmptyString => hret tt
         | Some message_text =>
             if is_group_chat m && negb (startswith "/" message_text)
                && negb (replies_to_the_bot m)
             then hret tt
             else
               match effective_user u with
               | None => reply_text u (plain "❌ Не удалось определить пользователя")
               | Some _ =>
                   if startswith "/" message_text then
                     let command := List.hd "" (split "@" message_text) in
                     if String.eqb command "/start" then send_welcome_message
                     else hret tt
                   else hret tt
               end
         end
     end)
    (fun e =>
       reply_text u (plain (handler_error_msg u (str_of_exn e)));;
       note_down (Err_in_message_handler e)).

(** The end of [button_handler], after the chain: a broadcast is awaited
    from this user. *)
Definition broadcast_if_awaited (u : update) : H unit :=
  fun s =>
    match state (snd s) with
    | Some "waiting_for_broadcast" =>
        (x ← effective_user_id u;
         if negb (is_admin ADMIN_IDS x) then hret tt
         else process_broadcast u) s
    | _ => (Ret tt, s)
    end.

(** *** admin_broadcast_handler *)

Definition broadcast_prompt : string :=
  "📨 <b>Рассылка сообщений</b>" +:+ TelegramBot.nl +:+ TelegramBot.nl
  +:+ "Отправьте текст сообщения для рассылки." +:+ TelegramBot.nl
  +:+ "Поддерживается HTML-разметка." +:+ TelegramBot.nl +:+ TelegramBot.nl
  +:+ "<i>Примеры использования HTML:</i>" +:+ TelegramBot.nl
  +:+ "<code>&lt;b&gt;жирный текст&lt;/b&gt;</code>" +:+ TelegramBot.nl
  +:+ "<code>&lt;i&gt;курсив&lt;/i&gt;</code>" +:+ TelegramBot.nl
  +:+ "<code>&lt;code&gt;моноширинный&lt;/code&gt;</code>" +:+ TelegramBot.nl
  +:+ "<code>&lt;a href='URL'&gt;ссылка&lt;/a&gt;</code>" +:+ TelegramBot.nl
  +:+ TelegramBot.nl
  +:+ "Для отмены нажмите кнопку «Отмена»".

Definition admin_broadcast_handler (from_user : Z) : H unit :=
  if negb (is_admin ADMIN_IDS from_user) then show (plain "⛔️ Нет доступа")
  else
    htry
      (show {| body := broadcast_prompt;
               reply_markup :=
                 [[ {| ButtonHandler.text := "🔙 Отмена";
                       ButtonHandler.callback_data := "admin" |} ]] |};;
       set_state (Some "waiting_for_broadcast"))
      (fun e =>
         note_down (Err_in_admin_broadcast_handler e);;
         show (plain "❌ Произошла ошибка")).

End Commands.

(** *** send_command *)

Section SendCommand.
Variable tg : TelegramBot.telegram.
Variable ADMIN_IDS : list Z.
(** [self.db.get_user_by_username] and [self.db.get_user_by_tg_id]: the
    row found, or [None]. *)
Variable get_user_by_username : string -> res (option TelegramBot.UserRow.t).
Variable get_user_by_tg_id : Z -> res (option TelegramBot.UserRow.t).
Variable other_int : string -> res Z.

Definition send_usage : string :=
  "❌ Неверный формат команды" +:+ TelegramBot.nl
  +:+ "Использование: /send [ID/username] [текст]".

(** [target[1:]]. *)
Definition after_first (target : string) : string :=
  match target with
  | String _ rest => rest
  | EmptyString => EmptyString
  end.

(** The user a target names: by name after an [@], by number otherwise. *)
Definition find_target (target : string) : res (option TelegramBot.UserRow.t) :=
  if startswith "@" target then get_user_by_username (after_first target)
  else res_bind (ButtonHandler.int other_int target) get_user_by_tg_id.

Definition send_command (u : update) (args : list string) : H unit :=
  x ← effective_user_id u;
  if negb (is_admin ADMIN_IDS x) then reply_text u (plain no_access)
  else
    if Nat.ltb (List.length args) 2 then reply_text u (plain send_usage)
    else
      let target := List.hd "" args in
      let message_text := String.concat " " (List.tl args) in
      htry
        (user ← in_world (lift (find_target target));
         match user with
         | None => reply_text u (plain "❌ Пользователь не найден")
         | Some user =>
             in_world (TelegramBot.bot_send_message tg (TelegramBot.UserRow.tg_id user)
                         message_text);;
             reply_text u (plain "✅ Сообщение отправлено")
         end)
        (fun e =>
           note_down (Err_in_send_command e);;
           reply_text u (plain "❌ Ошибка при отправке сообщения")).

End SendCommand.

(** *** admin_system_handler and admin_clear_cache_handler *)

Section Caches.
Variable ADMIN_IDS : list Z.
(** Whether the [n]-th round trip to Redis reaches the server. *)
Variable connection : nat -> bool.

(** [self.schedule_cache.clear()] and [self.cache_last_update.clear()]. *)
Definition clear_local_caches : M unit :=
  fun w =>
    (Ret tt,
     {| log := log w; http_sent := http_sent w; bot_calls := bot_calls w;
        status_msgs := status_msgs w; clock := clock w;
        message_queue := message_queue w; tasks_done := tasks_done w;
        redis_store := redis_store w; redis_execs := redis_execs w; lru := lru w;
        cache_last_update := ∅; schedule_cache := ∅;
        adapter_calls := adapter_calls w |}).

(** [self.redis_cache.redis.flushdb()]. *)
Definition flushdb : M unit :=
  fun w =>
    if connection (redis_execs w)
    then (Ret tt, set_redis ∅ (S (redis_execs w)) w)
    else (Raise RedisError, set_redis (redis_store w) (S (redis_execs w)) w).

(** What [psutil] and the database report: memory, processor load, time
    up and the number of users active in the last day, ready for the
    message. *)
Record system_info : Type := {
  memory_usage : string;
  cpu_percent : string;
  uptime : string;
  active_users : nat
}.

Definition system_keyboard : list (list ButtonHandler.button) :=
  [ [ {| ButtonHandler.text := "🔄 Очистить кэш";
         ButtonHandler.callback_data := "admin_clear_cache" |} ];
    [ {| ButtonHandler.text := "📊 Проверить БД";
         ButtonHandler.callback_data := "admin_check_db" |} ];
    [ {| ButtonHandler.text := "🔙 Назад"; ButtonHandler.callback_data := "admin" |} ] ].

Definition system_message (info : system_info) (cached_items : nat) : string :=
  "🖥 <b>Системная информация</b>" +:+ TelegramBot.nl +:+ TelegramBot.nl
  +:+ "💾 Использование памяти: " +:+ memory_usage info +:+ " MB" +:+ TelegramBot.nl
  +:+ "⚡️ Загрузка CPU: " +:+ cpu_percent info +:+ "%" +:+ TelegramBot.nl
  +:+ "⏱ Время работы: " +:+ uptime info +:+ TelegramBot.nl
  +:+ "👥 Активных пользователей (24ч): " +:+ pretty (active_users info) +:+ TelegramBot.nl
  +:+ "📦 Кэшированных элементов: " +:+ pretty cached_items +:+ TelegramBot.nl
  +:+ TelegramBot.nl +:+ "<b>Действия:</b>".

Definition admin_system_handler (from_user : Z) (probe : res system_info) : H unit :=
  if negb (is_admin ADMIN_IDS from_user) then show (plain "⛔️ Нет доступа")
  else
    info ← in_world (lift probe);
    cached_items ← in_world (fun w => (Ret (size (schedule_cache w)), w));
    show {| body := system_message info cached_items; reply_markup := system_keyboard |}.

Definition admin_clear_cache_handler (from_user : Z) (redis_cache : option RedisCache.t)
    (probe : res system_info) : H unit :=
  if negb (is_admin ADMIN_IDS from_user) then show (plain "⛔️ Нет доступа")
  else
    htry
      (in_world clear_local_caches;;
       match redis_cache with
       | Some _ => htry (in_world flushdb) (fun e => note_down (Warn_clearing_redis e))
       | None => hret tt
       end;;
       show (plain "✅ Кэш успешно очищен");;
       admin_system_handler from_user probe)
      (fun e =>
         note_down (Err_clearing_cache e);;
         show (plain "❌ Ошибка при очистке кэша")).

End Caches.

End WithChat.

End Handlers.

(** A chat that takes every message. *)
Definition chat_open (n : nat) : bool := true.

(** The update of a text typed by a user in a private chat. *)
Definition text_update (from : Z) (text : string) : Handlers.update :=
  {| Handlers.effective_user :=
       Some {| Handlers.user_id := from; Handlers.username := None |};
     Handlers.effective_chat := Some from;
     Handlers.update_message :=
       Some {| Handlers.message_text := Some text; Handlers.chat_id := from;
               Handlers.chat_type := "private";
               Handlers.replies_to_the_bot := false |};
     Handlers.callback_query := None;
     Handlers.effective_message := true |}.

(** The update of a button pressed by a user: it carries no message of
    its own. *)
Definition button_update (from : Z) (data : string) : Handlers.update :=
  {| Handlers.effective_user :=
       Some {| Handlers.user_id := from; Handlers.username := None |};
     Handlers.effective_chat := Some from;
     Handlers.update_message := None;
     Handlers.callback_query := Some data;
     Handlers.effective_message := true |}.

Definition demo_failure : Handlers.failure :=
  {| Handlers.class := Handlers.TimedOut; Handlers.repr := "Timed out" |}.

Definition demo_system_info : Handlers.system_info :=
  {| Handlers.memory_usage := "64.0"; Handlers.cpu_percent := "1.5";
     Handlers.uptime := "1:00:00"; Handlers.active_users := 3 |}.

(** Handlers that touch the desk only. *)
Definition keeps_world {A} (m : Handlers.H A) : Prop :=
  forall s, Handlers.hworld m s = fst s.

(** What a handler put before the user. *)
Definition new_shown (d d' : Handlers.desk) : list (Handlers.shown_msg * bool) :=
  drop (List.length (Handlers.shown d)) (Handlers.shown d').

(** A users table with one row, a banned user named ann. *)
Definition ann : TelegramBot.UserRow.t :=
  {| TelegramBot.UserRow.tg_id := 11; TelegramBot.UserRow.is_banned := Some 1%Z |}.

Definition only_ann_by_name (name : string) : res (option TelegramBot.UserRow.t) :=
  if String.eqb name "ann" then Ret (Some ann) else Ret None.

Definition only_ann_by_id (tg_id : Z) : res (option TelegramBot.UserRow.t) :=
  if Z.eqb tg_id 11 then Ret (Some ann) else Ret None.

(** ** shutdown: stopping the bot *)

Module Shutdown.

(** What [shutdown] awaits or calls, in the order of the method. *)
Inductive step : Type :=
| Cancel_queue_task
| Await_queue_task
| Stop_job_queue
| Stop_updater
| Stop_application
| Shutdown_application
| Close_session.

(** What it logs. *)
Inductive entry : Type :=
| Info_starting_shutdown
| Err_stopping_application (e : exn)
| Info_shutdown_completed
| Err_during_shutdown (e : exn).

(** The bot as [shutdown] finds and leaves it: whether the task of the
    delivery queue is there and not done, whether the updater runs, whether
    the adapter holds a session; the steps taken and the log. *)
Record bot : Type := {
  queue_task_pending : bool;
  updater_running : bool;
  session : bool;
  steps : list step;
  entries : list entry
}.

Definition L (A : Type) : Type := bot -> res A * bot.

Definition lret {A} (a : A) : L A := fun s => (Ret a, s).
Definition lbind {A B} (m : L A) (k : A -> L B) : L B :=
  fun s => match m s with
           | (Ret a, s') => k a s'
           | (Raise e, s') => (Raise e, s')
           end.

#[global] Instance L_ret : MRet L := @lret.
#[global] Instance L_bind : MBind L := fun A B k m => lbind m k.

(** [try: body  except Exception as e: handler e]. *)
Definition ltry {A} (body : L A) (handler : exn -> L A) : L A :=
  fun s => match body s with
           | (Raise e, s') => if is_Exception e then handler e s' else (Raise e, s')
           | r => r
           end.

(** [try: body  except asyncio.CancelledError: pass]. *)
Definition pass_cancelled (body : L unit) : L unit :=
  fun s => match body s with
           | (Raise CancelledError, s') => (Ret tt, s')
           | r => r
           end.

Definition taken (c : step) (s : bot) : bot :=
  {| queue_task_pending := queue_task_pending s; updater_running := updater_running s;
     session := session s; steps := steps s ++ [c]; entries := entries s |}.

Definition logging (r : entry) : L unit :=
  fun s => (Ret tt,
            {| queue_task_pending := queue_task_pending s;
               updater_running := updater_running s; session := session s;
               steps := steps s; entries := entries s ++ [r] |}).

Section WithOutcomes.
(** What awaiting a step comes to. *)
Variable outcome : step -> res unit.

Definition await (c : step) : L unit := fun s => (outcome c, taken c s).

(** [self.queue_task.cancel()] only asks for the cancellation. *)
Definition cancel : L unit := fun s => (Ret tt, taken Cancel_queue_task s).

(** [if c: m], for a condition read off the bot. *)
Definition when (c : bot -> bool) (m : L unit) : L unit :=
  fun s => if c s then m s else (Ret tt, s).

(** [self.session = None]. *)
Definition forget_session : L unit :=
  fun s => (Ret tt,
            {| queue_task_pending := queue_task_pending s;
               updater_running := updater_running s; session := false;
               steps := steps s; entries := entries s |}).

(** [ASUApi.close_session]. *)
Definition close_session : L unit :=
  when session (await Close_session;; forget_session).

(** [hasattr(self.application, 'job_queue')] holds of every application. *)
Definition shutdown : L unit :=
  ltry
    (logging Info_starting_shutdown;;
     when queue_task_pending (cancel;; pass_cancelled (await Await_queue_task));;
     await Stop_job_queue;;
     when updater_running (await Stop_updater);;
     ltry (await Stop_application;; await Shutdown_application)
          (fun e => logging (Err_stopping_application e));;
     when session close_session;;
     logging Info_shutdown_completed)
    (fun e => logging (Err_during_shutdown e)).

(** The queue task ends on its cancellation, by returning or by the
    cancellation coming out of it. *)
Definition queue_task_ends : Prop :=
  outcome Await_queue_task = Ret tt \/ outcome Await_queue_task = Raise CancelledError.

End WithOutcomes.

(** The steps taken and the entries logged by a run. *)
Definition new_steps (s s' : bot) : list step := drop (List.length (steps s)) (steps s').
Definition new_entries (s s' : bot) : list entry :=
  drop (List.length (entries s)) (entries s').

End Shutdown.

(** A running bot with a session, and a job queue that fails to stop. *)
Definition running_bot : Shutdown.bot :=
  {| Shutdown.queue_task_pending := true; Shutdown.updater_running := true;
     Shutdown.session := true; Shutdown.steps := []; Shutdown.entries := [] |}.

Definition job_queue_fails (c : Shutdown.step) : res unit :=
  match c with
  | Shutdown.Stop_job_queue => Raise AttributeError
  | Shutdown.Await_queue_task => Raise CancelledError
  | _ => Ret tt
  end.

(** * Properties *)

(** ** The built-ins on sample arguments *)

Example rstrip_slashes : rstrip "/" "https://asu.example/api//" = "https://asu.example/api".
Proof. reflexivity. Qed.

Example split_keeps_empty_fields : split "/" "a/b/" = ["a"; "b"; ""].
Proof. reflexivity. Qed.

Example split_of_empty : split "/" "" = [""].
Proof. reflexivity. Qed.

Example lecturer_id_of_url :
  from_end 2 (split "/" (ASUApi.build_url demo_api "lecturers/15/65/77")) = Some "77".
Proof. reflexivity. Qed.

Example group_url :
  ASUApi.build_url demo_api "4242" = "https://asu.example/api/timetable/students/15/4242".
Proof. reflexivity. Qed.

Example week_request : ASUApi.is_week_request (Some "20240101-20240107") = true.
Proof. reflexivity. Qed.

Example day_request : ASUApi.is_week_request (Some "20240102") = false.
Proof. reflexivity. Qed.

Example no_date_request : ASUApi.is_week_request None = false.
Proof. reflexivity. Qed.

(** Lessons that start at the same time keep the order of the payload. *)
Example sort_is_stable :
  map TelegramBot.subjectTitle
    (TelegramBot.sort_by TelegramBot.lessonTimeStart
       [ demo_lesson "20240102" "10:00" "Algebra" [group_4];
         demo_lesson "20240102" "08:30" "Physics" [group_4];
         demo_lesson "20240102" "10:00" "Biology" [group_4] ])
  = ["Physics"; "Algebra"; "Biology"].
Proof. reflexivity. Qed.

(** ** Running statements *)

Lemma result_bind {A B} (m : M A) (k : A -> M B) w a :
  result m w = Ret a -> bind m k w = k a (after m w).
Proof.
  unfold result, after, bind. destruct (m w) as [[x|e] w']; simpl; congruence.
Qed.

Lemma total_safe {A} (m : M A) : total m -> safe m.
Proof. intros H w e He. destruct (H w) as [a Ha]. congruence. Qed.

Lemma safe_ret {A} (a : A) : safe (ret a).
Proof. intros w e. unfold result, ret. simpl. discriminate. Qed.

Lemma safe_bind {A B} (m : M A) (k : A -> M B) :
  safe m -> (forall a, safe (k a)) -> safe (bind m k).
Proof.
  intros Hm Hk w e. unfold result, bind.
  specialize (Hm w). unfold result in Hm.
  destruct (m w) as [[a|e'] w'] eqn:E; simpl in *.
  - apply Hk.
  - intros [= ->]. apply Hm. reflexivity.
Qed.

Lemma safe_logging r : safe (logging r).
Proof. intros w e. unfold result, logging. simpl. discriminate. Qed.

Lemma safe_lift {A} (r : res A) :
  (forall e, r = Raise e -> is_Exception e = true) -> safe (lift r).
Proof. intros H w e. unfold result, lift. simpl. apply H. Qed.

Lemma total_ret {A} (a : A) : total (ret a).
Proof. intros w. exists a. reflexivity. Qed.

Lemma total_logging r : total (logging r).
Proof. intros w. exists tt. reflexivity. Qed.

Lemma total_bind {A B} (m : M A) (k : A -> M B) :
  total m -> (forall a, total (k a)) -> total (bind m k).
Proof.
  intros Hm Hk w. destruct (Hm w) as [a Ha].
  unfold result. rewrite (result_bind _ _ _ _ Ha). apply Hk.
Qed.

(** [try ... except Exception] around a safe body never raises, as long as
    the handler does not. *)
Lemma total_try_except {A} (body : M A) (handler : exn -> M A) :
  safe body -> (forall e, total (handler e)) -> total (try_except body handler).
Proof.
  intros Hb Hh w. unfold result, try_except.
  specialize (Hb w). unfold result in Hb.
  destruct (body w) as [[a|e] w'] eqn:E; simpl in *.
  - eauto.
  - rewrite (Hb e eq_refl). apply Hh.
Qed.

Section Keeps.
Context (R : world -> world -> Prop).
Hypothesis R_refl : forall w, R w w.
Hypothesis R_trans : forall a b c, R a b -> R b c -> R a c.

Lemma keeps_ret {A} (a : A) : keeps R (ret a).
Proof. intros w. apply R_refl. Qed.

Lemma keeps_raise {A} e : keeps R (@raise A e).
Proof. intros w. apply R_refl. Qed.

Lemma keeps_lift {A} (r : res A) : keeps R (lift r).
Proof. intros w. apply R_refl. Qed.

Lemma keeps_bind {A B} (m : M A) (k : A -> M B) :
  keeps R m -> (forall a, keeps R (k a)) -> keeps R (bind m k).
Proof.
  intros Hm Hk w. unfold after, bind.
  specialize (Hm w). unfold after in Hm.
  destruct (m w) as [[a|e] w']; simpl in *; [|assumption].
  eapply R_trans; [eassumption|]. apply Hk.
Qed.

Lemma keeps_try_except {A} (body : M A) (handler : exn -> M A) :
  keeps R body -> (forall e, keeps R (handler e)) -> keeps R (try_except body handler).
Proof.
  intros Hb Hh w. unfold after, try_except.
  specialize (Hb w). unfold after in Hb.
  destruct (body w) as [[a|e] w']; simpl in *; [assumption|].
  destruct (is_Exception e); simpl; [|assumption].
  eapply R_trans; [eassumption|]. apply Hh.
Qed.

Lemma keeps_try_finally {A} (body : M A) (fin : M unit) :
  keeps R body -> keeps R fin -> keeps R (try_finally body fin).
Proof.
  intros Hb Hf w. unfold after, try_finally.
  specialize (Hb w). unfold after in Hb.
  destruct (body w) as [r w']; simpl in *.
  specialize (Hf w'). unfold after in Hf.
  destruct (fin w') as [[u|e] w'']; simpl in *; eapply R_trans; eassumption.
Qed.

End Keeps.

(** ** The adapter *)

Ltac raises_only_exceptions :=
  unfold ASUApi.has_records, ASUApi.lessons_count, res_bind, contains_key,
    getitem, get, len, setitem;
  repeat case_match; intros; simplify_eq; reflexivity.

Lemma has_records_safe data e :
  ASUApi.has_records data = Raise e -> is_Exception e = true.
Proof. raises_only_exceptions. Qed.

Lemma lessons_count_safe data e :
  ASUApi.lessons_count data = Raise e -> is_Exception e = true.
Proof. raises_only_exceptions. Qed.

Lemma setitem_safe k v data e :
  setitem k v data = Raise e -> is_Exception e = true.
Proof. raises_only_exceptions. Qed.

Section AdapterFacts.
Import ASUApi.
Variable server : upstream.
Variable api : ASUApi.t.
Variable path : string.

Ltac run_adapter :=
  unfold get_schedule, return_schedule, no_records, result, after;
  unfold mbind, M_bind;
  unfold try_except, bind, session_get, logging, response_json, lift, ret, raise;
  simpl.

Ltac handlers :=
  repeat match goal with
         | |- context [if is_Exception ?e then _ else _] =>
             destruct (is_Exception e); simpl
         end.

Ltac adapter_cases :=
  repeat (simpl;
          match goal with
          | |- context [match server ?n ?r with _ => _ end] =>
              destruct (server n r) as [|? ? [?|]]
          | |- context [if (?s =? 200)%Z then _ else _] =>
              destruct (s =? 200)%Z eqn:?
          | |- context [match has_records ?d with _ => _ end] =>
              destruct (has_records d) as [[|]|?] eqn:?
          | |- context [match lessons_count ?d with _ => _ end] =>
              destruct (lessons_count d) eqn:?
          | |- context [match setitem ?k ?v ?d with _ => _ end] =>
              destruct (setitem k v d) eqn:?
          | |- context [if is_week_request ?d then _ else _] =>
              destruct (is_week_request d) eqn:?
          end);
  simpl.

Lemma week_empty_issues_fallback date w text data :
  is_week_request date = true ->
  server (List.length (http_sent w)) (first_request api path date)
    = Response 200 text (Some data) ->
  has_records data = Ret false ->
  http_sent (after (get_schedule server api path date) w)
    = http_sent w ++ [first_request api path date; fallback_request api path date].
Proof.
  intros Hweek Hfirst Hempty. run_adapter.
  fold (first_request api path date). rewrite Hfirst. simpl.
  rewrite Hempty, Hweek. simpl.
  adapter_cases; handlers; rewrite <- app_assoc; reflexivity.
Qed.

Lemma single_request_without_week date w :
  is_week_request date = false ->
  http_sent (after (get_schedule server api path date) w)
    = http_sent w ++ [first_request api path date].
Proof.
  intros Hweek. run_adapter. rewrite Hweek.
  adapter_cases; handlers; reflexivity.
Qed.

Lemma never_raises date : total (get_schedule server api path date).
Proof.
  intros w. run_adapter.
  adapter_cases; eauto;
    repeat match goal with
           | H : has_records _ = Raise _ |- _ =>
               apply has_records_safe in H; rewrite H; simpl
           | H : lessons_count _ = Raise _ |- _ =>
               apply lessons_count_safe in H; rewrite H; simpl
           | H : setitem _ _ _ = Raise _ |- _ =>
               apply setitem_safe in H; rewrite H; simpl
           end; eauto.
Qed.

End AdapterFacts.

Lemma prefix_empty s : String.prefix "" s = true.
Proof. destruct s; reflexivity. Qed.

Lemma contains_char_cons c b s :
  contains (String c "") (String b s)
  = Ascii.eqb c b || contains (String c "") s.
Proof.
  unfold contains. simpl. rewrite prefix_empty.
  destruct (ascii_dec c b) as [->|Hne].
  - now rewrite Ascii.eqb_refl.
  - apply Ascii.eqb_neq in Hne. rewrite Hne. simpl.
    destruct (String.index 0 (String c "") s); reflexivity.
Qed.

Lemma digits_have_no_dash d :
  ASUApi.all_digits d = true -> contains "-" d = false.
Proof.
  induction d as [|a d IH]; [reflexivity|].
  simpl. intros [Ha Hd]%andb_prop. rewrite contains_char_cons, (IH Hd).
  rewrite orb_false_r. apply Ascii.eqb_neq. intros <-. discriminate.
Qed.

Lemma range_has_dash d1 d2 : contains "-" (d1 +:+ "-" +:+ d2) = true.
Proof.
  induction d1 as [|a d1 IH]; simpl.
  - change (contains "-" (String "-" d2) = true). now rewrite contains_char_cons.
  - change (contains "-" (String a (d1 +:+ "-" +:+ d2)) = true).
    rewrite contains_char_cons, IH. apply orb_true_r.
Qed.

Lemma week_request_iff_range ds :
  ASUApi.wf_date_spec ds = true ->
  ASUApi.is_week_request (Some (ASUApi.date_param ds))
  = match ds with ASUApi.Date_range _ _ => true | ASUApi.Single_date _ => false end.
Proof.
  unfold ASUApi.is_week_request. destruct ds as [d|d1 d2]; simpl.
  - intros [Hd _]%andb_prop. rewrite (digits_have_no_dash _ Hd). apply andb_false_r.
  - intros _. rewrite range_has_dash. destruct d1; reflexivity.
Qed.

(** C1.  A query for a date range whose first answer (HTTP 200, parsed)
    holds no records makes the adapter issue exactly two requests: the
    first one and one retry that is the same request with the [date]
    parameter removed; a query for a single date issues exactly one request,
    whatever the server answers. *)
Theorem fallback_once_only_for_ranges
    (server : ASUApi.upstream) (api : ASUApi.t) (path : string)
    (ds : ASUApi.date_spec) (w : world) :
  ASUApi.wf_date_spec ds = true ->
  let date := Some (ASUApi.date_param ds) in
  let w' := after (ASUApi.get_schedule server api path date) w in
  match ds with
  | ASUApi.Date_range _ _ =>
      req_params (first_request api path date) !! "date" = date /\
      req_params (fallback_request api path date) !! "date" = None /\
      forall text data,
        server (List.length (http_sent w)) (first_request api path date)
          = ASUApi.Response 200 text (Some data) ->
        ASUApi.has_records data = Ret false ->
        http_sent w'
          = http_sent w ++ [first_request api path date; fallback_request api path date]
  | ASUApi.Single_date _ =>
      http_sent w' = http_sent w ++ [first_request api path date]
  end.
Proof.
  intros Hwf date w'. pose proof (week_request_iff_range ds Hwf) as Hweek.
  destruct ds as [d|d1 d2]; fold date in Hweek.
  - apply single_request_without_week. exact Hweek.
  - split; [|split].
    + unfold first_request, ASUApi.build_params. cbn [req_params].
      apply andb_prop in Hweek as [-> _]. apply lookup_insert_eq.
    + unfold fallback_request. simpl. apply lookup_delete_eq.
    + intros text data Hfirst Hempty.
      apply (week_empty_issues_fallback _ _ _ _ _ text data); assumption.
Qed.

Lemma fallback_once_only_for_ranges_witness :
  http_sent (after (ASUApi.get_schedule empty_server demo_api "4242"
                      (Some "20240101-20240107")) fresh)
  = [first_request demo_api "4242" (Some "20240101-20240107");
     fallback_request demo_api "4242" (Some "20240101-20240107")].
Proof.
  pose proof (fallback_once_only_for_ranges empty_server demo_api "4242"
                (ASUApi.Date_range "20240101" "20240107") fresh eq_refl) as H.
  simpl in H. destruct H as (_ & _ & H).
  exact (H "{}" empty_payload eq_refl eq_refl).
Defined.


Lemma wellformed_payload_has_records m s rec recs :
  m !! "schedule" = Some (JObj s) ->
  s !! "records" = Some (JArr (rec :: recs)) ->
  ASUApi.has_records (JObj m) = Ret true
  /\ ASUApi.lessons_count (JObj m) = Ret (S (List.length recs)).
Proof.
  intros Hm Hs. unfold ASUApi.has_records, ASUApi.lessons_count. simpl.
  rewrite Hm. simpl. rewrite ?Hs. simpl.
  rewrite ?bool_decide_true by eauto. simpl. rewrite ?Hs. auto.
Qed.




(** ** The shared cache tier *)

Section RedisFacts.
Import RedisCache.
Context {V : Type}.
Variable dumps : V -> option string.
Variable loads : string -> option V.
Variable connection : nat -> bool.
Variable self : RedisCache.t.

Lemma apply_commands_length cs store :
  List.length (fst (apply_commands cs store)) = List.length cs.
Proof.
  revert store. induction cs as [|c cs IH]; intros store; [reflexivity|].
  simpl. destruct (apply_command c store) as [r store'].
  specialize (IH store'). destruct (apply_commands cs store') as [rs store''].
  simpl in *. now rewrite IH.
Qed.

Lemma decode_length values out :
  decode loads values = Ret out -> List.length out = List.length values.
Proof.
  revert out. induction values as [|v values IH]; intros out; simpl.
  - intros [= <-]. reflexivity.
  - destruct (truthy_reply v); simpl.
    + unfold call_loads. destruct (loads _); simpl; [|discriminate].
      destruct (decode loads values); simpl; [|discriminate].
      intros [= <-]. simpl. now rewrite (IH _ eq_refl).
    + destruct (decode loads values); simpl; [|discriminate].
      intros [= <-]. simpl. now rewrite (IH _ eq_refl).
Qed.

Lemma decode_safe values e :
  decode loads values = Raise e -> is_Exception e = true.
Proof.
  induction values as [|v values IH]; simpl; [discriminate|].
  unfold call_loads.
  destruct (truthy_reply v); simpl;
    [destruct (loads _); simpl; [|intros [= <-]; reflexivity]|];
    (destruct (decode loads values); simpl;
     [discriminate|intros [= <-]; apply IH; reflexivity]).
Qed.

Lemma queue_sets_safe mapping ttl pipeline e :
  queue_sets dumps self mapping ttl pipeline = Raise e -> is_Exception e = true.
Proof.
  revert pipeline. induction mapping as [|[k v] mapping IH]; intros pipeline; simpl;
    [discriminate|].
  unfold call_dumps. destruct (dumps v); simpl; [apply IH|].
  intros [= <-]. reflexivity.
Qed.

Lemma get_many_result keys w :
  exists out,
    result (get_many loads connection self keys) w = Ret out
    /\ List.length out = List.length keys
    /\ (connection (redis_execs w) = false ->
        out = replicate (List.length keys) None
        /\ last (log (after (get_many loads connection self keys) w))
           = Some (Err_redis_get_many RedisError)).
Proof.
  unfold get_many, result, after, try_except, bind, execute, lift. simpl.
  destruct (connection (redis_execs w)); simpl.
  - pose proof (apply_commands_length (map GET keys) (redis_store w)) as Hlen.
    destruct (apply_commands (map GET keys) (redis_store w)) as [replies store'].
    simpl in *. rewrite length_map in Hlen.
    destruct (decode loads replies) as [out|e] eqn:Hdec; simpl.
    + exists out. split; [reflexivity|]. split; [|discriminate].
      rewrite (decode_length _ _ Hdec). exact Hlen.
    + rewrite (decode_safe _ _ Hdec). simpl.
      eexists. split; [reflexivity|]. split; [apply length_replicate|discriminate].
  - eexists. split; [reflexivity|]. split; [apply length_replicate|].
    intros _. split; [reflexivity|]. apply last_snoc.
Qed.

Lemma set_many_result mapping ttl w :
  let w' := after (set_many dumps connection self mapping ttl) w in
  result (set_many dumps connection self mapping ttl) w = Ret tt
  /\ (connection (redis_execs w) = false \/
      (exists e, queue_sets dumps self mapping ttl [] = Raise e) ->
      redis_store w' = redis_store w
      /\ exists e, last (log w') = Some (Err_redis_set_many e)).
Proof.
  unfold set_many, result, after, try_except, bind, execute, lift, logging, ret.
  simpl.
  destruct (queue_sets dumps self mapping ttl []) as [pipeline|e] eqn:Hq; simpl.
  - destruct (connection (redis_execs w)) eqn:Hc; simpl.
    + destruct (apply_commands pipeline (redis_store w)) as [replies store'].
      simpl. split; [reflexivity|].
      intros [?|[e ?]]; discriminate.
    + split; [reflexivity|]. intros _. split; [reflexivity|].
      eexists. apply last_snoc.
  - rewrite (queue_sets_safe _ _ _ _ Hq). simpl.
    split; [reflexivity|]. intros _. split; [reflexivity|].
    eexists. apply last_snoc.
Qed.

End RedisFacts.

(** C9.  A batch get always returns a list with one entry per requested
    key, and a batch set always returns; neither raises.  When the pipeline
    cannot be executed the batch get returns [None] for every key, the batch
    set leaves the store as it was, and each logs the error.  A value that
    cannot be serialised aborts the batch set the same way. *)
Theorem redis_errors_degrade_to_a_miss
    {V : Type} (dumps : V -> option string) (loads : string -> option V)
    (connection : nat -> bool) (self : RedisCache.t)
    (keys : list string) (mapping : list (string * V)) (ttl : option nat)
    (w : world) :
  let get := RedisCache.get_many loads connection self keys in
  let set := RedisCache.set_many dumps connection self mapping ttl in
  (exists out,
      result get w = Ret out
      /\ List.length out = List.length keys
      /\ (connection (redis_execs w) = false ->
          out = replicate (List.length keys) None
          /\ last (log (after get w)) = Some (Err_redis_get_many RedisError)))
  /\ result set w = Ret tt
  /\ (connection (redis_execs w) = false \/
      (exists e, RedisCache.queue_sets dumps self mapping ttl [] = Raise e) ->
      redis_store (after set w) = redis_store w
      /\ exists e, last (log (after set w)) = Some (Err_redis_set_many e)).
Proof.
  intros get set. split; [apply get_many_result|apply set_many_result].
Qed.

(** With the server reachable a batch set followed by a batch get gives
    the values back, and [None] for a key that was never set; the entries
    carry the default time to live. *)
Example batch_set_then_get :
  let dumps (n : nat) : option string := Some (pretty n) in
  let loads (v : string) : option nat :=
    if String.eqb v "7" then Some 7 else None in
  let up (n : nat) := true in
  let w' := after (RedisCache.set_many dumps up RedisCache.init [("a", 7)] None) fresh in
  result (RedisCache.get_many loads up RedisCache.init ["a"; "b"]) w'
  = Ret [Some 7; None]
  /\ redis_store w' !! "a" = Some ("7", 300).
Proof. split; reflexivity. Qed.

Lemma redis_errors_degrade_to_a_miss_witness :
  result (RedisCache.get_many (fun _ : string => @None nat) (fun _ => false)
            RedisCache.init ["a"; "b"]) fresh
  = Ret [None; None].
Proof.
  destruct (redis_errors_degrade_to_a_miss (fun n : nat => Some (pretty n))
              (fun _ => None) (fun _ => false) RedisCache.init ["a"; "b"]
              [("a", 1)] None fresh) as [(out & Hr & _ & Hdown) _].
  destruct (Hdown eq_refl) as [-> _]. exact Hr.
Defined.

(** ** The order Python puts on strings *)

Lemma ascii_compare_trans_le a b c :
  Ascii.compare a b <> Gt -> Ascii.compare b c <> Gt -> Ascii.compare a c <> Gt.
Proof.
  unfold Ascii.compare. rewrite !N.compare_le_iff. lia.
Qed.

Lemma string_leb_trans a b c :
  String.leb a b = true -> String.leb b c = true -> String.leb a c = true.
Proof.
  unfold String.leb. revert b c.
  induction a as [|x a IH]; intros [|y b] [|z c]; simpl; try congruence.
  unfold Ascii.compare.
  destruct (N.compare_spec (N_of_ascii x) (N_of_ascii y)) as [Hxy|Hxy|Hxy];
    destruct (N.compare_spec (N_of_ascii y) (N_of_ascii z)) as [Hyz|Hyz|Hyz];
    destruct (N.compare_spec (N_of_ascii x) (N_of_ascii z)) as [Hxz|Hxz|Hxz];
    try congruence; try lia.
  apply IH.
Qed.

Lemma string_leb_refl a : String.leb a a = true.
Proof. destruct (String.leb_total a a); assumption. Qed.

Lemma string_leb_ne_ltb a b :
  String.leb a b = true -> a <> b -> String.ltb a b = true.
Proof.
  unfold String.leb, String.ltb. intros Hle Hne.
  destruct (String.compare a b) eqn:E; try congruence.
  apply String.compare_eq_iff in E. contradiction.
Qed.

Lemma is_digit_range a :
  ASUApi.is_digit a = true -> (48 <= N_of_ascii a <= 57)%N.
Proof.
  unfold ASUApi.is_digit, nat_of_ascii.
  intros [H1%Nat.leb_le H2%Nat.leb_le]%andb_prop. lia.
Qed.

Lemma decimal_bound s :
  ASUApi.all_digits s = true -> (decimal s < 10 ^ N.of_nat (String.length s))%N.
Proof.
  induction s as [|a t IH]; simpl; [lia|].
  intros [Ha%is_digit_range Ht%IH]%andb_prop.
  rewrite Nat2N.inj_succ, N.pow_succ_r'. nia.
Qed.

(** On digit strings of one length, such as the dates [strftime('%Y%m%d')]
    prints and zero-padded times, the order of the strings is the order of
    the numbers. *)
Lemma digit_strings_compare_as_numbers a b :
  ASUApi.all_digits a = true -> ASUApi.all_digits b = true ->
  String.length a = String.length b ->
  String.compare a b = (decimal a ?= decimal b)%N.
Proof.
  revert b. induction a as [|x a IH]; intros [|y b]; simpl; try discriminate;
    [reflexivity|].
  intros [Hx%is_digit_range Ha]%andb_prop [Hy%is_digit_range Hb]%andb_prop [= Hlen].
  pose proof (decimal_bound a Ha) as Hba. pose proof (decimal_bound b Hb) as Hbb.
  rewrite <- Hlen in *. set (P := (10 ^ N.of_nat (String.length a))%N) in *.
  unfold Ascii.compare.
  destruct (N.compare_spec (N_of_ascii x) (N_of_ascii y)) as [Heq|Hlt|Hgt].
  - rewrite Heq, (IH b Ha Hb Hlen).
    destruct (N.compare_spec (decimal a) (decimal b)); symmetry;
      [apply N.compare_eq_iff|apply N.compare_lt_iff|apply N.compare_gt_iff]; lia.
  - symmetry. apply N.compare_lt_iff. nia.
  - symmetry. apply N.compare_gt_iff. nia.
Qed.

Lemma digits_of_are_digits s : ASUApi.all_digits (digits_of s) = true.
Proof.
  induction s as [|x s IH]; [reflexivity|]. simpl.
  destruct (ASUApi.is_digit x) eqn:Hx; [|exact IH]. simpl. now rewrite Hx.
Qed.

Lemma ascii_compare_refl x : Ascii.compare x x = Eq.
Proof. unfold Ascii.compare. apply N.compare_refl. Qed.

Lemma same_layout_digits a b :
  same_layout a b = true ->
  String.compare a b = String.compare (digits_of a) (digits_of b)
  /\ String.length (digits_of a) = String.length (digits_of b).
Proof.
  revert b. induction a as [|x a IH]; intros [|y b]; simpl; try discriminate; [auto|].
  intros [Hhead Htail]%andb_prop. destruct (IH b Htail) as [Hcmp Hlen].
  destruct (ASUApi.is_digit x) eqn:Hx.
  - rewrite Hhead. simpl. rewrite Hcmp, Hlen. auto.
  - apply Ascii.eqb_eq in Hhead. subst y. rewrite Hx, ascii_compare_refl. auto.
Qed.

(** On strings written alike the order of the strings is the order of
    the numbers their digits spell. *)
Lemma same_layout_compare a b :
  same_layout a b = true ->
  String.compare a b = (number_of a ?= number_of b)%N.
Proof.
  intros [-> Hlen]%same_layout_digits.
  apply digit_strings_compare_as_numbers; [apply digits_of_are_digits..|exact Hlen].
Qed.

Lemma strongly_sorted_mono {A} (R R' : A -> A -> Prop) l :
  (forall a b, R a b -> R' a b) -> StronglySorted R l -> StronglySorted R' l.
Proof.
  intros Himpl. induction 1 as [|x l Hl IH Hx]; constructor; [exact IH|].
  eapply Forall_impl; [exact Hx|]. intros b. apply Himpl.
Qed.

(** ** Sorting by a string key *)

Section SortFacts.
Import TelegramBot.
Context {A : Type} (key : A -> string).

Lemma insert_by_perm x l : insert_by key x l ≡ₚ x :: l.
Proof.
  induction l as [|y t IH]; simpl; [reflexivity|].
  destruct (String.leb (key x) (key y)); [reflexivity|].
  rewrite IH. apply Permutation_swap.
Qed.

Lemma sort_by_perm l : sort_by key l ≡ₚ l.
Proof.
  induction l as [|x t IH]; simpl; [reflexivity|].
  rewrite insert_by_perm. now rewrite IH.
Qed.

Lemma insert_by_hd x y l :
  key_le key y x -> HdRel (key_le key) y l -> HdRel (key_le key) y (insert_by key x l).
Proof.
  intros Hyx Hl. destruct l as [|z t]; simpl.
  - constructor. exact Hyx.
  - destruct (String.leb (key x) (key z)); constructor; [exact Hyx|].
    inversion Hl; assumption.
Qed.

Lemma insert_by_sorted x l :
  Sorted (key_le key) l -> Sorted (key_le key) (insert_by key x l).
Proof.
  induction 1 as [|y t Ht IH Hhd]; simpl.
  - repeat constructor.
  - destruct (String.leb (key x) (key y)) eqn:E.
    + constructor; [constructor; assumption|]. constructor. exact E.
    + constructor; [exact IH|].
      apply insert_by_hd; [|exact Hhd].
      destruct (String.leb_total (key x) (key y)) as [H|H]; [congruence|exact H].
Qed.

Lemma sort_by_sorted l : Sorted (key_le key) (sort_by key l).
Proof.
  induction l as [|x t IH]; simpl; [constructor|].
  apply insert_by_sorted. exact IH.
Qed.

Lemma sort_by_strongly_sorted l : StronglySorted (key_le key) (sort_by key l).
Proof.
  apply Sorted_StronglySorted; [|apply sort_by_sorted].
  intros x y z. unfold key_le. apply string_leb_trans.
Qed.

End SortFacts.

(** ** format_schedule *)

Section FormatFacts.
Import TelegramBot.
Variable get_lecturer_by_id : string -> option string.

Lemma dict_append_keys date l d :
  map fst (dict_append date l d)
  = if bool_decide (date ∈ map fst d) then map fst d else map fst d ++ [date].
Proof.
  induction d as [|[k ls] rest IH]; simpl; [reflexivity|].
  destruct (String.eqb_spec k date) as [->|Hne]; simpl.
  - rewrite bool_decide_true by (left). reflexivity.
  - rewrite IH. destruct (bool_decide (date ∈ map fst rest)) eqn:E.
    + apply bool_decide_eq_true in E. rewrite bool_decide_true by (now right).
      reflexivity.
    + apply bool_decide_eq_false in E.
      rewrite bool_decide_false; [reflexivity|].
      intros [?|?]%elem_of_cons; congruence.
Qed.

Lemma dict_append_grouped l d :
  well_grouped d -> well_grouped (dict_append (lessonDate l) l d).
Proof.
  intros [Hnd Hall]. split.
  - rewrite dict_append_keys. case_bool_decide as Hin; [exact Hnd|].
    apply NoDup_app. split; [exact Hnd|]. split; [|apply NoDup_singleton].
    intros x Hx ->%list_elem_of_singleton. contradiction.
  - clear Hnd. induction d as [|[k ls] rest IH]; simpl.
    + repeat constructor.
    + apply Forall_cons in Hall as [Hk Hrest].
      destruct (String.eqb_spec k (lessonDate l)) as [->|Hne].
      * constructor; [|exact Hrest]. simpl in *.
        apply Forall_app. split; [exact Hk|]. repeat constructor.
      * constructor; [exact Hk|]. apply IH. exact Hrest.
Qed.

Lemma dict_append_lessons date l d :
  concat (map snd (dict_append date l d)) ≡ₚ l :: concat (map snd d).
Proof.
  induction d as [|[k ls] rest IH]; simpl; [reflexivity|].
  destruct (String.eqb k date); simpl.
  - rewrite <- app_assoc. simpl.
    rewrite <- Permutation_middle. reflexivity.
  - rewrite IH. rewrite <- Permutation_middle. reflexivity.
Qed.

Lemma lessons_by_date_from sub rs d :
  well_grouped d ->
  let d' := fold_left
              (fun d l => if kept sub l then dict_append (lessonDate l) l d else d)
              rs d in
  well_grouped d'
  /\ concat (map snd d') ≡ₚ concat (map snd d) ++ List.filter (kept sub) rs.
Proof.
  revert d. induction rs as [|l rs IH]; intros d Hd; simpl.
  - split; [exact Hd|]. now rewrite app_nil_r.
  - destruct (kept sub l) eqn:Hk.
    + destruct (IH _ (dict_append_grouped l d Hd)) as [Hg Hp].
      split; [exact Hg|]. simpl in Hp. rewrite Hp, dict_append_lessons.
      simpl. apply Permutation_middle.
    + apply IH. exact Hd.
Qed.

Lemma lessons_by_date_grouped sub rs :
  well_grouped (lessons_by_date sub rs)
  /\ concat (map snd (lessons_by_date sub rs)) ≡ₚ List.filter (kept sub) rs.
Proof.
  apply (lessons_by_date_from sub rs []). split; constructor.
Qed.

Lemma concat_snd_perm (d d' : list (string * list lesson)) :
  d ≡ₚ d' -> concat (map snd d) ≡ₚ concat (map snd d').
Proof.
  induction 1 as [|x l l' _ IH|x y l|l l' l'' _ IH1 _ IH2]; simpl.
  - reflexivity.
  - now rewrite IH.
  - rewrite !app_assoc. apply Permutation_app_tail, Permutation_app_comm.
  - now rewrite IH1.
Qed.

Lemma day_blocks_dates sub rs :
  map fst (day_blocks sub rs) = map fst (sort_by fst (lessons_by_date sub rs)).
Proof.
  unfold day_blocks. rewrite map_map. apply map_ext. intros [d ls]. reflexivity.
Qed.

Lemma day_blocks_lessons sub rs :
  concat (map snd (day_blocks sub rs)) ≡ₚ List.filter (kept sub) rs.
Proof.
  destruct (lessons_by_date_grouped sub rs) as [_ <-].
  rewrite <- (concat_snd_perm _ _ (sort_by_perm fst (lessons_by_date sub rs))).
  unfold day_blocks.
  induction (sort_by fst (lessons_by_date sub rs)) as [|[d ls] rest IH]; simpl;
    [reflexivity|].
  rewrite IH. now rewrite (sort_by_perm lessonTimeStart ls).
Qed.

Lemma sorted_distinct_keys_ascend (d : list (string * list lesson)) :
  StronglySorted (key_le fst) d ->
  NoDup (map fst d) ->
  StronglySorted (fun a b => String.ltb a b = true) (map fst d).
Proof.
  induction 1 as [|x l Hl IH Hx]; simpl; intros Hnd; [constructor|].
  apply NoDup_cons in Hnd as [Hnotin Hnd].
  constructor; [apply IH, Hnd|].
  apply List.Forall_map. rewrite List.Forall_forall in Hx |- *.
  intros y Hy. apply string_leb_ne_ltb; [apply Hx, Hy|].
  intros Heq. apply Hnotin. rewrite Heq.
  apply list_elem_of_In, in_map, Hy.
Qed.

Lemma day_blocks_ordered sub rs :
  StronglySorted (fun a b => String.ltb a b = true) (map fst (day_blocks sub rs))
  /\ Forall (fun day =>
               StronglySorted (key_le lessonTimeStart) (snd day)
               /\ Forall (fun l => lessonDate l = fst day) (snd day))
            (day_blocks sub rs).
Proof.
  destruct (lessons_by_date_grouped sub rs) as [[Hnd Hall] _].
  pose proof (sort_by_perm fst (lessons_by_date sub rs)) as Hperm.
  split.
  - rewrite day_blocks_dates.
    apply sorted_distinct_keys_ascend; [apply sort_by_strongly_sorted|].
    now rewrite Hperm.
  - unfold day_blocks. apply List.Forall_map. rewrite Hperm.
    eapply Forall_impl; [exact Hall|].
    intros [d ls] Hd. simpl in *. split; [apply sort_by_strongly_sorted|].
    now rewrite sort_by_perm.
Qed.

Lemma dict_append_not_empty date l d :
  Forall (fun day => snd day <> []) d ->
  Forall (fun day => snd day <> []) (dict_append date l d).
Proof.
  induction 1 as [|[k ls] rest Hk Hrest IH]; simpl.
  - repeat constructor. discriminate.
  - destruct (String.eqb k date); constructor; simpl in *; try assumption.
    destruct ls; discriminate.
Qed.

Lemma day_blocks_not_empty sub rs :
  Forall (fun day => snd day <> []) (day_blocks sub rs).
Proof.
  assert (Forall (fun day : string * list lesson => snd day <> [])
            (lessons_by_date sub rs)) as Hfull.
  { unfold lessons_by_date.
    assert (Forall (fun day : string * list lesson => snd day <> []) []) as Hnil
      by constructor.
    revert Hnil. generalize (@nil (string * list lesson)).
    induction rs as [|l rs IH]; intros d Hd; simpl; [exact Hd|].
    apply IH. destruct (kept sub l); [apply dict_append_not_empty|]; exact Hd. }
  unfold day_blocks. apply List.Forall_map.
  rewrite (sort_by_perm fst (lessons_by_date sub rs)).
  eapply Forall_impl; [exact Hfull|].
  intros [d ls] Hls. simpl in *. intros Hnil. apply Hls.
  apply Permutation_nil. rewrite <- Hnil. apply sort_by_perm.
Qed.

Lemma resolve_subject_shape sd sub :
  resolve_subject get_lecturer_by_id sd = Ret sub ->
  (exists g, sub = group_subject g) \/ (exists h, sub = unresolved h).
Proof.
  unfold resolve_subject. repeat case_match; intros; simplify_eq; eauto.
Qed.

Lemma in_groups_elem code codes :
  in_groups (Some code) codes = true -> code ∈ codes.
Proof.
  simpl. intros (x & Hx & ->%String.eqb_eq)%existsb_exists.
  now apply list_elem_of_In.
Qed.

Lemma format_schedule_inv sd sub days :
  format_schedule get_lecturer_by_id (Some sd) = Ret (Schedule sub days) ->
  resolve_subject get_lecturer_by_id sd = Ret sub
  /\ days = day_blocks sub (records sd).
Proof.
  unfold format_schedule. destruct (records sd); [discriminate|].
  destruct (resolve_subject get_lecturer_by_id sd); simpl; [|discriminate].
  intros [= <- <-]. auto.
Qed.

End FormatFacts.

(** C5.  For a schedule resolved to a group, the lessons written out are
    exactly the fetched lessons whose group list holds the resolved group
    code, so every one of them holds it; for a lecturer's schedule (no
    requested group, a lecturer URL) no filter is applied and every fetched
    lesson is written out. *)
Theorem group_filter_keeps_only_the_group
    (get_lecturer_by_id : string -> option string)
    (sd : TelegramBot.schedule_data) (sub : TelegramBot.subject)
    (days : list (string * list TelegramBot.lesson)) :
  TelegramBot.format_schedule get_lecturer_by_id (Some sd)
    = Ret (TelegramBot.Schedule sub days) ->
  let shown := TelegramBot.lessons_of (TelegramBot.Schedule sub days) in
  (TelegramBot.is_group_schedule sub = true ->
   exists code,
     TelegramBot.target_group sub = Some code
     /\ shown ≡ₚ List.filter
                  (fun l => bool_decide
                              (code ∈ map TelegramBot.groupCode (TelegramBot.lessonGroups l)))
                  (TelegramBot.records sd)
     /\ Forall (fun l => code ∈ map TelegramBot.groupCode (TelegramBot.lessonGroups l))
               shown)
  /\ (forall u,
        TelegramBot.requested_group sd = None ->
        TelegramBot.url sd = Some u ->
        contains "lecturers" u = true ->
        TelegramBot.is_group_schedule sub = false
        /\ shown ≡ₚ TelegramBot.records sd).
Proof.
  intros Hfmt shown.
  destruct (format_schedule_inv _ _ _ _ Hfmt) as [Hsub ->].
  assert (shown ≡ₚ List.filter (TelegramBot.kept sub) (TelegramBot.records sd)) as Hshown
    by apply day_blocks_lessons.
  split.
  - intros Hgroup.
    destruct (resolve_subject_shape _ _ _ Hsub) as [[g ->]|[h ->]]; [|discriminate].
    exists (TelegramBot.groupCode g). split; [reflexivity|].
    assert (forall l, TelegramBot.kept (TelegramBot.group_subject g) l
                      = bool_decide (TelegramBot.groupCode g
                                       ∈ map TelegramBot.groupCode (TelegramBot.lessonGroups l)))
      as Hkept.
    { intros l. unfold TelegramBot.kept. simpl.
      apply eq_true_iff_eq. rewrite bool_decide_eq_true.
      rewrite existsb_exists. split.
      - intros (x & Hx & ->%String.eqb_eq). now apply list_elem_of_In.
      - intros Hin. eexists. split; [apply list_elem_of_In, Hin|apply String.eqb_refl]. }
    split.
    + rewrite Hshown. erewrite filter_ext; [reflexivity|exact Hkept].
    + rewrite Hshown. apply List.Forall_forall. intros l [_ Hl]%filter_In.
      rewrite Hkept in Hl. now apply bool_decide_eq_true in Hl.
  - intros u Hreq Hurl Hlect.
    unfold TelegramBot.resolve_subject in Hsub. rewrite Hreq, Hurl, Hlect in Hsub.
    assert (TelegramBot.is_group_schedule sub = false) as Hno
      by (repeat case_match; simplify_eq; reflexivity).
    split; [exact Hno|]. rewrite Hshown.
    unfold TelegramBot.kept. rewrite Hno.
    clear. induction (TelegramBot.records sd) as [|l rs IH]; simpl; [reflexivity|].
    now rewrite IH.
Qed.

Lemma group_filter_keeps_only_the_group_witness :
  TelegramBot.lessons_of
    (TelegramBot.Schedule (TelegramBot.group_subject group_4)
       (TelegramBot.day_blocks (TelegramBot.group_subject group_4) demo_records))
  ≡ₚ [ demo_lesson "20240102" "10:00" "Algebra" [group_4];
       demo_lesson "20240102" "08:30" "Physics" [group_4; group_5];
       demo_lesson "20240101" "09:00" "Logic" [group_4] ].
Proof.
  destruct (group_filter_keeps_only_the_group demo_lecturers demo_group_data
              (TelegramBot.group_subject group_4)
              (TelegramBot.day_blocks (TelegramBot.group_subject group_4) demo_records)
              eq_refl) as [H _].
  destruct (H eq_refl) as (code & Hcode & Hperm & _).
  injection Hcode as <-. exact Hperm.
Defined.

(** The sample payload formatted for group 305s11-4: the lesson of the
    other group is left out, days and lessons come in order. *)
Example group_schedule_blocks :
  TelegramBot.format_schedule demo_lecturers (Some demo_group_data)
  = Ret (TelegramBot.Schedule (TelegramBot.group_subject group_4)
           [ ("20240101", [demo_lesson "20240101" "09:00" "Logic" [group_4]]);
             ("20240102", [demo_lesson "20240102" "08:30" "Physics" [group_4; group_5];
                           demo_lesson "20240102" "10:00" "Algebra" [group_4]]) ]).
Proof. reflexivity. Qed.

(** The same payload under a lecturer's URL: all four lessons. *)
Example lecturer_schedule_blocks :
  TelegramBot.format_schedule demo_lecturers (Some demo_lecturer_data)
  = Ret (TelegramBot.Schedule (TelegramBot.unresolved (TelegramBot.Heading_lecturer "Ivanov"))
           [ ("20240101", [demo_lesson "20240101" "09:00" "Logic" [group_4];
                           demo_lesson "20240101" "12:00" "History" [group_5]]);
             ("20240102", [demo_lesson "20240102" "08:30" "Physics" [group_4; group_5];
                           demo_lesson "20240102" "10:00" "Algebra" [group_4]]) ]).
Proof. reflexivity. Qed.

(** A group URL whose id occurs in no record resolves no group: nothing is
    filtered and the heading names nobody. *)
Example unknown_group_is_not_filtered :
  TelegramBot.lessons_of_result
    (TelegramBot.format_schedule demo_lecturers
       (Some {| TelegramBot.records := demo_records;
                TelegramBot.requested_group := None;
                TelegramBot.url := Some "https://asu.example/api/timetable/students/15/9" |}))
  = Some (TelegramBot.unresolved TelegramBot.Heading_blank, 4).
Proof. reflexivity. Qed.

(** C6 as stated fails: the lessons of a day are ordered by their start
    times as strings, so that a lesson at ten is written before one at nine
    when the times are not padded. *)
Lemma ten_is_put_before_nine :
  exists sub days,
    TelegramBot.format_schedule demo_lecturers (Some unpadded_data)
    = Ret (TelegramBot.Schedule sub days)
    /\ map (fun day => map TelegramBot.lessonTimeStart (snd day)) days
       = [["10:00"; "9:00"]]
    /\ (number_of "9:00" < number_of "10:00")%N.
Proof. eexists _, _. repeat split. Qed.

(** C6, as the code has it.  A formatted schedule holds every lesson the
    filter kept exactly once, in blocks by date: a block is not empty and
    holds lessons of its date only.  The blocks come in strictly ascending
    order of their dates and the lessons of a block in ascending order of
    their start times, dates and times compared as the strings they are.
    Wherever two of the strings compared are written alike, the numbers
    their digits spell ascend as well: that is the order of the days for
    ['%Y%m%d'] dates and the order of the hours for zero-padded times. *)
Theorem days_and_lessons_come_in_string_order
    (get_lecturer_by_id : string -> option string)
    (schedule : option TelegramBot.schedule_data) (sub : TelegramBot.subject)
    (days : list (string * list TelegramBot.lesson)) :
  TelegramBot.format_schedule get_lecturer_by_id schedule
    = Ret (TelegramBot.Schedule sub days) ->
  exists sd,
    schedule = Some sd
    /\ concat (map snd days) ≡ₚ List.filter (TelegramBot.kept sub) (TelegramBot.records sd)
    /\ Forall (fun day =>
                 snd day <> []
                 /\ Forall (fun l => TelegramBot.lessonDate l = fst day) (snd day))
              days
    /\ StronglySorted
         (fun a b =>
            String.ltb a b = true
            /\ (same_layout a b = true -> (number_of a < number_of b)%N))
         (map fst days)
    /\ Forall (fun day =>
                 StronglySorted
                   (fun l1 l2 =>
                      let t1 := TelegramBot.lessonTimeStart l1 in
                      let t2 := TelegramBot.lessonTimeStart l2 in
                      String.leb t1 t2 = true
                      /\ (same_layout t1 t2 = true -> (number_of t1 <= number_of t2)%N))
                   (snd day))
              days.
Proof.
  destruct schedule as [sd|]; [|discriminate].
  intros [_ ->]%format_schedule_inv. exists sd. split; [reflexivity|].
  split; [apply day_blocks_lessons|].
  destruct (day_blocks_ordered sub (TelegramBot.records sd)) as [Hdays Hblocks].
  pose proof (day_blocks_not_empty sub (TelegramBot.records sd)) as Hfull.
  split; [|split].
  - rewrite List.Forall_forall in Hblocks, Hfull |- *.
    intros day Hday. split; [apply Hfull, Hday|apply Hblocks, Hday].
  - eapply strongly_sorted_mono; [|exact Hdays].
    intros a b Hlt. split; [exact Hlt|]. intros Hlayout.
    unfold N.lt. rewrite <- (same_layout_compare a b Hlayout).
    unfold String.ltb in Hlt. destruct (String.compare a b); congruence.
  - eapply Forall_impl; [exact Hblocks|].
    intros day [Hsorted _]. eapply strongly_sorted_mono; [|exact Hsorted].
    intros l1 l2 Hle. split; [exact Hle|]. intros Hlayout.
    unfold N.le. rewrite <- (same_layout_compare _ _ Hlayout).
    unfold TelegramBot.key_le, String.leb in Hle.
    destruct (String.compare _ _); congruence.
Qed.

Lemma days_and_lessons_come_in_string_order_witness :
  StronglySorted
    (fun a b =>
       String.ltb a b = true /\ (same_layout a b = true -> (number_of a < number_of b)%N))
    (map fst (TelegramBot.day_blocks (TelegramBot.group_subject group_4) demo_records)).
Proof.
  destruct (days_and_lessons_come_in_string_order demo_lecturers (Some demo_group_data)
              (TelegramBot.group_subject group_4)
              (TelegramBot.day_blocks (TelegramBot.group_subject group_4) demo_records)
              eq_refl) as (sd & _ & _ & _ & Hdays & _).
  exact Hdays.
Defined.

(** ** get_cached_schedule *)

Section CacheFacts.
Import TelegramBot.

Lemma same_args_refl k v : same_args k (k, v) = true.
Proof. unfold same_args. simpl. now rewrite !String.eqb_refl. Qed.

Lemma lru_find_head k v c : lru_find k ((k, v) :: c) = Some v.
Proof. unfold lru_find. simpl. now rewrite same_args_refl. Qed.



(** A lookup whose arguments head the lru_cache is a hit: it returns the
    stored value and leaves the adapter alone. *)
Lemma lru_hit group_id date v c w :
  lru w = ((group_id, date), v) :: c ->
  result (get_cached_schedule group_id date) w = Ret v
  /\ adapter_calls (after (get_cached_schedule group_id date) w) = adapter_calls w.
Proof.
  intros Hlru. unfold get_cached_schedule, result, after.
  rewrite Hlru, lru_find_head. auto.
Qed.


















(** The lru_cache knows no time-out: a second lookup an hour after the
    first is still answered from it. *)
Example lru_hit_outlives_the_timeout :
  let lookup := get_cached_schedule "4242" "20240102" in
  adapter_calls (after lookup (after (elapse 3600000) (after lookup fresh)))
  = [("4242", "20240102")].
Proof. reflexivity. Qed.

End CacheFacts.




(** ** What a run added *)

Lemma new_log_app w w' l : log w' = log w ++ l -> new_log w w' = l.
Proof. intros H. unfold new_log. rewrite H. apply drop_app_length. Qed.

Lemma new_calls_app w w' cs : bot_calls w' = bot_calls w ++ cs -> new_calls w w' = cs.
Proof. intros H. unfold new_calls. rewrite H. apply drop_app_length. Qed.

Lemma new_status_app w w' st :
  status_msgs w' = status_msgs w ++ st -> new_status w w' = st.
Proof. intros H. unfold new_status. rewrite H. apply drop_app_length. Qed.

(** ** The drain loop *)

Section DispatcherFacts.
Import TelegramBot.
Variable tg : telegram.
Variable cancel : interruptions.

(** One turn of the loop: one call, for the item; the item is marked done
    whatever the send and the sleep do, an exception of the send is logged,
    and the loop is left exactly when the send or the sleep is cancelled. *)
Lemma process_item_turn item w :
  let b := List.length (bot_calls w) in
  let c := {| call_time := clock w; call_chat := snd item; call_text := fst item |} in
  let w' := after (process_item tg cancel item) w in
  result (process_item tg cancel item) w = Ret (negb (leaves_loop tg cancel b c))
  /\ bot_calls w' = bot_calls w ++ [c]
  /\ clock w' = (clock w + turn_time tg cancel b c)%Z
  /\ log w' = log w ++ errors_logged tg b [c]
  /\ tasks_done w' = S (tasks_done w)
  /\ message_queue w' = message_queue w.
Proof.
  destruct item as [message chat_id].
  unfold process_item, result, after, try_finally, task_done, nap, bot_send_message,
    logging, ret, leaves_loop, turn_time, outcome_of.
  unfold mbind, M_bind, bind.
  cbn [fst snd errors_logged outcome_of call_chat call_text bot_calls set_bot_calls
       set_clock clock log tasks_done message_queue].
  unfold outcome_of. cbn [call_chat call_text].
  rewrite length_app. cbn [List.length]. rewrite Nat.add_1_r.
  destruct (tg (List.length (bot_calls w)) chat_id message) as [took [[]|e]];
    cbn [sent TelegramBot.took].
  - destruct (in_sleep cancel (S (List.length (bot_calls w)))) as [ms|];
      cbn; rewrite app_nil_r; repeat split; lia.
  - destruct e; cbn; rewrite ?app_nil_r; repeat split; lia.
Qed.

Lemma last_leaves_cons b c cs :
  leaves_loop tg cancel b c = false ->
  last_leaves tg cancel b (c :: cs) = last_leaves tg cancel (S b) cs.
Proof. intros Hc. destruct cs; [exact Hc|reflexivity]. Qed.

(** A run of the loop: the calls it makes are for a first part of the
    queue, in order and turn by turn; the items of that part are marked done
    and the others still queued; the run is left by [break] when its last
    call left the loop or the task is cancelled on the empty queue, and it
    stops short of the end of the queue only in the first case. *)
Lemma drain_run q w :
  message_queue w = q ->
  let b := List.length (bot_calls w) in
  let w' := after (drain tg cancel q) w in
  exists cs,
    bot_calls w' = bot_calls w ++ cs
    /\ map item_of_call cs = take (List.length cs) q
    /\ List.length cs <= List.length q
    /\ message_queue w' = drop (List.length cs) q
    /\ tasks_done w' = tasks_done w + List.length cs
    /\ log w' = log w ++ errors_logged tg b cs
    /\ in_turns tg cancel b (clock w) cs
    /\ clock w' = end_of_turns tg cancel b (clock w) cs
    /\ result (drain tg cancel q) w
       = Ret (if last_leaves tg cancel b cs || in_get cancel
              then Left_by_break else Suspended_in_get)
    /\ (last_leaves tg cancel b cs = false -> List.length cs = List.length q).
Proof.
  revert w. induction q as [|item rest IH]; intros w Hq b w'.
  - exists []. subst w'. unfold after, result. simpl. rewrite !app_nil_r.
    repeat split; auto.
  - subst w' b.
    destruct (process_item_turn item (set_message_queue rest w))
      as (Hr & Hcalls & Hclock & Hlog & Hdone & Hqueue).
    cbn [bot_calls set_message_queue clock log tasks_done message_queue] in *.
    set (c0 := {| call_time := clock w; call_chat := snd item; call_text := fst item |})
      in *.
    assert (item_of_call c0 = item) as Hitem by (destruct item; reflexivity).
    unfold result, after in *. cbn [drain]. unfold bind.
    destruct (process_item tg cancel item (set_message_queue rest w)) as [r w1].
    cbn [fst snd] in *. subst r.
    destruct (leaves_loop tg cancel (List.length (bot_calls w)) c0) eqn:Hleave;
      cbn [negb].
    + exists [c0]. unfold ret.
      cbn [List.length map take drop in_turns end_of_turns last_leaves fst snd].
      rewrite Hitem, Hleave, take_0, drop_0. cbn [orb].
      repeat split; try assumption; try lia; try discriminate.
    + destruct (IH w1 Hqueue)
        as (cs & Hcs & Hitems & Hlen & Hrest & Htasks & Hlogs & Hturns & Hend & Hres & Hall).
      rewrite Hcalls, length_app, Nat.add_1_r in Hlogs, Hturns, Hend, Hres, Hall.
      rewrite Hclock in Hturns, Hend.
      exists (c0 :: cs).
      rewrite (last_leaves_cons _ _ _ Hleave).
      cbn [List.length map take drop in_turns end_of_turns fst snd].
      rewrite Hcs, Hcalls, <- app_assoc, Hitem, Hitems, Hrest, Htasks, Hdone, Hlogs, Hlog.
      rewrite <- app_assoc.
      repeat split; try assumption; try lia; try reflexivity.
      * cbn [errors_logged]. rewrite app_nil_r. reflexivity.
      * rewrite Hleave. discriminate.
      * intros Hno. f_equal. apply Hall, Hno.
Qed.

(** Of two calls that follow one another in such turns, the first did
    not leave the loop and the second is made at the end of its turn. *)
Lemma in_turns_next b t cs j c1 :
  in_turns tg cancel b t cs ->
  cs !! j = Some c1 ->
  (leaves_loop tg cancel (b + j) c1 = true -> cs !! S j = None)
  /\ forall c2,
      cs !! S j = Some c2 ->
      leaves_loop tg cancel (b + j) c1 = false
      /\ call_time c2 = (call_time c1 + turn_time tg cancel (b + j) c1)%Z.
Proof.
  revert b t j. induction cs as [|c rest IH]; intros b t j Hturns Hj; [discriminate|].
  destruct Hturns as (Htime & Hlast & Hrest).
  destruct j as [|j].
  - injection Hj as <-. rewrite Nat.add_0_r. split.
    + intros Hleave. rewrite (Hlast Hleave). reflexivity.
    + intros c2 H2. destruct rest as [|c' rest']; [discriminate|].
      injection H2 as <-. destruct Hrest as (Htime' & _). split.
      * destruct (leaves_loop tg cancel b c); [|reflexivity].
        discriminate (Hlast eq_refl).
      * rewrite Htime', Htime. reflexivity.
  - replace (b + S j) with (S b + j) by lia.
    apply (IH (S b) _ j Hrest). exact Hj.
Qed.

End DispatcherFacts.

(** C3, as the code has it.  In a run of the drain loop a call of the
    outbound channel that returns is followed by the next call no sooner
    than the minimum delay after it returned.  A call that raises an
    exception is followed by the next call at once, with no delay, and the
    exception is logged: the log of the run holds the errors of the failed
    sends, in their order, and nothing else.  A call that is cancelled, or
    that returns and is cancelled in the sleep after it, is followed by no
    call: the loop is left. *)
Theorem only_delivered_sends_are_followed_by_the_delay
    (tg : TelegramBot.telegram) (cancel : TelegramBot.interruptions) (w : world) :
  let w' := after (TelegramBot._process_message_queue tg cancel) w in
  new_log w w' = errors_logged tg (List.length (bot_calls w)) (new_calls w w')
  /\ forall i c1,
      List.length (bot_calls w) <= i ->
      bot_calls w' !! i = Some c1 ->
      (leaves_loop tg cancel i c1 = true -> bot_calls w' !! S i = None)
      /\ forall c2,
          bot_calls w' !! S i = Some c2 ->
          match TelegramBot.sent (outcome_of tg i c1) with
          | Ret _ =>
              (call_time c1 + Z.of_nat (TelegramBot.took (outcome_of tg i c1))
               + Z.of_nat TelegramBot.min_delay <= call_time c2)%Z
          | Raise e =>
              is_Exception e = true
              /\ In (Err_message_queue e) (new_log w w')
              /\ call_time c2
                 = (call_time c1 + Z.of_nat (TelegramBot.took (outcome_of tg i c1)))%Z
          end.
Proof.
  intros w'. subst w'. unfold TelegramBot._process_message_queue.
  destruct (drain_run tg cancel (message_queue w) w eq_refl)
    as (cs & Hcs & _ & _ & _ & _ & Hlog & Hturns & _).
  unfold after in *.
  rewrite (new_log_app _ _ _ Hlog), (new_calls_app _ _ _ Hcs), Hcs.
  split; [reflexivity|].
  intros i c1 Hi H1.
  rewrite lookup_app_r in H1 by exact Hi.
  replace (S i) with (List.length (bot_calls w) + S (i - List.length (bot_calls w)))
    by lia.
  rewrite lookup_app_r by lia.
  replace (List.length (bot_calls w) + S (i - List.length (bot_calls w))
           - List.length (bot_calls w))
    with (S (i - List.length (bot_calls w))) by lia.
  destruct (in_turns_next tg cancel _ _ _ _ _ Hturns H1) as [Hstop Hnext].
  replace (List.length (bot_calls w) + (i - List.length (bot_calls w))) with i
    in Hstop, Hnext by lia.
  split; [exact Hstop|].
  intros c2 H2. destruct (Hnext c2 H2) as [Hstay Htime].
  unfold leaves_loop in Hstay. unfold turn_time in Htime.
  destruct (TelegramBot.sent (outcome_of tg i c1)) as [[]|e] eqn:Hsent.
  - destruct (TelegramBot.in_sleep cancel (S i)); [discriminate|]. lia.
  - apply negb_false_iff in Hstay. split; [exact Hstay|]. split; [|lia].
    clear -H1 Hsent Hstay Hi.
    assert (forall b j cs0,
               cs0 !! j = Some c1 ->
               TelegramBot.sent (outcome_of tg (b + j) c1) = Raise e ->
               In (Err_message_queue e) (errors_logged tg b cs0)) as Hin.
    { intros b j cs0. revert b j.
      induction cs0 as [|c rest IH]; intros b j Hj Hs; [discriminate|].
      cbn [errors_logged]. apply in_or_app. destruct j as [|j].
      - left. injection Hj as ->. rewrite Nat.add_0_r in Hs. rewrite Hs, Hstay.
        left. reflexivity.
      - right. apply (IH (S b) j); [exact Hj|].
        replace (S b + j) with (b + S j) by lia. exact Hs. }
    apply (Hin _ (i - List.length (bot_calls w))); [exact H1|].
    replace (List.length (bot_calls w) + (i - List.length (bot_calls w))) with i by lia.
    exact Hsent.
Qed.

Lemma only_delivered_sends_are_followed_by_the_delay_witness :
  let w' := after (TelegramBot._process_message_queue accepts_all undisturbed)
              two_queued in
  exists c1 c2,
    bot_calls w' !! 0 = Some c1
    /\ bot_calls w' !! 1 = Some c2
    /\ (call_time c1 + 20 + Z.of_nat TelegramBot.min_delay <= call_time c2)%Z.
Proof.
  eexists _, _. split; [reflexivity|]. split; [reflexivity|].
  destruct (only_delivered_sends_are_followed_by_the_delay accepts_all undisturbed
              two_queued) as [_ Hcalls].
  destruct (Hcalls 0 _ (Nat.le_refl 0) eq_refl) as [_ Hnext].
  exact (Hnext _ eq_refl).
Defined.

(** Two queued messages, both delivered in 20 ms: the calls are 70 ms
    apart, both items are marked done, and the task is left waiting on the
    empty queue. *)
Example two_deliveries_are_spaced :
  let run := TelegramBot._process_message_queue accepts_all undisturbed in
  map call_time (bot_calls (after run two_queued)) = [0%Z; 70%Z]
  /\ tasks_done (after run two_queued) = 2
  /\ message_queue (after run two_queued) = []
  /\ result run two_queued = Ret TelegramBot.Suspended_in_get.
Proof. repeat split. Qed.

(** Every send is taken, and the task is cancelled in its first sleep, as
    [shutdown] does: the first message is the only one sent, and the second
    stays in the queue. *)
Example cancelled_while_asleep :
  let run := TelegramBot._process_message_queue accepts_all cancelled_in_first_sleep in
  map call_chat (bot_calls (after run two_queued)) = [1%Z]
  /\ message_queue (after run two_queued) = [("second", 2%Z)]
  /\ tasks_done (after run two_queued) = 1
  /\ log (after run two_queued) = []
  /\ result run two_queued = Ret TelegramBot.Left_by_break.
Proof. repeat split. Qed.

(** The task is cancelled in its first send: the item is marked done, no
    error is logged, and the loop is left with the second message queued. *)
Example cancelled_while_sending :
  let run := TelegramBot._process_message_queue cancels_first undisturbed in
  map call_chat (bot_calls (after run two_queued)) = [1%Z]
  /\ message_queue (after run two_queued) = [("second", 2%Z)]
  /\ tasks_done (after run two_queued) = 1
  /\ log (after run two_queued) = []
  /\ result run two_queued = Ret TelegramBot.Left_by_break.
Proof. repeat split. Qed.

(** The queue is drained and the task is cancelled while it waits in
    [get()]: both messages are sent, and the loop is left. *)
Example cancelled_while_waiting :
  let run := TelegramBot._process_message_queue accepts_all cancelled_when_idle in
  map call_chat (bot_calls (after run two_queued)) = [1%Z; 2%Z]
  /\ message_queue (after run two_queued) = []
  /\ tasks_done (after run two_queued) = 2
  /\ result run two_queued = Ret TelegramBot.Left_by_break.
Proof. repeat split. Qed.

(** C3 as stated fails: when the first send raises, the second call is made
    at once. *)
Lemma failed_send_is_not_followed_by_the_delay :
  let w' := after (TelegramBot._process_message_queue rejects_first undisturbed)
              two_queued in
  exists c1 c2,
    bot_calls w' !! 0 = Some c1
    /\ bot_calls w' !! 1 = Some c2
    /\ (call_time c2 - call_time c1 < Z.of_nat TelegramBot.min_delay)%Z.
Proof.
  eexists _, _. split; [reflexivity|]. split; [reflexivity|].
  unfold TelegramBot.min_delay. simpl. lia.
Qed.

(** ** Steps that stay away from the channel and the queue *)

Lemma verdicts_app l1 l2 : verdicts (l1 ++ l2) = verdicts l1 ++ verdicts l2.
Proof. apply omap_app. Qed.

Lemma quiet_refl w : quiet w w.
Proof.
  repeat split. exists []. split; [now rewrite app_nil_r|reflexivity].
Qed.

Lemma quiet_trans a b c : quiet a b -> quiet b c -> quiet a c.
Proof.
  intros ((l1 & Hl1 & Hv1) & ? & ? & ? & ?) ((l2 & Hl2 & Hv2) & ? & ? & ? & ?).
  repeat split; try congruence.
  exists (l1 ++ l2). split.
  - rewrite Hl2, Hl1. now rewrite app_assoc.
  - rewrite verdicts_app, Hv1, Hv2. reflexivity.
Qed.

Lemma quiet_logging r : verdict r = None -> keeps quiet (logging r).
Proof.
  intros Hr w. repeat split. exists [r]. split; [reflexivity|].
  unfold verdicts. simpl. now rewrite Hr.
Qed.

Lemma quiet_session_get server url params :
  keeps quiet (ASUApi.session_get server url params).
Proof.
  intros w. unfold after, ASUApi.session_get.
  destruct (server _ _); simpl; apply (quiet_trans _ w); try apply quiet_refl;
    (repeat split; exists []; split; [now rewrite app_nil_r|reflexivity]).
Qed.

Lemma queue_untouched_refl w : queue_untouched w w.
Proof. reflexivity. Qed.

Lemma queue_untouched_trans a b c :
  queue_untouched a b -> queue_untouched b c -> queue_untouched a c.
Proof. unfold queue_untouched. congruence. Qed.

Lemma quiet_queue_untouched {A} (m : M A) : keeps quiet m -> keeps queue_untouched m.
Proof. intros H w. apply (H w). Qed.

Ltac keeps_steps Hrefl Htrans :=
  repeat first
    [ apply (keeps_ret _ Hrefl)
    | apply (keeps_raise _ Hrefl)
    | apply (keeps_lift _ Hrefl)
    | apply (keeps_bind _ Htrans); [|intros]
    | apply (keeps_try_except _ Htrans); [|intros]
    | apply (keeps_try_finally _ Htrans)
    | match goal with
      | |- keeps _ (match ?x with _ => _ end) => destruct x
      end ].

Lemma quiet_get_schedule server api path date :
  keeps quiet (ASUApi.get_schedule server api path date).
Proof.
  unfold ASUApi.get_schedule, ASUApi.return_schedule, ASUApi.no_records,
    ASUApi.response_json.
  unfold mbind, M_bind.
  keeps_steps quiet_refl quiet_trans;
    try (apply quiet_logging; reflexivity);
    try apply quiet_session_get.
Qed.

(** ** The notification tick *)

Section TickFacts.
Import TelegramBot.
Variable tg : telegram.
Variable server : ASUApi.upstream.
Variable api : ASUApi.t.
Variable render : json -> res string.
Variable get_users_for_notification : string -> res (list NotificationRow.t).
Variable hhmm : Z -> string.
Variable tomorrow_of : Z -> string.

Let notify := notify_user tg server api render tomorrow_of.
Let tick := check_notifications tg server api render get_users_for_notification
              hhmm tomorrow_of.

Lemma queue_untouched_bot_send chat_id text :
  keeps queue_untouched (bot_send_message tg chat_id text).
Proof. intros w. reflexivity. Qed.

Lemma queue_untouched_logging r : keeps queue_untouched (logging r).
Proof. intros w. reflexivity. Qed.

Lemma queue_untouched_notify user : keeps queue_untouched (notify user).
Proof.
  unfold notify, notify_user, datetime_now. unfold mbind, M_bind.
  apply (keeps_try_except _ queue_untouched_trans);
    [|intros; apply queue_untouched_logging].
  apply (keeps_bind _ queue_untouched_trans); [intros w; reflexivity|intros now].
  apply (keeps_bind _ queue_untouched_trans);
    [apply quiet_queue_untouched, quiet_get_schedule|intros schedule].
  apply (keeps_bind _ queue_untouched_trans);
    [apply (keeps_lift _ queue_untouched_refl)|intros message].
  apply (keeps_bind _ queue_untouched_trans);
    [apply queue_untouched_bot_send|intros; apply queue_untouched_logging].
Qed.

Lemma queue_untouched_for_each {A} (l : list A) (body : A -> M unit) :
  (forall x, keeps queue_untouched (body x)) ->
  keeps queue_untouched (for_each l body).
Proof.
  intros Hbody. induction l as [|x rest IH]; simpl.
  - apply (keeps_ret _ queue_untouched_refl).
  - apply (keeps_bind _ queue_untouched_trans); [apply Hbody|intros _; exact IH].
Qed.

Lemma queue_untouched_tick : keeps queue_untouched tick.
Proof.
  unfold tick, check_notifications, datetime_now. unfold mbind, M_bind.
  keeps_steps queue_untouched_refl queue_untouched_trans;
    try apply queue_untouched_logging.
  - intros w. reflexivity.
  - apply queue_untouched_for_each. apply queue_untouched_notify.
Qed.

Hypothesis tg_fails_ordinarily : no_cancellation tg.
Hypothesis render_fails_ordinarily :
  forall data e, render data = Raise e -> is_Exception e = true.

Lemma notification_text_safe tomorrow schedule e :
  notification_text render tomorrow schedule = Raise e -> is_Exception e = true.
Proof.
  unfold notification_text, res_bind, contains_key.
  repeat case_match; intros; simplify_eq; eauto.
Qed.

Lemma notify_handles user w :
  result (notify user) w = Ret tt /\ handled user w (after (notify user) w).
Proof.
  unfold notify, notify_user, result, after, handled.
  unfold mbind, M_bind. unfold try_except, bind, datetime_now, lift. simpl.
  destruct (never_raises server api (pretty (NotificationRow.groupId user))
              (Some (tomorrow_of (clock w))) w) as [schedule Hs].
  pose proof (quiet_get_schedule server api (pretty (NotificationRow.groupId user))
                (Some (tomorrow_of (clock w))) w) as Hq.
  unfold result, after in Hs, Hq.
  destruct (ASUApi.get_schedule _ _ _ _ w) as [r w1]. simpl in Hs, Hq. subst r.
  destruct Hq as ((l & Hl & Hv) & Hcalls & _).
  destruct (notification_text render _ schedule) as [message|e] eqn:Hm; simpl.
  - unfold bot_send_message. simpl.
    destruct (tg _ _ message) as [took [[]|e]] eqn:Hsend; simpl.
    + split; [reflexivity|].
      exists (l ++ [Info_notification_sent (NotificationRow.tg_id user)]), true,
        [{| call_time := clock w1; call_chat := NotificationRow.tg_id user;
            call_text := message |}].
      rewrite Hl, Hcalls, verdicts_app, Hv, app_assoc. eauto 10.
    + assert (is_Exception e = true) as ->.
      { eapply tg_fails_ordinarily. rewrite Hsend. reflexivity. }
      simpl. split; [reflexivity|].
      exists (l ++ [Err_notification (NotificationRow.tg_id user) e]), false,
        [{| call_time := clock w1; call_chat := NotificationRow.tg_id user;
            call_text := message |}].
      rewrite Hl, Hcalls, verdicts_app, Hv, app_assoc. eauto 10.
  - rewrite (notification_text_safe _ _ _ Hm). simpl. split; [reflexivity|].
    exists (l ++ [Err_notification (NotificationRow.tg_id user) e]), false, [].
    rewrite Hl, Hcalls, verdicts_app, Hv, app_assoc, app_nil_r. eauto 10.
Qed.





Lemma sent_to_app l1 l2 : sent_to (l1 ++ l2) = sent_to l1 ++ sent_to l2.
Proof. unfold sent_to. now rewrite verdicts_app, List.filter_app, map_app. Qed.

(** The loop: one verdict per subscriber, in the order of the rows, and no
    notification logged as sent without a call of the channel. *)
Lemma for_each_handles users w :
  result (for_each users notify) w = Ret tt
  /\ exists l cs,
      log (after (for_each users notify) w) = log w ++ l
      /\ map fst (verdicts l) = map NotificationRow.tg_id users
      /\ bot_calls (after (for_each users notify) w) = bot_calls w ++ cs
      /\ sent_to l `sublist_of` map call_chat cs
      /\ List.length cs <= List.length users.
Proof.
  revert w. induction users as [|user rest IH]; intros w.
  - split; [reflexivity|]. exists [], []. simpl. rewrite !app_nil_r.
    repeat split; constructor.
  - destruct (notify_handles user w) as [Hr (l1 & b & cs1 & Hl1 & Hv1 & Hc1 & Hcs1)].
    unfold result, after in *. simpl. unfold mbind, M_bind, bind.
    destruct (notify user w) as [r w1]. simpl in *. subst r.
    destruct (IH w1) as [Hr2 (l2 & cs2 & Hl2 & Hv2 & Hc2 & Hsub & Hlen)].
    split; [exact Hr2|]. exists (l1 ++ l2), (cs1 ++ cs2).
    rewrite Hl2, Hl1, Hc2, Hc1, !app_assoc. split; [reflexivity|].
    rewrite verdicts_app, map_app, Hv1, Hv2. split; [reflexivity|].
    split; [reflexivity|]. rewrite sent_to_app, map_app, length_app. split.
    + apply sublist_app; [|exact Hsub].
      unfold sent_to. rewrite Hv1. simpl.
      destruct Hcs1 as [[-> ->]|(c & -> & Hc)]; simpl; [constructor|].
      rewrite Hc. destruct b; simpl; [reflexivity|]. apply sublist_cons, sublist_nil_l.
    + destruct Hcs1 as [[-> _]|(c & -> & _)]; simpl; lia.
Qed.

Lemma tick_handles users w :
  get_users_for_notification (hhmm (clock w)) = Ret users ->
  result tick w = Ret tt
  /\ exists l cs,
      log (after tick w) = log w ++ l
      /\ map fst (verdicts l) = map NotificationRow.tg_id users
      /\ bot_calls (after tick w) = bot_calls w ++ cs
      /\ sent_to l `sublist_of` map call_chat cs.
Proof.
  intros Hdb. unfold tick, check_notifications, result, after.
  unfold mbind, M_bind. unfold try_except, bind, datetime_now, lift, logging. simpl.
  rewrite Hdb. simpl.
  match goal with
  | |- context [for_each users ?body ?w0] =>
      destruct (for_each_handles users w0) as [Hr (l & cs & Hl & Hv & Hc & Hsub & _)]
  end.
  fold notify. unfold result, after in *.
  destruct (for_each users notify _) as [r w1]. simpl in *. subst r. simpl.
  split; [reflexivity|].
  exists ([Info_checking_notifications (hhmm (clock w));
           Info_found_users (List.length users)] ++ l), cs.
  rewrite Hl, Hc. simpl. rewrite <- !app_assoc. simpl.
  repeat split; assumption.
Qed.

End TickFacts.

(** ** The broadcast *)

Section BroadcastFacts.
Import TelegramBot.
Variable tg : telegram.
Variable admin_chat : nat -> bool.
Variable get_all_users : res (list UserRow.t).

Lemma queue_untouched_post_status m : keeps queue_untouched (post_status admin_chat m).
Proof. intros w. reflexivity. Qed.

Lemma queue_untouched_sleep ms : keeps queue_untouched (sleep ms).
Proof. intros w. reflexivity. Qed.

Lemma queue_untouched_broadcast_one total text user counts :
  keeps queue_untouched (broadcast_one tg admin_chat total text user counts).
Proof.
  unfold broadcast_one. destruct counts as [success_count fail_count].
  unfold mbind, M_bind.
  keeps_steps queue_untouched_refl queue_untouched_trans;
    try apply queue_untouched_logging;
    try apply queue_untouched_bot_send;
    try apply queue_untouched_sleep.
  apply queue_untouched_post_status.
Qed.

Lemma queue_untouched_broadcast_loop total text users counts :
  keeps queue_untouched (broadcast_loop tg admin_chat total text users counts).
Proof.
  revert counts. induction users as [|user rest IH]; intros counts; simpl.
  - apply (keeps_ret _ queue_untouched_refl).
  - apply (keeps_bind _ queue_untouched_trans);
      [apply queue_untouched_broadcast_one|intros; apply IH].
Qed.

Lemma queue_untouched_broadcast text :
  keeps queue_untouched (process_broadcast tg admin_chat get_all_users text).
Proof.
  unfold process_broadcast. destruct (negb (truthy_str text)).
  - apply (keeps_ret _ queue_untouched_refl).
  - unfold mbind, M_bind.
    apply (keeps_bind _ queue_untouched_trans);
      [apply (keeps_lift _ queue_untouched_refl)|intros all_users].
    apply (keeps_bind _ queue_untouched_trans);
      [apply queue_untouched_post_status|intros _].
    apply (keeps_bind _ queue_untouched_trans);
      [apply queue_untouched_broadcast_loop|intros [s f]].
    apply queue_untouched_post_status.
Qed.

(** Whatever Telegram and the administrator's chat do, a turn of the loop
    makes one call, to its user. *)
Lemma broadcast_one_calls total text user counts w :
  exists c,
    bot_calls (after (broadcast_one tg admin_chat total text user counts) w)
    = bot_calls w ++ [c]
    /\ call_chat c = UserRow.tg_id user.
Proof.
  destruct counts as [success_count fail_count].
  unfold broadcast_one, after.
  unfold mbind, M_bind.
  unfold try_except, bind, bot_send_message, post_status, sleep, logging, ret.
  cbn [fst snd bot_calls status_msgs set_bot_calls set_clock set_log set_status_msgs].
  destruct (tg (List.length (bot_calls w)) (UserRow.tg_id user) text)
    as [took [[]|e]]; cbn [sent TelegramBot.took].
  - destruct (Nat.eqb (S success_count mod 10) 0); cbn;
      [destruct (admin_chat (List.length (status_msgs w))); cbn|]; eauto.
  - destruct (is_Exception e); cbn; eauto.
Qed.

(** The calls of a loop go to the users of the list, in order; a loop that
    is left early has reached a first part of the list. *)
Lemma broadcast_loop_calls total text users counts w :
  exists cs,
    bot_calls (after (broadcast_loop tg admin_chat total text users counts) w)
    = bot_calls w ++ cs
    /\ map call_chat cs `prefix_of` map UserRow.tg_id users.
Proof.
  revert counts w. induction users as [|user rest IH]; intros counts w; simpl.
  - exists []. rewrite app_nil_r. split; [reflexivity|apply prefix_nil].
  - destruct (broadcast_one_calls total text user counts w) as (c & Hc & Hchat).
    unfold after in *. unfold bind.
    destruct (broadcast_one tg admin_chat total text user counts w) as [[counts1|e] w1];
      simpl in *.
    + destruct (IH counts1 w1) as (cs & Hcs & Hpre).
      exists (c :: cs). rewrite Hcs, Hc, <- app_assoc. split; [reflexivity|].
      simpl. rewrite Hchat. apply prefix_cons, Hpre.
    + exists [c]. split; [exact Hc|]. simpl. rewrite Hchat.
      apply prefix_cons, prefix_nil.
Qed.

(** A broadcast calls the channel for users that are not banned only,
    however it ends. *)
Lemma broadcast_calls_only_the_unbanned text all_users w :
  get_all_users = Ret all_users ->
  map call_chat (new_calls w (after (process_broadcast tg admin_chat get_all_users text) w))
    `prefix_of` map UserRow.tg_id (List.filter not_banned all_users).
Proof.
  intros Hdb. unfold process_broadcast, after.
  destruct (negb (truthy_str text)); simpl.
  { unfold new_calls. rewrite drop_all. apply prefix_nil. }
  rewrite Hdb. unfold mbind, M_bind. unfold bind, lift, post_status at 1. simpl.
  destruct (admin_chat (List.length (status_msgs w))); simpl.
  - match goal with
    | |- context [broadcast_loop tg admin_chat ?t ?m ?u ?c ?w0] =>
        destruct (broadcast_loop_calls t m u c w0) as (cs & Hcs & Hpre);
        unfold after in Hcs;
        destruct (broadcast_loop tg admin_chat t m u c w0) as [[[s f]|e] w1]
    end; simpl in *.
    + unfold post_status. simpl. now rewrite (new_calls_app w _ cs).
    + now rewrite (new_calls_app w _ cs).
  - unfold new_calls. simpl. rewrite drop_all. apply prefix_nil.
Qed.

Hypothesis tg_fails_ordinarily : no_cancellation tg.

Lemma broadcast_one_attempts total text user counts w :
  let turn := broadcast_one tg admin_chat total text user counts in
  (exists counts', result turn w = Ret counts')
  /\ attempted text user w (after turn w).
Proof.
  destruct counts as [success_count fail_count].
  unfold broadcast_one, result, after, attempted.
  unfold mbind, M_bind.
  unfold try_except, bind, bot_send_message, post_status, sleep, logging, ret.
  cbn [fst snd bot_calls status_msgs set_bot_calls set_clock set_log set_status_msgs].
  destruct (tg (List.length (bot_calls w)) (UserRow.tg_id user) text)
    as [took [[]|e]] eqn:Hsend; cbn [sent TelegramBot.took].
  - destruct (Nat.eqb (S success_count mod 10) 0); cbn;
      [destruct (admin_chat (List.length (status_msgs w))); cbn|];
      (split; [eauto|]); (split; [eauto|]).
    + eexists [_]. split; [reflexivity|]. repeat constructor.
    + eexists [_]. split; [reflexivity|]. repeat constructor.
    + exists []. split; [now rewrite app_nil_r|constructor].
  - assert (is_Exception e = true) as ->.
    { eapply tg_fails_ordinarily. rewrite Hsend. reflexivity. }
    cbn. split; [eauto|]. split; [eauto|].
    exists []. split; [now rewrite app_nil_r|constructor].
Qed.

Lemma broadcast_loop_attempts total text users counts w :
  let loop := broadcast_loop tg admin_chat total text users counts in
  (exists counts', result loop w = Ret counts')
  /\ (exists cs,
        bot_calls (after loop w) = bot_calls w ++ cs
        /\ map call_chat cs = map UserRow.tg_id users
        /\ Forall (fun c => call_text c = text) cs)
  /\ exists st, status_msgs (after loop w) = status_msgs w ++ st /\ Forall is_progress st.
Proof.
  revert counts w. induction users as [|user rest IH]; intros counts w; simpl.
  - split; [eauto|]. split.
    + exists []. rewrite app_nil_r. repeat split; constructor.
    + exists []. rewrite app_nil_r. split; [reflexivity|constructor].
  - destruct (broadcast_one_attempts total text user counts w)
      as [[counts1 Hr] [(c & Hc & Hchat & Htext) (st1 & Hst1 & Hp1)]].
    unfold result, after in *. unfold bind.
    destruct (broadcast_one tg admin_chat total text user counts w) as [r w1].
    simpl in *. subst r.
    destruct (IH counts1 w1) as [Hr2 [(cs & Hcs & Hchats & Htexts) (st2 & Hst2 & Hp2)]].
    split; [exact Hr2|]. split.
    + exists (c :: cs). rewrite Hcs, Hc, <- app_assoc. simpl.
      rewrite Hchat, Hchats. repeat split. constructor; assumption.
    + exists (st1 ++ st2). rewrite Hst2, Hst1, <- app_assoc.
      split; [reflexivity|]. apply Forall_app. split; assumption.
Qed.

(** A broadcast that starts: the text is not empty, the user table is read
    and the opening status message gets through. *)
Lemma broadcast_reaches_the_unbanned text all_users w :
  truthy_str text = true ->
  get_all_users = Ret all_users ->
  admin_chat (List.length (status_msgs w)) = true ->
  let run := process_broadcast tg admin_chat get_all_users text in
  let recipients := List.filter not_banned all_users in
  (exists cs,
      bot_calls (after run w) = bot_calls w ++ cs
      /\ map call_chat cs = map UserRow.tg_id recipients
      /\ Forall (fun c => call_text c = default "" text) cs)
  /\ exists st success_count fail_count ok,
      status_msgs (after run w)
      = status_msgs w
          ++ [(Status_start (List.length recipients), true)] ++ st
          ++ [(Status_final success_count fail_count (List.length recipients), ok)]
      /\ Forall is_progress st.
Proof.
  intros Htext Hdb Hstart run recipients. subst run.
  unfold process_broadcast, after. rewrite Htext, Hdb. simpl.
  unfold mbind, M_bind. unfold bind, lift, post_status at 1. simpl.
  rewrite Hstart. fold recipients.
  match goal with
  | |- context [broadcast_loop tg admin_chat ?t ?m ?u ?c ?w0] =>
      destruct (broadcast_loop_attempts t m u c w0)
        as [[[s f] Hr] [(cs & Hcs & Hchats & Htexts) (st & Hst & Hp)]];
      unfold result, after in Hr, Hcs, Hst;
      destruct (broadcast_loop tg admin_chat t m u c w0) as [r w1]
  end.
  simpl in *. subst r. split.
  - exists cs. unfold post_status. simpl. rewrite Hcs. auto.
  - exists st, s, f, (admin_chat (List.length (status_msgs w1))).
    unfold post_status. simpl. rewrite Hst, <- !app_assoc. auto.
Qed.

End BroadcastFacts.

Lemma rejects_first_fails_ordinarily : no_cancellation rejects_first.
Proof. intros [|n] chat_id text e; simpl; intros [= <-]. reflexivity. Qed.

Lemma accepts_all_fails_ordinarily : no_cancellation accepts_all.
Proof. intros n chat_id text e. simpl. discriminate. Qed.




(** The first subscriber's send fails, the second subscriber is notified
    all the same. *)
Example second_subscriber_is_still_notified :
  verdicts (log (after (demo_tick one_record_server rejects_first render_plain) fresh))
  = [(21%Z, false); (22%Z, true)].
Proof. reflexivity. Qed.

(** A payload that cannot be formatted costs only the notifications that
    needed it. *)
Example broken_payloads_are_skipped :
  verdicts (log (after (demo_tick one_record_server accepts_all render_broken) fresh))
  = [(21%Z, false); (22%Z, false)]
  /\ bot_calls (after (demo_tick one_record_server accepts_all render_broken) fresh) = [].
Proof. split; reflexivity. Qed.

(** C4, as the code has it.  Neither a tick nor a broadcast puts anything
    into the delivery queue: both call the outbound channel themselves.
    Every notification a tick logs as sent went out through such a call,
    and a broadcast makes one call per user that is not banned. *)
Theorem tick_and_broadcast_send_directly
    (tg : TelegramBot.telegram) (server : ASUApi.upstream) (api : ASUApi.t)
    (render : json -> res string)
    (get_users_for_notification : string -> res (list TelegramBot.NotificationRow.t))
    (hhmm tomorrow_of : Z -> string)
    (admin_chat : nat -> bool) (get_all_users : res (list TelegramBot.UserRow.t))
    (text : option string) (w : world) :
  let tick := TelegramBot.check_notifications tg server api render
                get_users_for_notification hhmm tomorrow_of in
  let run := TelegramBot.process_broadcast tg admin_chat get_all_users text in
  message_queue (after tick w) = message_queue w
  /\ message_queue (after run w) = message_queue w
  /\ (no_cancellation tg ->
      (forall data e, render data = Raise e -> is_Exception e = true) ->
      forall users,
        get_users_for_notification (hhmm (clock w)) = Ret users ->
        sent_to (new_log w (after tick w))
          `sublist_of` map call_chat (new_calls w (after tick w)))
  /\ (no_cancellation tg ->
      forall all_users,
        truthy_str text = true ->
        get_all_users = Ret all_users ->
        admin_chat (List.length (status_msgs w)) = true ->
        map call_chat (new_calls w (after run w))
        = map TelegramBot.UserRow.tg_id (List.filter TelegramBot.not_banned all_users)).
Proof.
  intros tick run. subst tick run. split; [apply queue_untouched_tick|].
  split; [apply queue_untouched_broadcast|]. split.
  - intros Htg Hrender users Hdb.
    destruct (tick_handles tg server api render get_users_for_notification hhmm
                tomorrow_of Htg Hrender users w Hdb)
      as [_ (l & cs & Hl & _ & Hc & Hsub)].
    now rewrite (new_log_app _ _ _ Hl), (new_calls_app _ _ _ Hc).
  - intros Htg all_users Htext Hdb Hstart.
    destruct (broadcast_reaches_the_unbanned tg admin_chat get_all_users Htg text
                all_users w Htext Hdb Hstart) as [(cs & Hc & Hchats & _) _].
    now rewrite (new_calls_app _ _ _ Hc).
Qed.

Lemma tick_and_broadcast_send_directly_witness :
  message_queue (after (demo_tick one_record_server accepts_all render_plain) fresh) = []
  /\ map call_chat (new_calls fresh (after (demo_broadcast accepts_all) fresh))
     = [11%Z; 13%Z].
Proof.
  destruct (tick_and_broadcast_send_directly accepts_all one_record_server demo_api
              render_plain subscribers_at hhmm_fixed tomorrow_fixed admin_online
              (Ret demo_users) (Some "hello") fresh) as (Hq & _ & _ & Hb).
  split; [exact Hq|].
  exact (Hb accepts_all_fails_ordinarily demo_users eq_refl eq_refl eq_refl).
Defined.

(** C4 as stated fails: a tick and a broadcast each reach their recipients
    by calling the channel, and the delivery queue stays empty. *)
Lemma deliveries_bypass_the_queue :
  let after_tick := after (demo_tick one_record_server accepts_all render_plain) fresh in
  let after_broadcast := after (demo_broadcast accepts_all) fresh in
  map call_chat (bot_calls after_tick) = [21%Z; 22%Z]
  /\ message_queue after_tick = []
  /\ map call_chat (bot_calls after_broadcast) = [11%Z; 13%Z]
  /\ message_queue after_broadcast = [].
Proof. repeat split. Qed.

(** C10.  A broadcast calls the outbound channel only for stored users
    that are not banned, however it ends.  One that starts (the text is not
    empty and the opening status message gets through) and is not cancelled
    calls it once for every such user, in the order of the table and with
    the broadcast text; the total it reports, in the opening and in the
    closing status message, is the number of those users. *)
Theorem broadcast_goes_to_unbanned_users
    (tg : TelegramBot.telegram) (admin_chat : nat -> bool)
    (get_all_users : res (list TelegramBot.UserRow.t))
    (text : option string) (all_users : list TelegramBot.UserRow.t) (w : world) :
  get_all_users = Ret all_users ->
  let run := TelegramBot.process_broadcast tg admin_chat get_all_users text in
  let recipients := List.filter TelegramBot.not_banned all_users in
  (forall u, In u recipients <-> In u all_users /\ TelegramBot.not_banned u = true)
  /\ map call_chat (new_calls w (after run w))
       `prefix_of` map TelegramBot.UserRow.tg_id recipients
  /\ (no_cancellation tg ->
      truthy_str text = true ->
      admin_chat (List.length (status_msgs w)) = true ->
      map call_chat (new_calls w (after run w))
      = map TelegramBot.UserRow.tg_id recipients
      /\ Forall (fun c => call_text c = default "" text) (new_calls w (after run w))
      /\ head (new_status w (after run w))
         = Some (Status_start (List.length recipients), true)
      /\ exists success_count fail_count ok,
          last (new_status w (after run w))
          = Some (Status_final success_count fail_count (List.length recipients), ok)).
Proof.
  intros Hdb run recipients. subst run recipients.
  split; [intros u; apply filter_In|].
  split; [apply broadcast_calls_only_the_unbanned, Hdb|].
  intros Htg Htext Hstart.
  destruct (broadcast_reaches_the_unbanned tg admin_chat get_all_users Htg text
              all_users w Htext Hdb Hstart)
    as [(cs & Hc & Hchats & Htexts) (st & s & f & ok & Hst & _)].
  rewrite (new_calls_app _ _ _ Hc), (new_status_app _ _ _ Hst).
  split; [exact Hchats|]. split; [exact Htexts|]. split; [reflexivity|].
  exists s, f, ok. rewrite app_assoc. apply last_snoc.
Qed.

Lemma broadcast_goes_to_unbanned_users_witness :
  map call_chat (new_calls fresh (after (demo_broadcast accepts_all) fresh))
  = [11%Z; 13%Z]
  /\ head (new_status fresh (after (demo_broadcast accepts_all) fresh))
     = Some (Status_start 2, true).
Proof.
  destruct (broadcast_goes_to_unbanned_users accepts_all admin_online (Ret demo_users)
              (Some "hello") demo_users fresh eq_refl) as (_ & _ & H).
  destruct (H accepts_all_fails_ordinarily eq_refl eq_refl)
    as (Hchats & _ & Hstart & _).
  split; [exact Hchats|exact Hstart].
Defined.

(** * Further properties of the modelled code *)

(** ** The delivery queue *)

Section QueueFacts.
Import TelegramBot.
Variable tg : telegram.
Variable cancel : interruptions.

Lemma enqueue_all_effect msgs w :
  let w' := after (enqueue_all msgs) w in
  result (enqueue_all msgs) w = Ret tt
  /\ message_queue w' = message_queue w ++ map item_of_message msgs
  /\ bot_calls w' = bot_calls w
  /\ tasks_done w' = tasks_done w.
Proof.
  revert w. induction msgs as [|[chat_id message] rest IH]; intros w.
  - unfold after, result. simpl. rewrite app_nil_r. auto.
  - unfold enqueue_all, after, result in *. simpl.
    unfold mbind, M_bind, bind. unfold send_message at 1 3 5 7. simpl.
    destruct (IH (set_message_queue (message_queue w ++ [(message, chat_id)]) w))
      as (Hr & Hq & Hc & Ht).
    split; [exact Hr|]. rewrite Hq, Hc, Ht. simpl. rewrite <- app_assoc. auto.
Qed.

(** With no send and no sleep cancelled, no call leaves the loop. *)
Lemma nothing_leaves b cs :
  no_cancellation tg -> sleeps_out cancel -> last_leaves tg cancel b cs = false.
Proof.
  intros Htg Hsleep. revert b. induction cs as [|c rest IH]; intros b; [reflexivity|].
  cbn [last_leaves]. destruct rest as [|c' rest']; [|apply IH].
  unfold leaves_loop. rewrite Hsleep.
  destruct (sent (outcome_of tg b c)) as [[]|e] eqn:Hsent; [reflexivity|].
  rewrite (Htg _ _ _ _ Hsent). reflexivity.
Qed.

End QueueFacts.

(** Messages handed to [send_message] are delivered first in, first out:
    a run of the drain loop calls the channel for the items in the order
    they were queued, those already waiting first, and skips none.  When
    neither a send nor a sleep of the loop is cancelled it calls the channel
    once for every item, whether or not the sends fail, leaves the queue
    empty and marks every item done; it then waits in [get()] on the empty
    queue, and returns only if it is cancelled there. *)
Theorem queued_messages_are_sent_in_order
    (tg : TelegramBot.telegram) (cancel : TelegramBot.interruptions)
    (msgs : list (Z * string)) (w : world) :
  let w1 := after (enqueue_all msgs) w in
  let run := TelegramBot._process_message_queue tg cancel in
  let w' := after run w1 in
  let queued := message_queue w ++ map item_of_message msgs in
  map item_of_call (new_calls w w') `prefix_of` queued
  /\ (no_cancellation tg -> sleeps_out cancel ->
      map item_of_call (new_calls w w') = queued
      /\ message_queue w' = []
      /\ tasks_done w' = tasks_done w + List.length queued
      /\ result run w1
         = Ret (if TelegramBot.in_get cancel
                then TelegramBot.Left_by_break else TelegramBot.Suspended_in_get)).
Proof.
  intros w1 run w' queued. subst w' run queued.
  destruct (enqueue_all_effect msgs w) as (_ & Hq & Hc & Ht). fold w1 in Hq, Hc, Ht.
  clearbody w1.
  destruct (drain_run tg cancel (message_queue w1) w1 eq_refl)
    as (cs & Hcs & Hitems & Hlen & Hrest & Htasks & _ & _ & _ & Hres & Hall).
  unfold TelegramBot._process_message_queue, after, result in *.
  rewrite Hc in Hcs, Hres, Hall. rewrite (new_calls_app _ _ _ Hcs), <- Hq, Hitems.
  split; [apply prefix_take|].
  intros Htg Hsleep.
  pose proof (nothing_leaves tg cancel (List.length (bot_calls w)) cs Htg Hsleep) as Hno.
  specialize (Hall Hno). rewrite Hno in Hres.
  rewrite Hres, Hrest, Htasks, Ht, Hall, firstn_all, drop_all.
  repeat split; reflexivity.
Qed.

Lemma queued_messages_are_sent_in_order_witness :
  map item_of_call
    (new_calls two_queued
       (after (TelegramBot._process_message_queue accepts_all undisturbed)
          (after (enqueue_all [(3%Z, "third")]) two_queued)))
  = [("first", 1%Z); ("second", 2%Z); ("third", 3%Z)].
Proof.
  destruct (queued_messages_are_sent_in_order accepts_all undisturbed [(3%Z, "third")]
              two_queued) as [_ H].
  destruct (H accepts_all_fails_ordinarily (fun n => eq_refl)) as (Hcalls & _).
  exact Hcalls.
Defined.

(** A run of the drain loop never raises.  The items it attempted are a
    first part of the queue, each attempted once and marked done, and the
    items after them are still queued.  The loop is left, so that the method
    returns, exactly when the task is cancelled: in the last send it made,
    in the sleep after that send, or in [get()] on the empty queue;
    otherwise the run ends with the task suspended in [get()].  It stops
    short of the end of the queue only when a send or a sleep was
    cancelled. *)
Theorem drain_stops_only_when_cancelled
    (tg : TelegramBot.telegram) (cancel : TelegramBot.interruptions) (w : world) :
  let run := TelegramBot._process_message_queue tg cancel in
  let w' := after run w in
  let cs := new_calls w w' in
  let k := List.length cs in
  let cancelled_in_turn := last_leaves tg cancel (List.length (bot_calls w)) cs in
  k <= List.length (message_queue w)
  /\ map item_of_call cs = take k (message_queue w)
  /\ message_queue w' = drop k (message_queue w)
  /\ tasks_done w' = tasks_done w + k
  /\ result run w
     = Ret (if cancelled_in_turn || TelegramBot.in_get cancel
            then TelegramBot.Left_by_break else TelegramBot.Suspended_in_get)
  /\ (k < List.length (message_queue w) -> cancelled_in_turn = true).
Proof.
  intros run w' cs k cancelled_in_turn. subst cancelled_in_turn k cs w' run.
  destruct (drain_run tg cancel (message_queue w) w eq_refl)
    as (cs & Hcs & Hitems & Hlen & Hrest & Htasks & _ & _ & _ & Hres & Hall).
  unfold TelegramBot._process_message_queue, after, result in *.
  rewrite (new_calls_app _ _ _ Hcs).
  split; [exact Hlen|]. split; [exact Hitems|]. split; [exact Hrest|].
  split; [exact Htasks|]. split; [exact Hres|].
  intros Hlt. destruct (last_leaves tg cancel (List.length (bot_calls w)) cs);
    [reflexivity|]. specialize (Hall eq_refl). lia.
Qed.

Lemma drain_stops_only_when_cancelled_witness :
  let run := TelegramBot._process_message_queue accepts_all cancelled_in_first_sleep in
  result run two_queued = Ret TelegramBot.Left_by_break
  /\ message_queue (after run two_queued) = [("second", 2%Z)]
  /\ tasks_done (after run two_queued) = 1.
Proof.
  destruct (drain_stops_only_when_cancelled accepts_all cancelled_in_first_sleep
              two_queued) as (_ & _ & Hrest & Htasks & Hres & _).
  split; [exact Hres|]. split; [exact Hrest|exact Htasks].
Defined.

(** ** Cleaning the cache *)

Section CleanupFacts.
Import TelegramBot.

Lemma cleanup_stamps w :
  cache_last_update (after clear_expired_cache w)
  = filter (fun kt => (cache_timeout <? clock w - snd kt)%Z = false) (cache_last_update w).
Proof.
  unfold clear_expired_cache, after. destruct (Nat.eqb _ 0); reflexivity.
Qed.

Lemma cleanup_clears_lru key t w :
  cache_last_update w !! key = Some t ->
  (cache_timeout < clock w - t)%Z ->
  lru (after clear_expired_cache w) = [].
Proof.
  intros Hkey Hold. unfold clear_expired_cache, after.
  destruct (Nat.eqb _ 0) eqn:Hsize; [|reflexivity].
  apply Nat.eqb_eq, map_size_empty_iff in Hsize.
  assert (filter (fun kt => (cache_timeout <? clock w - snd kt)%Z = true)
            (cache_last_update w) !! key = Some t) as Hin.
  { apply map_lookup_filter_Some. split; [exact Hkey|]. simpl. apply Z.ltb_lt, Hold. }
  rewrite Hsize, lookup_empty in Hin. discriminate.
Qed.

Lemma set_cache_last_update_same w : set_cache_last_update (cache_last_update w) w = w.
Proof. destruct w. reflexivity. Qed.

End CleanupFacts.

(** [clear_expired_cache] keeps exactly the time stamps that are not older
    than the time-out.  When at least one was older the lru_cache is
    emptied as a whole; when none was, the call changes nothing. *)
Theorem cleanup_drops_exactly_the_expired (w : world) :
  let w' := after TelegramBot.clear_expired_cache w in
  (forall key t,
      cache_last_update w' !! key = Some t
      <-> cache_last_update w !! key = Some t
          /\ (clock w - t <= TelegramBot.cache_timeout)%Z)
  /\ ((exists key t, cache_last_update w !! key = Some t
                     /\ (TelegramBot.cache_timeout < clock w - t)%Z) ->
      lru w' = [])
  /\ ((forall key t, cache_last_update w !! key = Some t ->
                     (clock w - t <= TelegramBot.cache_timeout)%Z) ->
      w' = w).
Proof.
  intros w'. subst w'. split; [|split].
  - intros key t. rewrite cleanup_stamps, map_lookup_filter_Some. simpl.
    rewrite Z.ltb_ge. reflexivity.
  - intros (key & t & Hkey & Hold). eapply cleanup_clears_lru; eassumption.
  - intros Hfresh. unfold TelegramBot.clear_expired_cache, after.
    assert (filter (fun kt => (TelegramBot.cache_timeout <? clock w - snd kt)%Z = true)
              (cache_last_update w) = ∅) as ->.
    { apply map_empty_filter_2. intros key t Hkey. simpl.
      specialize (Hfresh key t Hkey). intros Hold%Z.ltb_lt. lia. }
    rewrite map_size_empty. simpl.
    rewrite map_filter_id; [apply set_cache_last_update_same|].
    intros key t Hkey. simpl. apply Z.ltb_ge, (Hfresh key t Hkey).
Qed.

Lemma cleanup_drops_exactly_the_expired_witness :
  lru (after TelegramBot.clear_expired_cache stale_lookup) = []
  /\ cache_last_update (after TelegramBot.clear_expired_cache stale_lookup)
       !! "4242_20240102" = None.
Proof.
  destruct (cleanup_drops_exactly_the_expired stale_lookup) as (Hstamps & Hlru & _).
  split.
  - apply Hlru. exists "4242_20240102", 0%Z. split; [reflexivity|].
    vm_compute. reflexivity.
  - destruct (cache_last_update _ !! "4242_20240102") as [t|] eqn:E; [|reflexivity].
    apply Hstamps in E as [E Hfresh]. injection E as <-.
    exfalso. apply Hfresh. vm_compute. reflexivity.
Defined.

(** Cleaning is what makes a looked-up schedule expire: once the time
    stamp of a key is older than the time-out, a lookup made after
    [clear_expired_cache] calls the adapter again and stamps the key anew,
    whatever the lru_cache held before. *)
Theorem expired_entry_is_fetched_again_after_cleanup
    (group_id date : string) (t : Z) (w : world) :
  cache_last_update w !! (group_id +:+ "_" +:+ date) = Some t ->
  (TelegramBot.cache_timeout < clock w - t)%Z ->
  let run := TelegramBot.clear_expired_cache;;
             TelegramBot.get_cached_schedule group_id date in
  result run w = Ret (PCoroutine (List.length (adapter_calls w)))
  /\ adapter_calls (after run w) = adapter_calls w ++ [(group_id, date)]
  /\ cache_last_update (after run w) !! (group_id +:+ "_" +:+ date) = Some (clock w).
Proof.
  intros Hkey Hold run. subst run.
  pose proof (cleanup_clears_lru _ _ _ Hkey Hold) as Hlru.
  pose proof (cleanup_stamps w) as Hstamps.
  assert (cache_last_update (after TelegramBot.clear_expired_cache w)
            !! (group_id +:+ "_" +:+ date) = None) as Hgone.
  { rewrite Hstamps. apply map_lookup_filter_None. right. intros t' Hkey'.
    simpl. rewrite Hkey in Hkey'. injection Hkey' as <-.
    intros Hfresh%Z.ltb_ge. lia. }
  assert (adapter_calls (after TelegramBot.clear_expired_cache w) = adapter_calls w
          /\ clock (after TelegramBot.clear_expired_cache w) = clock w) as [Hcalls Hclock].
  { unfold TelegramBot.clear_expired_cache, after. destruct (Nat.eqb _ 0); auto. }
  unfold result, after in *. unfold mbind, M_bind, bind.
  assert (exists w1, TelegramBot.clear_expired_cache w = (Ret tt, w1)) as [w1 Hw1].
  { unfold TelegramBot.clear_expired_cache. destruct (Nat.eqb _ 0); eauto. }
  rewrite Hw1 in *. simpl in *.
  unfold TelegramBot.get_cached_schedule, TelegramBot.get_cached_schedule_body.
  rewrite Hlru. simpl. rewrite Hgone. simpl. rewrite Hcalls, Hclock.
  split; [reflexivity|]. split; [reflexivity|]. apply lookup_insert_eq.
Qed.

Lemma expired_entry_is_fetched_again_after_cleanup_witness :
  adapter_calls
    (after (TelegramBot.clear_expired_cache;;
            TelegramBot.get_cached_schedule "4242" "20240102") stale_lookup)
  = [("4242", "20240102"); ("4242", "20240102")].
Proof.
  assert (TelegramBot.cache_timeout < clock stale_lookup - 0)%Z as Hold
    by (vm_compute; reflexivity).
  destruct (expired_entry_is_fetched_again_after_cleanup "4242" "20240102" 0 stale_lookup
              eq_refl Hold) as (_ & H & _).
  exact H.
Defined.

(** ** What the adapter hands back *)

Section PayloadFacts.
Import ASUApi.

Lemma has_records_ignores_url m v :
  has_records (JObj (<["url" := v]> m)) = has_records (JObj m).
Proof.
  unfold has_records. simpl.
  rewrite !lookup_insert_ne by discriminate. reflexivity.
Qed.

Lemma has_records_has_schedule data :
  has_records data = Ret true -> contains_key "schedule" data = Ret true.
Proof.
  unfold has_records, res_bind.
  destruct (contains_key "schedule" data) as [[|]|e]; auto; discriminate.
Qed.

Lemma tagged_payload url data data' :
  has_records data = Ret true ->
  setitem "url" (JStr url) data = Ret data' ->
  exists m, data' = JObj m
            /\ m !! "url" = Some (JStr url)
            /\ has_records data' = Ret true.
Proof.
  destruct data; simpl; try discriminate.
  intros Hrec [= <-]. eexists. split; [reflexivity|].
  split; [apply lookup_insert_eq|]. now rewrite has_records_ignores_url.
Qed.

Variable server : upstream.
Variable api : ASUApi.t.
Variable path : string.

Lemma returned_payload date w data :
  result (get_schedule server api path date) w = Ret (Some data) ->
  exists m, data = JObj m
            /\ m !! "url" = Some (JStr (build_url api path))
            /\ has_records data = Ret true.
Proof.
  unfold get_schedule, return_schedule, no_records, result, after;
  unfold mbind, M_bind;
  unfold try_except, bind, session_get, logging, response_json, lift, ret, raise;
  simpl.
  repeat (simpl;
          match goal with
          | |- context [match server ?n ?r with _ => _ end] =>
              destruct (server n r) as [|? ? [?|]]
          | |- context [if (?s =? 200)%Z then _ else _] =>
              destruct (s =? 200)%Z eqn:?
          | |- context [match has_records ?d with _ => _ end] =>
              destruct (has_records d) as [[|]|?] eqn:?
          | |- context [match lessons_count ?d with _ => _ end] =>
              destruct (lessons_count d) eqn:?
          | |- context [match setitem ?k ?v ?d with _ => _ end] =>
              destruct (setitem k v d) eqn:?
          | |- context [if is_week_request ?d then _ else _] =>
              destruct (is_week_request d) eqn:?
          | |- context [if is_Exception ?e then _ else _] =>
              destruct (is_Exception e)
          end);
    simpl; try discriminate;
    intros [= <-]; eapply tagged_payload; eassumption.
Qed.

End PayloadFacts.

(** Whatever [get_schedule] returns other than [None] is a dictionary
    that carries the request URL under ['url'] and a non-empty record list
    under ['schedule']: the test its callers make on the result
    ([schedule and 'schedule' in schedule]) cannot fail for it. *)
Theorem returned_payload_is_tagged_and_has_records
    (server : ASUApi.upstream) (api : ASUApi.t) (path : string)
    (date : option string) (w : world) (data : json) :
  result (ASUApi.get_schedule server api path date) w = Ret (Some data) ->
  (exists m, data = JObj m /\ m !! "url" = Some (JStr (ASUApi.build_url api path)))
  /\ ASUApi.has_records data = Ret true
  /\ truthy data = true
  /\ contains_key "schedule" data = Ret true.
Proof.
  intros H. destruct (returned_payload server api path date w data H)
    as (m & -> & Hurl & Hrec).
  split; [eauto|]. split; [exact Hrec|]. split.
  - simpl. destruct (size m) eqn:Hsize; [|reflexivity].
    apply map_size_empty_iff in Hsize. subst m. rewrite lookup_empty in Hurl.
    discriminate.
  - apply has_records_has_schedule, Hrec.
Qed.

Lemma returned_payload_is_tagged_and_has_records_witness :
  ASUApi.has_records
    (JObj (<["url" := JStr (ASUApi.build_url demo_api "4242")]>
             {[ "schedule" := JObj {[ "records" := JArr [JObj {[ "lessonDate" := JStr "20240102" ]}] ]} ]}))
  = Ret true.
Proof.
  destruct (returned_payload_is_tagged_and_has_records one_record_server demo_api "4242"
              (Some "20240102") fresh _ eq_refl) as (_ & H & _).
  exact H.
Defined.

(** The status of the retry is never looked at: when a week request is
    answered with no records and the request without the date is answered
    with records, they are returned whatever the HTTP status of that second
    answer is. *)
Theorem retry_status_is_not_checked
    (server : ASUApi.upstream) (api : ASUApi.t) (path : string)
    (date : option string) (w : world)
    (text : string) (data : json) (status : Z) (text' : string)
    (m s : gmap string json) (rec : json) (recs : list json) :
  ASUApi.is_week_request date = true ->
  server (List.length (http_sent w)) (first_request api path date)
    = ASUApi.Response 200 text (Some data) ->
  ASUApi.has_records data = Ret false ->
  server (S (List.length (http_sent w))) (fallback_request api path date)
    = ASUApi.Response status text' (Some (JObj m)) ->
  m !! "schedule" = Some (JObj s) ->
  s !! "records" = Some (JArr (rec :: recs)) ->
  result (ASUApi.get_schedule server api path date) w
  = Ret (Some (JObj (<["url" := JStr (ASUApi.build_url api path)]> m))).
Proof.
  intros Hweek Hfirst Hempty Hretry Hm Hs.
  unfold ASUApi.get_schedule, ASUApi.return_schedule, ASUApi.no_records, result, after;
  unfold mbind, M_bind;
  unfold try_except, bind, ASUApi.session_get, logging, ASUApi.response_json, lift, ret, raise;
  simpl.
  fold (first_request api path date). rewrite Hfirst. simpl.
  rewrite Hempty, Hweek. simpl.
  rewrite length_app. simpl. rewrite Nat.add_1_r.
  fold (fallback_request api path date). rewrite Hretry. simpl.
  destruct (wellformed_payload_has_records _ _ _ _ Hm Hs) as [-> ->].
  reflexivity.
Qed.

Lemma retry_status_is_not_checked_witness :
  exists data,
    result (ASUApi.get_schedule retry_500_server demo_api "4242"
              (Some "20240101-20240107")) fresh = Ret (Some data).
Proof.
  eexists.
  exact (retry_status_is_not_checked retry_500_server demo_api "4242"
           (Some "20240101-20240107") fresh "{}" empty_payload 500 "{}"
           _ _ _ _ eq_refl eq_refl eq_refl eq_refl eq_refl eq_refl).
Defined.

(** ** The requests and the texts of a tick *)

Section TickRequests.
Import TelegramBot.
Variable tg : telegram.
Variable server : ASUApi.upstream.
Variable api : ASUApi.t.
Variable render : json -> res string.
Variable get_users_for_notification : string -> res (list NotificationRow.t).
Variable hhmm : Z -> string.
Variable tomorrow_of : Z -> string.



Lemma notify_text_of_payload user w data :
  result (ASUApi.get_schedule server api (pretty (NotificationRow.groupId user))
            (Some (tomorrow_of (clock w)))) w = Ret (Some data) ->
  let w' := after (notify_user tg server api render tomorrow_of user) w in
  match render data with
  | Ret message =>
      map (fun c => (call_chat c, call_text c)) (new_calls w w')
      = [(NotificationRow.tg_id user, with_heading message)]
  | Raise e =>
      is_Exception e = true ->
      new_calls w w' = []
      /\ last (log w') = Some (Err_notification (NotificationRow.tg_id user) e)
  end.
Proof.
  intros Hs.
  destruct (returned_payload _ _ _ _ _ _ Hs) as (m & Hdata & Hurl & Hrec).
  assert (truthy data = true) as Htruthy.
  { subst data. simpl. destruct (size m) eqn:Hsize; [|reflexivity].
    apply map_size_empty_iff in Hsize. subst m. rewrite lookup_empty in Hurl.
    discriminate. }
  pose proof (has_records_has_schedule _ Hrec) as Hkey.
  clear Hdata Hurl Hrec m.
  pose proof (quiet_get_schedule server api (pretty (NotificationRow.groupId user))
                (Some (tomorrow_of (clock w))) w) as Hq.
  unfold notify_user, result, after, new_calls in *.
  unfold mbind, M_bind. unfold try_except, bind, datetime_now, lift.
  cbn [fst snd].
  destruct (ASUApi.get_schedule _ _ _ _ w) as [r w1]. cbn [fst snd] in Hs, Hq. subst r.
  destruct Hq as (_ & Hcalls & _).
  unfold notification_text. rewrite Htruthy, Hkey. cbn [res_bind].
  destruct (render data) as [message|e]; cbn [res_bind].
  - unfold bot_send_message. cbn [fst snd].
    destruct (tg _ _ _) as [took [[]|e]]; simpl.
    + rewrite Hcalls, drop_app_length. reflexivity.
    + destruct (is_Exception e); simpl; rewrite Hcalls, drop_app_length; reflexivity.
  - intros ->. simpl. rewrite Hcalls, drop_all. split; [reflexivity|apply last_snoc].
Qed.

Hypothesis tg_fails_ordinarily : no_cancellation tg.
Hypothesis render_fails_ordinarily :
  forall data e, render data = Raise e -> is_Exception e = true.
Hypothesis tomorrow_is_a_date : forall t, ASUApi.strftime_date (tomorrow_of t) = true.



End TickRequests.



(** A subscriber whose lookup returned a payload is sent the formatted
    schedule under the heading for tomorrow, by one call of the channel.
    When formatting the payload raises, nothing is sent to the subscriber
    and the error is logged under the subscriber's id. *)
Theorem found_schedule_is_sent_formatted
    (tg : TelegramBot.telegram) (server : ASUApi.upstream) (api : ASUApi.t)
    (render : json -> res string) (tomorrow_of : Z -> string)
    (user : TelegramBot.NotificationRow.t) (w : world) (data : json) :
  result (ASUApi.get_schedule server api
            (pretty (TelegramBot.NotificationRow.groupId user))
            (Some (tomorrow_of (clock w)))) w = Ret (Some data) ->
  let w' := after (TelegramBot.notify_user tg server api render tomorrow_of user) w in
  match render data with
  | Ret message =>
      map (fun c => (call_chat c, call_text c)) (new_calls w w')
      = [(TelegramBot.NotificationRow.tg_id user, with_heading message)]
  | Raise e =>
      is_Exception e = true ->
      new_calls w w' = []
      /\ last (log w') = Some (Err_notification (TelegramBot.NotificationRow.tg_id user) e)
  end.
Proof. apply notify_text_of_payload. Qed.

Lemma found_schedule_is_sent_formatted_witness :
  map (fun c => (call_chat c, call_text c))
    (new_calls fresh
       (after (TelegramBot.notify_user accepts_all one_record_server demo_api render_plain
                 tomorrow_fixed
                 {| TelegramBot.NotificationRow.tg_id := 21;
                    TelegramBot.NotificationRow.groupId := 4242;
                    TelegramBot.NotificationRow.groupCode := "305s11-4";
                    TelegramBot.NotificationRow.notification_time := "08:00" |}) fresh))
  = [(21%Z, with_heading "schedule")].
Proof.
  exact (found_schedule_is_sent_formatted accepts_all one_record_server demo_api
           render_plain tomorrow_fixed
           {| TelegramBot.NotificationRow.tg_id := 21;
              TelegramBot.NotificationRow.groupId := 4242;
              TelegramBot.NotificationRow.groupCode := "305s11-4";
              TelegramBot.NotificationRow.notification_time := "08:00" |}
           fresh _ eq_refl).
Defined.

(** ** Strings cut at a separator *)

Lemma split_not_nil c s : split c s <> [].
Proof.
  destruct s as [|a t]; simpl; [discriminate|].
  destruct (Ascii.eqb a c); [discriminate|].
  destruct (split c t); discriminate.
Qed.

Lemma split_app_sep c a b : split c (a +:+ String c b) = split c a ++ split c b.
Proof.
  induction a as [|x a IH]; simpl.
  - now rewrite Ascii.eqb_refl.
  - destruct (Ascii.eqb x c); [now rewrite IH|].
    rewrite IH. pose proof (split_not_nil c a) as Hne.
    destruct (split c a) as [|w ws]; [contradiction|reflexivity].
Qed.

Lemma split_no_sep c s : contains (String c "") s = false -> split c s = [s].
Proof.
  induction s as [|a t IH]; [reflexivity|].
  rewrite contains_char_cons. intros [Ha Ht]%orb_false_elim.
  simpl. rewrite Ascii.eqb_sym, Ha, (IH Ht). reflexivity.
Qed.

Lemma rstrip_no_sep c s : contains (String c "") s = false -> rstrip c s = s.
Proof.
  induction s as [|a t IH]; [reflexivity|].
  rewrite contains_char_cons. intros [Ha Ht]%orb_false_elim.
  simpl. rewrite (IH Ht). destruct t; [|reflexivity].
  now rewrite Ascii.eqb_sym, Ha.
Qed.

Lemma string_app_assoc (a b c : string) : a +:+ b +:+ c = (a +:+ b) +:+ c.
Proof.
  induction a as [|x a IH]; [reflexivity|].
  change (String x (a +:+ b +:+ c) = String x ((a +:+ b) +:+ c)). now rewrite IH.
Qed.

Lemma contains_app_r sub a b : contains sub b = true -> contains sub (a +:+ b) = true.
Proof.
  unfold contains. intros Hb. induction a as [|x a IH]; [exact Hb|].
  change (String x a +:+ b) with (String x (a +:+ b)). cbn [String.index].
  destruct (String.prefix sub (String x (a +:+ b))); [reflexivity|].
  destruct (String.index 0 sub (a +:+ b)); [reflexivity|discriminate].
Qed.

(** ** The subject read off the URL *)

Lemma find_group_spec group_id groups :
  match TelegramBot.find_group group_id groups with
  | Some g => In g groups /\ pretty (TelegramBot.groupId g) = group_id
  | None => forall g, In g groups -> pretty (TelegramBot.groupId g) <> group_id
  end.
Proof.
  induction groups as [|g rest IH]; simpl; [tauto|].
  destruct (String.eqb_spec (pretty (TelegramBot.groupId g)) group_id) as [Heq|Hne]; [auto|].
  destruct (TelegramBot.find_group group_id rest) as [g'|].
  - destruct IH. auto.
  - intros g' [<-|Hin]; auto.
Qed.

Lemma find_in_records_spec group_id rs :
  match TelegramBot.find_in_records group_id rs with
  | Some g => (exists l, In l rs /\ In g (TelegramBot.lessonGroups l)) /\ pretty (TelegramBot.groupId g) = group_id
  | None => forall l g, In l rs -> In g (TelegramBot.lessonGroups l) -> pretty (TelegramBot.groupId g) <> group_id
  end.
Proof.
  induction rs as [|l rest IH]; simpl; [tauto|].
  pose proof (find_group_spec group_id (TelegramBot.lessonGroups l)) as Hl.
  destruct (TelegramBot.find_group group_id (TelegramBot.lessonGroups l)) as [g|].
  - destruct Hl. eauto.
  - destruct (TelegramBot.find_in_records group_id rest) as [g|].
    + destruct IH as [(l' & Hin & Hg) Hid]. eauto 6.
    + intros l' g [<-|Hin]; eauto.
Qed.


Section UrlFacts.
Import TelegramBot.
Variable get_lecturer_by_id : string -> option string.
Variable api : ASUApi.t.

Lemma lecturer_url pre lecturer_id :
  startswith "lecturers/" (pre +:+ String "/" lecturer_id) = true ->
  contains "/" lecturer_id = false ->
  ASUApi.build_url api (pre +:+ String "/" lecturer_id)
  = (rstrip "/" (ASUApi.base_url api) +:+ "/timetable/lecturers/15/65")
      +:+ String "/" (lecturer_id +:+ String "/" "").
Proof.
  intros Hpre Hid. unfold ASUApi.build_url. rewrite Hpre.
  rewrite split_app_sep, (split_no_sep _ _ Hid), last_last.
  rewrite <- string_app_assoc. reflexivity.
Qed.

Lemma lecturer_url_is_recognised s lecturer_id :
  contains "lecturers" (s +:+ "/timetable/lecturers/15/65/" +:+ lecturer_id +:+ "/") = true.
Proof. apply contains_app_r. reflexivity. Qed.

Lemma group_url_shape path :
  contains "lecturers" (ASUApi.build_url api path) = false ->
  ASUApi.build_url api path
  = (rstrip "/" (ASUApi.base_url api) +:+ "/timetable/students/15") +:+ String "/" path.
Proof.
  unfold ASUApi.build_url. destruct (startswith "lecturers/" path).
  - rewrite lecturer_url_is_recognised. discriminate.
  - intros _. rewrite <- string_app_assoc. reflexivity.
Qed.

Lemma resolve_lecturer_url rs pre lecturer_id :
  startswith "lecturers/" (pre +:+ String "/" lecturer_id) = true ->
  contains "/" lecturer_id = false ->
  resolve_subject get_lecturer_by_id
    (tagged_by_adapter api (pre +:+ String "/" lecturer_id) rs)
  = Ret (lecturer_subject get_lecturer_by_id lecturer_id).
Proof.
  intros Hpre Hid. unfold resolve_subject, tagged_by_adapter, lecturer_subject.
  cbn [requested_group url records].
  rewrite (lecturer_url _ _ Hpre Hid).
  assert (contains "lecturers"
            ((rstrip "/" (ASUApi.base_url api) +:+ "/timetable/lecturers/15/65")
               +:+ String "/" (lecturer_id +:+ String "/" "")) = true) as ->.
  { rewrite <- string_app_assoc. apply contains_app_r. reflexivity. }
  rewrite !split_app_sep, (split_no_sep _ _ Hid).
  unfold from_end. rewrite !rev_app_distr. simpl.
  destruct (get_lecturer_by_id lecturer_id); reflexivity.
Qed.

Lemma resolve_group_url rs group_id :
  contains "/" group_id = false ->
  contains "lecturers" (ASUApi.build_url api group_id) = false ->
  resolve_subject get_lecturer_by_id (tagged_by_adapter api group_id rs)
  = Ret (url_group_subject group_id rs).
Proof.
  intros Hid Hurl. unfold resolve_subject, tagged_by_adapter, url_group_subject.
  cbn [requested_group url records]. rewrite Hurl.
  rewrite (group_url_shape _ Hurl), split_app_sep, (split_no_sep _ _ Hid).
  rewrite last_last, (rstrip_no_sep _ _ Hid).
  destruct (find_in_records group_id rs); reflexivity.
Qed.

End UrlFacts.

(** [format_schedule] reads back from the URL what [get_schedule] put
    there.  For a lecturer path, one that starts with ["lecturers/"] and ends
    in the id, the heading is the lecturer the database knows under that id,
    and no lesson is filtered.  For a group path the subject is a group
    listed in some lesson of the payload whose id is the one of the path; the
    schedule is left unfiltered and without a heading exactly when no lesson
    lists such a group. *)
Theorem subject_is_read_back_from_the_url
    (get_lecturer_by_id : string -> option string) (api : ASUApi.t)
    (rs : list TelegramBot.lesson) (id : string) :
  contains "/" id = false ->
  (forall pre,
      startswith "lecturers/" (pre +:+ String "/" id) = true ->
      TelegramBot.resolve_subject get_lecturer_by_id
        (tagged_by_adapter api (pre +:+ String "/" id) rs)
      = Ret (lecturer_subject get_lecturer_by_id id))
  /\ (contains "lecturers" (ASUApi.build_url api id) = false ->
      TelegramBot.resolve_subject get_lecturer_by_id (tagged_by_adapter api id rs)
      = Ret (url_group_subject id rs)
      /\ match TelegramBot.find_in_records id rs with
         | Some g =>
             (exists l, In l rs /\ In g (TelegramBot.lessonGroups l))
             /\ pretty (TelegramBot.groupId g) = id
         | None =>
             forall l g, In l rs -> In g (TelegramBot.lessonGroups l) ->
                         pretty (TelegramBot.groupId g) <> id
         end).
Proof.
  intros Hid. split.
  - intros pre Hpre. apply resolve_lecturer_url; assumption.
  - intros Hurl. split; [apply resolve_group_url; assumption|].
    apply find_in_records_spec.
Qed.

Lemma subject_is_read_back_from_the_url_witness :
  TelegramBot.resolve_subject demo_lecturers
    (tagged_by_adapter demo_api "lecturers/15/65/77" demo_records)
  = Ret (TelegramBot.unresolved (TelegramBot.Heading_lecturer "Ivanov"))
  /\ TelegramBot.resolve_subject demo_lecturers (tagged_by_adapter demo_api "4242" demo_records)
     = Ret (TelegramBot.group_subject group_4).
Proof.
  destruct (subject_is_read_back_from_the_url demo_lecturers demo_api demo_records "77"
              eq_refl) as [Hl _].
  destruct (subject_is_read_back_from_the_url demo_lecturers demo_api demo_records "4242"
              eq_refl) as [_ Hg].
  destruct (Hg eq_refl) as [Hg' _].
  split; [exact (Hl "lecturers/15/65" eq_refl)|exact Hg'].
Defined.

(** ** The day blocks *)

Section BlockFacts.
Import TelegramBot.

Lemma dict_get_append k date (l : lesson) d :
  dict_get k (dict_append date l d)
  = if String.eqb date k then Some (default [] (dict_get k d) ++ [l]) else dict_get k d.
Proof.
  induction d as [|[k' ls] rest IH]; simpl.
  - destruct (String.eqb date k); reflexivity.
  - destruct (String.eqb_spec k' date) as [->|Hne]; simpl.
    + destruct (String.eqb date k); reflexivity.
    + rewrite IH. destruct (String.eqb_spec date k) as [->|Hne'].
      * apply String.eqb_neq in Hne. rewrite Hne. reflexivity.
      * reflexivity.
Qed.

Lemma dict_get_in {A} k (v : A) d :
  NoDup (map fst d) -> In (k, v) d -> dict_get k d = Some v.
Proof.
  induction d as [|[k' v'] rest IH]; simpl; [tauto|].
  intros [Hnotin Hnd]%NoDup_cons [[= -> ->]|Hin].
  - now rewrite String.eqb_refl.
  - destruct (String.eqb_spec k' k) as [->|_]; [|auto].
    exfalso. apply Hnotin. apply list_elem_of_In.
    change k with (fst (k, v)). apply in_map, Hin.
Qed.

Lemma dict_get_keys {A} k (d : list (string * A)) :
  In k (map fst d) <-> dict_get k d <> None.
Proof.
  induction d as [|[k' v'] rest IH]; simpl; [tauto|].
  destruct (String.eqb_spec k' k) as [->|Hne].
  - split; [discriminate|auto].
  - rewrite <- IH. tauto.
Qed.

Lemma filed_under_snoc sub date p l :
  filed_under sub date (p ++ [l])
  = filed_under sub date p
      ++ (if kept sub l && String.eqb (lessonDate l) date then [l] else []).
Proof. unfold filed_under. rewrite List.filter_app. reflexivity. Qed.

Lemma lessons_by_date_get_from sub rs p d :
  (forall k, dict_get k d = filing sub k p) ->
  forall k,
    dict_get k
      (fold_left (fun d l => if kept sub l then dict_append (lessonDate l) l d else d) rs d)
    = filing sub k (p ++ rs).
Proof.
  revert p d. induction rs as [|l rs IH]; intros p d Hd k; simpl.
  - rewrite app_nil_r. apply Hd.
  - replace (p ++ l :: rs) with ((p ++ [l]) ++ rs) by (rewrite <- app_assoc; reflexivity).
    apply IH. clear k. intros k. unfold filing. rewrite filed_under_snoc.
    destruct (kept sub l); simpl.
    + rewrite dict_get_append, Hd. unfold filing.
      destruct (String.eqb (lessonDate l) k).
      * destruct (filed_under sub k p); reflexivity.
      * rewrite app_nil_r. reflexivity.
    + rewrite app_nil_r. apply Hd.
Qed.

Lemma lessons_by_date_get sub rs k :
  dict_get k (lessons_by_date sub rs) = filing sub k rs.
Proof. apply (lessons_by_date_get_from sub rs [] []). reflexivity. Qed.

Lemma day_blocks_in sub rs date lessons :
  In (date, lessons) (day_blocks sub rs) ->
  lessons = sort_by lessonTimeStart (filed_under sub date rs).
Proof.
  unfold day_blocks. intros ([date' ls] & [= -> <-] & Hin)%in_map_iff.
  apply (Permutation_in _ (sort_by_perm fst (lessons_by_date sub rs))) in Hin.
  destruct (lessons_by_date_grouped sub rs) as [[Hnd _] _].
  apply (dict_get_in _ _ _ Hnd) in Hin. rewrite lessons_by_date_get in Hin.
  unfold filing in Hin. destruct (filed_under sub date rs); [discriminate|].
  now injection Hin as <-.
Qed.

Lemma day_blocks_keys sub rs date :
  In date (map fst (day_blocks sub rs))
  <-> exists l, In l rs /\ kept sub l = true /\ lessonDate l = date.
Proof.
  rewrite day_blocks_dates.
  assert (In date (map fst (sort_by fst (lessons_by_date sub rs)))
          <-> In date (map fst (lessons_by_date sub rs))) as ->.
  { pose proof (sort_by_perm fst (lessons_by_date sub rs)) as Hp.
    apply (Permutation_map fst) in Hp.
    split; apply Permutation_in; [exact Hp|symmetry; exact Hp]. }
  rewrite dict_get_keys, lessons_by_date_get. unfold filing, filed_under. split.
  - destruct (List.filter _ rs) as [|l ls] eqn:E; [congruence|]. intros _.
    assert (In l (List.filter
                    (fun l => kept sub l && String.eqb (lessonDate l) date) rs)) as Hin
      by (rewrite E; left; reflexivity).
    apply filter_In in Hin as [Hin [Hk Hd%String.eqb_eq]%andb_prop]. eauto.
  - intros (l & Hin & Hk & Hd).
    assert (In l (List.filter
                    (fun l => kept sub l && String.eqb (lessonDate l) date) rs)) as Hin'.
    { apply filter_In. split; [exact Hin|]. rewrite Hk, <- Hd, String.eqb_refl.
      reflexivity. }
    destruct (List.filter _ rs); [contradiction|discriminate].
Qed.

Lemma insert_by_starting_at t x ls :
  starting_at t (insert_by lessonTimeStart x ls) = starting_at t (x :: ls).
Proof.
  induction ls as [|y ls IH]; [reflexivity|]. simpl.
  destruct (String.leb (lessonTimeStart x) (lessonTimeStart y)) eqn:Hle; [reflexivity|].
  unfold starting_at in *. simpl in *. rewrite IH.
  destruct (String.eqb_spec (lessonTimeStart x) t) as [Hx|Hx];
    destruct (String.eqb_spec (lessonTimeStart y) t) as [Hy|Hy]; try reflexivity.
  rewrite Hx, Hy, string_leb_refl in Hle. discriminate.
Qed.

Lemma sort_by_starting_at t ls :
  starting_at t (sort_by lessonTimeStart ls) = starting_at t ls.
Proof.
  induction ls as [|x ls IH]; [reflexivity|]. simpl.
  rewrite insert_by_starting_at. unfold starting_at in *. simpl. now rewrite IH.
Qed.

End BlockFacts.

(** Sorting the lessons of a day is stable.  In every day block of a
    formatted schedule, the lessons that start at the same time are exactly
    the lessons of the payload that pass the filter, fall on that date and
    start at that time, in the order the payload lists them. *)
Theorem lessons_with_equal_start_keep_payload_order
    (get_lecturer_by_id : string -> option string)
    (sd : TelegramBot.schedule_data) (sub : TelegramBot.subject)
    (days : list (string * list TelegramBot.lesson))
    (date : string) (lessons : list TelegramBot.lesson) (t : string) :
  TelegramBot.format_schedule get_lecturer_by_id (Some sd)
    = Ret (TelegramBot.Schedule sub days) ->
  In (date, lessons) days ->
  starting_at t lessons
  = starting_at t (filed_under sub date (TelegramBot.records sd)).
Proof.
  intros [_ ->]%format_schedule_inv Hin.
  rewrite (day_blocks_in _ _ _ _ Hin). apply sort_by_starting_at.
Qed.

Lemma lessons_with_equal_start_keep_payload_order_witness :
  starting_at "08:30"
    (TelegramBot.sort_by TelegramBot.lessonTimeStart
       (demo_lesson "20240102" "10:00" "History" [group_4] :: demo_same_start))
  = demo_same_start.
Proof.
  set (sd := {| TelegramBot.records :=
                  demo_lesson "20240102" "10:00" "History" [group_4] :: demo_same_start;
                TelegramBot.requested_group := Some group_4;
                TelegramBot.url := None |}).
  exact (lessons_with_equal_start_keep_payload_order demo_lecturers sd
           (TelegramBot.group_subject group_4)
           [("20240102",
             TelegramBot.sort_by TelegramBot.lessonTimeStart
               (demo_lesson "20240102" "10:00" "History" [group_4] :: demo_same_start))]
           "20240102" _ "08:30" eq_refl (or_introl eq_refl)).
Defined.

(** A payload with records is never answered with the text for a missing
    schedule.  Its formatted schedule has a day block for exactly the dates
    of the lessons that pass the filter; when the group asked for is in none
    of the lessons, what is left is the heading with no day under it. *)
Theorem filtered_out_schedule_has_no_day
    (get_lecturer_by_id : string -> option string)
    (sd : TelegramBot.schedule_data) :
  TelegramBot.records sd <> [] ->
  TelegramBot.format_schedule get_lecturer_by_id (Some sd) <> Ret TelegramBot.No_schedule
  /\ forall sub days,
      TelegramBot.format_schedule get_lecturer_by_id (Some sd)
        = Ret (TelegramBot.Schedule sub days) ->
      (forall date,
          In date (map fst days)
          <-> exists l, In l (TelegramBot.records sd)
                        /\ TelegramBot.kept sub l = true
                        /\ TelegramBot.lessonDate l = date)
      /\ ((forall l, In l (TelegramBot.records sd) -> TelegramBot.kept sub l = false) ->
          days = []).
Proof.
  intros Hrecords. split.
  - unfold TelegramBot.format_schedule.
    destruct (TelegramBot.records sd); [contradiction|].
    destruct (TelegramBot.resolve_subject get_lecturer_by_id sd); discriminate.
  - intros sub days [_ ->]%format_schedule_inv.
    split; [intros date; apply day_blocks_keys|].
    intros Hnone.
    destruct (TelegramBot.day_blocks sub (TelegramBot.records sd)) as [|[date ls] rest] eqn:E;
      [reflexivity|].
    assert (In date (map fst (TelegramBot.day_blocks sub (TelegramBot.records sd)))) as Hin
      by (rewrite E; left; reflexivity).
    apply day_blocks_keys in Hin as (l & Hin & Hk & _).
    rewrite (Hnone l Hin) in Hk. discriminate.
Qed.

Lemma filtered_out_schedule_has_no_day_witness :
  TelegramBot.day_blocks (TelegramBot.group_subject group_9) demo_records = [].
Proof.
  assert (TelegramBot.records demo_other_group_data <> []) as Hne by discriminate.
  destruct (filtered_out_schedule_has_no_day demo_lecturers demo_other_group_data Hne)
    as [_ H].
  destruct (H (TelegramBot.group_subject group_9)
              (TelegramBot.day_blocks (TelegramBot.group_subject group_9) demo_records)
              eq_refl) as [_ Hnone].
  apply Hnone. intros l [<-|[<-|[<-|[<-|[]]]]]; reflexivity.
Defined.

(** ** Round trips through the shared cache *)

Lemma apply_sets_keeps (kvs : list (string * string)) ex store k :
  ~ In k (map fst kvs) ->
  snd (RedisCache.apply_commands (map (fun kv => RedisCache.SET (fst kv) (snd kv) ex) kvs) store) !! k
  = store !! k.
Proof.
  revert store. induction kvs as [|[k' s] rest IH]; intros store Hnotin; [reflexivity|].
  simpl in *.
  specialize (IH (<[k' := (s, ex)]> store) ltac:(tauto)).
  destruct (RedisCache.apply_commands _ (<[k' := (s, ex)]> store)) as [rs store'']. simpl in *.
  rewrite IH. apply lookup_insert_ne. tauto.
Qed.

Lemma apply_sets_stores (kvs : list (string * string)) ex store k s :
  NoDup (map fst kvs) ->
  In (k, s) kvs ->
  snd (RedisCache.apply_commands (map (fun kv => RedisCache.SET (fst kv) (snd kv) ex) kvs) store) !! k
  = Some (s, ex).
Proof.
  revert store. induction kvs as [|[k' s'] rest IH]; intros store Hnd Hin; [destruct Hin|].
  simpl in *. apply NoDup_cons in Hnd as [Hnotin Hnd].
  pose proof (apply_sets_keeps rest ex (<[k' := (s', ex)]> store) k') as Hkeep.
  specialize (IH (<[k' := (s', ex)]> store) Hnd).
  destruct (RedisCache.apply_commands _ (<[k' := (s', ex)]> store)) as [rs store'']. simpl in *.
  destruct Hin as [[= -> ->]|Hin]; [|auto].
  rewrite Hkeep; [apply lookup_insert_eq|].
  intros Hin. apply Hnotin, list_elem_of_In, Hin.
Qed.

Lemma apply_gets keys store :
  RedisCache.apply_commands (map RedisCache.GET keys) store
  = (map (fun k => fst <$> store !! k) keys, store).
Proof.
  induction keys as [|k rest IH]; [reflexivity|]. simpl. now rewrite IH.
Qed.

Section RedisRoundTrip.
Import RedisCache.
Context {V : Type}.
Variable dumps : V -> option string.
Variable loads : string -> option V.
Variable connection : nat -> bool.
Variable self : RedisCache.t.

(** The commands a batch set buffers for a mapping. *)
Lemma queue_sets_commands mapping ttl pipeline :
  Forall (fun kv => is_Some (dumps (snd kv))) mapping ->
  queue_sets dumps self mapping ttl pipeline
  = Ret (pipeline
           ++ map (fun kv => SET (fst kv) (default "" (dumps (snd kv)))
                               (ttl_or_default self ttl)) mapping).
Proof.
  revert pipeline. induction mapping as [|[k v] rest IH]; intros pipeline Hall; simpl.
  - now rewrite app_nil_r.
  - apply Forall_cons in Hall as [[s Hs] Hrest]. simpl in Hs.
    unfold call_dumps. rewrite Hs. simpl. rewrite (IH _ Hrest), <- app_assoc.
    reflexivity.
Qed.

Lemma decode_stored (vs : list V) :
  Forall (fun v => exists s, dumps v = Some s /\ s <> "" /\ loads s = Some v) vs ->
  decode loads (map (fun v => Some (default "" (dumps v))) vs) = Ret (map Some vs).
Proof.
  induction 1 as [|v vs (s & Hs & Hne & Hl) _ IH]; [reflexivity|].
  destruct s as [|a s]; [contradiction|].
  simpl. rewrite Hs. simpl. unfold call_loads. rewrite Hl. simpl. rewrite IH.
  reflexivity.
Qed.

(** A reply that does not parse spoils the whole batch. *)
Lemma decode_raises values s :
  In (Some s) values -> s <> "" -> loads s = None ->
  decode loads values = Raise JSONDecodeError.
Proof.
  intros Hin Hne Hbad. induction values as [|v rest IH]; [destruct Hin|].
  destruct Hin as [->|Hin].
  - destruct s as [|a s]; [contradiction|].
    simpl. unfold call_loads. rewrite Hbad. reflexivity.
  - simpl. rewrite (IH Hin). unfold call_loads. clear Hbad.
    destruct (truthy_reply v); simpl; [destruct (loads (default "" v))|]; reflexivity.
Qed.

End RedisRoundTrip.

(** With Redis reachable, a batch get of the keys of a batch set returns
    the values that were set, in the order asked: provided every value
    serialises to a non-empty string that parses back to it, and the keys
    are distinct.  Each entry is stored with the time to live given, or with
    the default of 300 seconds when that is [None] or 0. *)
Theorem batch_get_returns_what_batch_set_stored
    {V : Type} (dumps : V -> option string) (loads : string -> option V)
    (connection : nat -> bool) (self : RedisCache.t)
    (mapping : list (string * V)) (ttl : option nat) (w : world) :
  NoDup (map fst mapping) ->
  Forall (fun kv => exists s, dumps (snd kv) = Some s /\ s <> "" /\ loads s = Some (snd kv))
         mapping ->
  connection (redis_execs w) = true ->
  connection (S (redis_execs w)) = true ->
  let w1 := after (RedisCache.set_many dumps connection self mapping ttl) w in
  result (RedisCache.get_many loads connection self (map fst mapping)) w1
  = Ret (map (fun kv => Some (snd kv)) mapping)
  /\ forall k v, In (k, v) mapping ->
       redis_store w1 !! k
       = Some (default "" (dumps v), RedisCache.ttl_or_default self ttl).
Proof.
  intros Hnd Hcodec Hup1 Hup2 w1. subst w1.
  assert (Forall (fun kv => is_Some (dumps (snd kv))) mapping) as Hdumps.
  { eapply Forall_impl; [exact Hcodec|]. intros kv (s & Hs & _). eauto. }
  set (kvs := map (fun kv : string * V => (fst kv, default "" (dumps (snd kv)))) mapping).
  assert (map fst kvs = map fst mapping) as Hkeys
    by (subst kvs; rewrite map_map; reflexivity).
  assert (forall k v, In (k, v) mapping ->
            snd (RedisCache.apply_commands
                   (map (fun kv => RedisCache.SET (fst kv) (snd kv)
                                     (RedisCache.ttl_or_default self ttl)) kvs)
                   (redis_store w)) !! k
            = Some (default "" (dumps v), RedisCache.ttl_or_default self ttl)) as Hstore.
  { intros k v Hin. apply apply_sets_stores; [now rewrite Hkeys|].
    subst kvs. apply in_map_iff. exists (k, v). auto. }
  unfold RedisCache.set_many, RedisCache.get_many, result, after.
  unfold try_except, bind, lift, ret, RedisCache.execute.
  rewrite (queue_sets_commands dumps self mapping ttl [] Hdumps). simpl.
  rewrite Hup1.
  replace (map (fun kv : string * V =>
                  RedisCache.SET (fst kv) (default "" (dumps (snd kv)))
                    (RedisCache.ttl_or_default self ttl)) mapping)
    with (map (fun kv : string * string =>
                 RedisCache.SET (fst kv) (snd kv) (RedisCache.ttl_or_default self ttl)) kvs)
    by (subst kvs; rewrite map_map; reflexivity).
  destruct (RedisCache.apply_commands _ (redis_store w)) as [replies store'] eqn:Happly.
  simpl in Hstore |- *. rewrite Hup2, apply_gets. simpl.
  split; [|exact Hstore].
  assert (map (fun k => fst <$> store' !! k) (map fst mapping)
          = map (fun v => Some (default "" (dumps v))) (map snd mapping)) as ->.
  { rewrite !map_map. apply map_ext_in. intros [k v] Hin. simpl.
    rewrite (Hstore k v Hin). reflexivity. }
  rewrite (decode_stored dumps loads (map snd mapping)).
  - simpl. rewrite map_map. reflexivity.
  - apply List.Forall_map. exact Hcodec.
Qed.

Lemma batch_get_returns_what_batch_set_stored_witness :
  result (RedisCache.get_many (fun v => if String.eqb v "7" then Some 7 else None)
            (fun _ => true) RedisCache.init ["a"])
    (after (RedisCache.set_many (fun n : nat => Some (pretty n)) (fun _ => true)
              RedisCache.init [("a", 7)] (Some 0)) fresh)
  = Ret [Some 7].
Proof.
  destruct (batch_get_returns_what_batch_set_stored
              (fun n : nat => Some (pretty n))
              (fun v => if String.eqb v "7" then Some 7 else None)
              (fun _ => true) RedisCache.init [("a", 7)] (Some 0) fresh) as [H _].
  - repeat constructor. intros Hin. apply elem_of_nil in Hin. exact Hin.
  - repeat constructor. exists "7". repeat split. discriminate.
  - reflexivity.
  - reflexivity.
  - exact H.
Defined.

(** One stored value that does not parse makes a batch get answer [None]
    for every key asked, also for the keys whose values are sound; the parse
    error is logged. *)
Theorem one_corrupt_value_spoils_the_batch
    {V : Type} (loads : string -> option V)
    (connection : nat -> bool) (self : RedisCache.t)
    (keys : list string) (key s : string) (ex : nat) (w : world) :
  connection (redis_execs w) = true ->
  In key keys ->
  redis_store w !! key = Some (s, ex) ->
  s <> "" ->
  loads s = None ->
  let get := RedisCache.get_many loads connection self keys in
  result get w = Ret (replicate (List.length keys) None)
  /\ last (log (after get w)) = Some (Err_redis_get_many JSONDecodeError)
  /\ redis_store (after get w) = redis_store w.
Proof.
  intros Hup Hin Hkey Hne Hbad get. subst get.
  unfold RedisCache.get_many, result, after, try_except, bind, RedisCache.execute, lift.
  rewrite Hup, apply_gets. simpl.
  rewrite (decode_raises loads _ s); [|..|exact Hne|exact Hbad].
  - simpl. split; [reflexivity|]. split; [apply last_snoc|reflexivity].
  - apply in_map_iff. exists key. rewrite Hkey. auto.
Qed.

Lemma one_corrupt_value_spoils_the_batch_witness :
  result (RedisCache.get_many (fun v => if String.eqb v "7" then Some 7 else None)
            (fun _ => true) RedisCache.init ["a"; "b"])
    (set_redis {[ "a" := ("7", 300); "b" := ("<html>", 300) ]} 0 fresh)
  = Ret [None; None].
Proof.
  destruct (one_corrupt_value_spoils_the_batch
              (fun v => if String.eqb v "7" then Some 7 else None)
              (fun _ => true) RedisCache.init ["a"; "b"] "b" "<html>" 300
              (set_redis {[ "a" := ("7", 300); "b" := ("<html>", 300) ]} 0 fresh))
    as (H & _).
  - reflexivity.
  - right. left. reflexivity.
  - reflexivity.
  - discriminate.
  - reflexivity.
  - exact H.
Defined.

(** ** The counters of a broadcast *)

Lemma tenth_success s :
  S s mod 10 = 0 -> S s / 10 = S (s / 10) /\ 10 * S (s / 10) = S s.
Proof.
  intros Hmod.
  pose proof (Nat.div_mod_eq (S s) 10) as H1.
  pose proof (Nat.div_mod_eq s 10) as H2.
  pose proof (Nat.mod_upper_bound s 10 ltac:(lia)) as H3.
  rewrite Hmod in H1. lia.
Qed.

Lemma other_success s : S s mod 10 <> 0 -> S s / 10 = s / 10.
Proof.
  intros Hmod.
  pose proof (Nat.div_mod_eq (S s) 10) as H1.
  pose proof (Nat.div_mod_eq s 10) as H2.
  pose proof (Nat.mod_upper_bound s 10 ltac:(lia)) as H3.
  pose proof (Nat.mod_upper_bound (S s) 10 ltac:(lia)) as H4.
  lia.
Qed.

Lemma failed_posts_app st1 st2 : failed_posts (st1 ++ st2) = failed_posts st1 + failed_posts st2.
Proof. unfold failed_posts. now rewrite List.filter_app, length_app. Qed.

Lemma progress_counts_app st1 st2 :
  progress_counts (st1 ++ st2) = progress_counts st1 ++ progress_counts st2.
Proof. apply omap_app. Qed.

Section BroadcastCounters.
Import TelegramBot.
Variable tg : telegram.
Variable admin_chat : nat -> bool.
Variable get_all_users : res (list UserRow.t).
Hypothesis tg_fails_ordinarily : no_cancellation tg.

Lemma tens_between_same s : tens_between s s = [].
Proof. unfold tens_between. now rewrite Nat.sub_diag. Qed.

Lemma tens_between_tenth s : S s mod 10 = 0 -> tens_between s (S s) = [S s].
Proof.
  intros [Hdiv Hmul]%tenth_success. unfold tens_between. rewrite Hdiv.
  replace (S (s / 10) - s / 10) with 1 by lia.
  cbn [seq map]. now rewrite Hmul.
Qed.

Lemma tens_between_other s : S s mod 10 <> 0 -> tens_between s (S s) = [].
Proof.
  intros Hdiv%other_success. unfold tens_between. now rewrite Hdiv, Nat.sub_diag.
Qed.

Lemma broadcast_one_counts total text user s0 f0 w :
  let turn := broadcast_one tg admin_chat total text user (s0, f0) in
  exists c st s f,
    result turn w = Ret (s, f)
    /\ bot_calls (after turn w) = bot_calls w ++ [c]
    /\ status_msgs (after turn w) = status_msgs w ++ st
    /\ s = s0 + count_delivered tg (List.length (bot_calls w)) [c]
    /\ s + f = s0 + f0 + 1 + failed_posts st
    /\ progress_counts st = tens_between s0 s.
Proof.
  unfold broadcast_one, result, after.
  unfold mbind, M_bind.
  unfold try_except, bind, bot_send_message, post_status, sleep, logging, ret.
  cbn [fst snd bot_calls status_msgs set_bot_calls set_clock set_log set_status_msgs].
  set (c := {| call_time := clock w; call_chat := UserRow.tg_id user; call_text := text |}).
  destruct (tg (List.length (bot_calls w)) (UserRow.tg_id user) text)
    as [took [[]|e]] eqn:Hsend;
    cbn [sent TelegramBot.took fst snd bot_calls status_msgs set_bot_calls set_clock
         set_log set_status_msgs].
  - assert (count_delivered tg (List.length (bot_calls w)) [c] = 1) as Hcount
      by (simpl; rewrite Hsend; reflexivity).
    destruct (Nat.eqb (S s0 mod 10) 0) eqn:Hten;
      cbn [fst snd bot_calls status_msgs set_bot_calls set_clock set_log set_status_msgs].
    + apply Nat.eqb_eq, tens_between_tenth in Hten.
      destruct (admin_chat (List.length (status_msgs w))) eqn:Hok.
      * exists c, [(Status_progress (S s0) total f0, true)], (S s0), f0.
        rewrite Hcount, Hten.
        split; [reflexivity|]. split; [reflexivity|]. split; [reflexivity|].
        split; [lia|]. split; [unfold failed_posts; simpl; lia|reflexivity].
      * exists c, [(Status_progress (S s0) total f0, false)], (S s0), (S f0).
        rewrite Hcount, Hten.
        split; [reflexivity|]. split; [reflexivity|]. split; [reflexivity|].
        split; [lia|]. split; [unfold failed_posts; simpl; lia|reflexivity].
    + apply Nat.eqb_neq, tens_between_other in Hten.
      exists c, [], (S s0), f0. rewrite Hcount, Hten, app_nil_r.
      split; [reflexivity|]. split; [reflexivity|]. split; [reflexivity|].
      split; [lia|]. split; [unfold failed_posts; simpl; lia|reflexivity].
  - assert (count_delivered tg (List.length (bot_calls w)) [c] = 0) as Hcount
      by (simpl; rewrite Hsend; reflexivity).
    assert (is_Exception e = true) as ->.
    { eapply tg_fails_ordinarily. rewrite Hsend. reflexivity. }
    exists c, [], s0, (S f0). rewrite Hcount, Nat.add_0_r, tens_between_same, app_nil_r.
    split; [reflexivity|]. split; [reflexivity|]. split; [reflexivity|].
    split; [lia|]. split; [unfold failed_posts; simpl; lia|reflexivity].
Qed.

Lemma tens_between_app s0 s1 s :
  s0 <= s1 -> s1 <= s ->
  tens_between s0 s1 ++ tens_between s1 s = tens_between s0 s.
Proof.
  intros H01 H1. unfold tens_between. rewrite <- map_app. f_equal.
  pose proof (Nat.Div0.div_le_mono s0 s1 10 H01).
  pose proof (Nat.Div0.div_le_mono s1 s 10 H1).
  replace (s / 10 - s0 / 10) with ((s1 / 10 - s0 / 10) + (s / 10 - s1 / 10)) by lia.
  rewrite seq_app. f_equal. f_equal. lia.
Qed.

Lemma broadcast_loop_counts total text users s0 f0 w :
  let loop := broadcast_loop tg admin_chat total text users (s0, f0) in
  exists cs st s f,
    result loop w = Ret (s, f)
    /\ bot_calls (after loop w) = bot_calls w ++ cs
    /\ status_msgs (after loop w) = status_msgs w ++ st
    /\ List.length cs = List.length users
    /\ s = s0 + count_delivered tg (List.length (bot_calls w)) cs
    /\ s + f = s0 + f0 + List.length users + failed_posts st
    /\ progress_counts st = tens_between s0 s.
Proof.
  revert s0 f0 w. induction users as [|user rest IH]; intros s0 f0 w;
    cbn [broadcast_loop List.length].
  - exists [], [], s0, f0. rewrite !app_nil_r, tens_between_same. unfold failed_posts. simpl.
    repeat split; lia.
  - destruct (broadcast_one_counts total text user s0 f0 w)
      as (c & st1 & s1 & f1 & Hr & Hc & Hst & Hs1 & Hsum1 & Hp1).
    unfold result, after in *. unfold bind.
    destruct (broadcast_one tg admin_chat total text user (s0, f0) w) as [r w1].
    simpl in Hr, Hc, Hst. subst r.
    destruct (IH s1 f1 w1) as (cs & st2 & s & f & Hr2 & Hc2 & Hst2 & Hlen & Hs & Hsum & Hp2).
    exists (c :: cs), (st1 ++ st2), s, f.
    rewrite Hc2, Hst2, Hc, Hst, <- !app_assoc.
    split; [exact Hr2|]. split; [reflexivity|]. split; [reflexivity|].
    split; [simpl; lia|].
    rewrite Hc, length_app in Hs. simpl in Hs.
    replace (List.length (bot_calls w) + 1) with (S (List.length (bot_calls w))) in Hs by lia.
    cbn [count_delivered] in Hs1 |- *. rewrite Nat.add_0_r in Hs1.
    split; [lia|]. rewrite failed_posts_app. split; [lia|].
    rewrite progress_counts_app, Hp1, Hp2. apply tens_between_app; lia.
Qed.

Lemma count_delivered_le i cs : count_delivered tg i cs <= List.length cs.
Proof.
  revert i. induction cs as [|c cs IH]; intros i; simpl; [lia|].
  specialize (IH (S i)). destruct (sent _); lia.
Qed.

Lemma broadcast_counts text all_users w :
  truthy_str text = true ->
  get_all_users = Ret all_users ->
  admin_chat (List.length (status_msgs w)) = true ->
  let run := process_broadcast tg admin_chat get_all_users text in
  let total := List.length (List.filter not_banned all_users) in
  exists st s f ok,
    new_status w (after run w)
    = (Status_start total, true) :: st ++ [(Status_final s f total, ok)]
    /\ s = count_delivered tg (List.length (bot_calls w)) (new_calls w (after run w))
    /\ s <= total
    /\ s + f = total + failed_posts st
    /\ progress_counts st = tens_up_to s.
Proof.
  intros Htext Hdb Hstart run total. subst run.
  unfold process_broadcast, after. rewrite Htext, Hdb. simpl.
  unfold mbind, M_bind. unfold bind, lift, post_status at 1. simpl.
  rewrite Hstart. fold total.
  match goal with
  | |- context [broadcast_loop tg admin_chat ?t ?m ?u (0, 0) ?w0] =>
      destruct (broadcast_loop_counts t m u 0 0 w0)
        as (cs & st & s & f & Hr & Hc & Hst & Hlen & Hs & Hsum & Hp);
      unfold result, after in Hr, Hc, Hst;
      destruct (broadcast_loop tg admin_chat t m u (0, 0) w0) as [r w1]
  end.
  simpl in *. subst r.
  exists st, s, f, (admin_chat (List.length (status_msgs w1))).
  unfold post_status. simpl.
  rewrite (new_status_app w _ ((Status_start total, true) :: st
                                 ++ [(Status_final s f total,
                                      admin_chat (List.length (status_msgs w1)))]))
    by (rewrite Hst, <- !app_assoc; reflexivity).
  rewrite (new_calls_app w _ cs) by exact Hc.
  split; [reflexivity|]. split; [exact Hs|].
  pose proof (count_delivered_le (List.length (bot_calls w)) cs).
  split; [fold total in Hlen; lia|]. split; [fold total in Hsum; lia|].
  exact Hp.
Qed.

End BroadcastCounters.

(** The closing status message of a broadcast reports as successes
    exactly the sends that were delivered.  Every recipient is counted at
    least once: successes and failures add up to the number of recipients
    plus the number of progress messages that did not get through, since a
    user whose send was delivered is counted as a failure as well when the
    progress message that follows it raises. *)
Theorem broadcast_counts_every_recipient
    (tg : TelegramBot.telegram) (admin_chat : nat -> bool)
    (get_all_users : res (list TelegramBot.UserRow.t))
    (text : option string) (all_users : list TelegramBot.UserRow.t) (w : world) :
  no_cancellation tg ->
  truthy_str text = true ->
  get_all_users = Ret all_users ->
  admin_chat (List.length (status_msgs w)) = true ->
  let run := TelegramBot.process_broadcast tg admin_chat get_all_users text in
  let total := List.length (List.filter TelegramBot.not_banned all_users) in
  exists st s f ok,
    new_status w (after run w)
    = (Status_start total, true) :: st ++ [(Status_final s f total, ok)]
    /\ Forall is_progress st
    /\ s = count_delivered tg (List.length (bot_calls w)) (new_calls w (after run w))
    /\ s <= total
    /\ s + f = total + failed_posts st.
Proof.
  intros Htg Htext Hdb Hstart run total.
  destruct (broadcast_counts tg admin_chat get_all_users Htg text all_users w
              Htext Hdb Hstart) as (st & s & f & ok & Hst & Hs & Hle & Hsum & _).
  destruct (broadcast_reaches_the_unbanned tg admin_chat get_all_users Htg text
              all_users w Htext Hdb Hstart) as [_ (st' & s' & f' & ok' & Hst' & Hp)].
  apply new_status_app in Hst'. fold run total in Hst, Hst'.
  rewrite Hst in Hst'. simpl in Hst'. injection Hst' as Hst'.
  apply app_inj_tail in Hst' as [-> _].
  exists st', s, f, ok. auto.
Qed.

Lemma broadcast_counts_every_recipient_witness :
  exists st s f ok,
    new_status fresh
      (after (TelegramBot.process_broadcast accepts_all admin_misses_progress
                (Ret twelve_users) (Some "hello")) fresh)
    = (Status_start 12, true) :: st ++ [(Status_final s f 12, ok)]
    /\ s + f = 12 + failed_posts st.
Proof.
  destruct (broadcast_counts_every_recipient accepts_all admin_misses_progress
              (Ret twelve_users) (Some "hello") twelve_users fresh
              accepts_all_fails_ordinarily eq_refl eq_refl eq_refl)
    as (st & s & f & ok & Hst & _ & _ & _ & Hsum).
  exists st, s, f, ok. split; [exact Hst|exact Hsum].
Defined.

(** A broadcast posts a progress message after every tenth delivered send
    and at no other time: the success counts the progress messages carry are
    10, 20, ... up to the number of successes of the closing message. *)
Theorem progress_is_posted_every_tenth_success
    (tg : TelegramBot.telegram) (admin_chat : nat -> bool)
    (get_all_users : res (list TelegramBot.UserRow.t))
    (text : option string) (all_users : list TelegramBot.UserRow.t) (w : world) :
  no_cancellation tg ->
  truthy_str text = true ->
  get_all_users = Ret all_users ->
  admin_chat (List.length (status_msgs w)) = true ->
  let run := TelegramBot.process_broadcast tg admin_chat get_all_users text in
  exists s f total ok,
    last (new_status w (after run w)) = Some (Status_final s f total, ok)
    /\ progress_counts (new_status w (after run w)) = tens_up_to s.
Proof.
  intros Htg Htext Hdb Hstart run.
  destruct (broadcast_counts tg admin_chat get_all_users Htg text all_users w
              Htext Hdb Hstart) as (st & s & f & ok & Hst & _ & _ & _ & Hp).
  fold run in Hst.
  exists s, f, (List.length (List.filter TelegramBot.not_banned all_users)), ok.
  rewrite Hst. split.
  - rewrite app_comm_cons. apply last_snoc.
  - rewrite app_comm_cons, progress_counts_app. simpl.
    unfold progress_counts in *. simpl. rewrite Hp. apply app_nil_r.
Qed.

Lemma progress_is_posted_every_tenth_success_witness :
  progress_counts
    (new_status fresh
       (after (TelegramBot.process_broadcast accepts_all admin_online
                 (Ret twelve_users) (Some "hello")) fresh))
  = [10].
Proof.
  destruct (progress_is_posted_every_tenth_success accepts_all admin_online
              (Ret twelve_users) (Some "hello") twelve_users fresh
              accepts_all_fails_ordinarily eq_refl eq_refl eq_refl)
    as (s & f & total & ok & Hlast & Hp).
  rewrite Hp. vm_compute in Hlast. injection Hlast as <- _ _ _. reflexivity.
Defined.

(** ** A fresh entry after a cleanup *)

(** Nothing ever writes [schedule_cache], so a key whose time stamp is
    still fresh is of no use once the lru_cache has lost it.  When a cleanup
    finds another key expired it empties the lru_cache; the next lookup of
    the fresh key then returns [None] without calling the adapter. *)
Theorem fresh_entry_reads_as_none_after_cleanup
    (group_id date other : string) (t t' : Z) (w : world) :
  cache_last_update w !! (group_id +:+ "_" +:+ date) = Some t ->
  (clock w - t < TelegramBot.cache_timeout)%Z ->
  cache_last_update w !! other = Some t' ->
  (TelegramBot.cache_timeout < clock w - t')%Z ->
  schedule_cache w !! (group_id +:+ "_" +:+ date) = None ->
  let run := TelegramBot.clear_expired_cache;;
             TelegramBot.get_cached_schedule group_id date in
  result run w = Ret PNone
  /\ adapter_calls (after run w) = adapter_calls w.
Proof.
  intros Hkey Hfresh Hother Hold Hempty run. subst run.
  pose proof (cleanup_clears_lru _ _ _ Hother Hold) as Hlru.
  pose proof (cleanup_stamps w) as Hstamps.
  assert (cache_last_update (after TelegramBot.clear_expired_cache w)
            !! (group_id +:+ "_" +:+ date) = Some t) as Hkept.
  { rewrite Hstamps. apply map_lookup_filter_Some. split; [exact Hkey|].
    simpl. apply Z.ltb_ge. lia. }
  assert (adapter_calls (after TelegramBot.clear_expired_cache w) = adapter_calls w
          /\ clock (after TelegramBot.clear_expired_cache w) = clock w
          /\ schedule_cache (after TelegramBot.clear_expired_cache w) = schedule_cache w)
    as (Hcalls & Hclock & Hcache).
  { unfold TelegramBot.clear_expired_cache, after. destruct (Nat.eqb _ 0); auto. }
  unfold result, after in *. unfold mbind, M_bind, bind.
  assert (exists w1, TelegramBot.clear_expired_cache w = (Ret tt, w1)) as [w1 Hw1].
  { unfold TelegramBot.clear_expired_cache. destruct (Nat.eqb _ 0); eauto. }
  rewrite Hw1 in *. simpl in *.
  unfold TelegramBot.get_cached_schedule, TelegramBot.get_cached_schedule_body.
  rewrite Hlru. simpl. rewrite Hkept, Hclock.
  assert ((clock w - t <? TelegramBot.cache_timeout)%Z = true) as ->
    by (apply Z.ltb_lt; exact Hfresh).
  simpl. rewrite Hcache, Hempty, Hcalls. auto.
Qed.

Lemma fresh_entry_reads_as_none_after_cleanup_witness :
  result (TelegramBot.clear_expired_cache;;
          TelegramBot.get_cached_schedule "4243" "20240102") mixed_lookups
  = Ret PNone.
Proof.
  assert (clock mixed_lookups - 200000 < TelegramBot.cache_timeout)%Z as Hfresh
    by (vm_compute; reflexivity).
  assert (TelegramBot.cache_timeout < clock mixed_lookups - 0)%Z as Hold
    by (vm_compute; reflexivity).
  destruct (fresh_entry_reads_as_none_after_cleanup "4243" "20240102" "4242_20240102"
              200000 0 mixed_lookups eq_refl Hfresh eq_refl Hold eq_refl) as [H _].
  exact H.
Defined.

(** ** Numbers written and read back *)

Lemma pretty_N_char_digit m : ASUApi.is_digit (pretty_N_char m) = true.
Proof. unfold pretty_N_char. repeat case_match; reflexivity. Qed.

Lemma pretty_N_char_value m :
  (m < 10)%N -> (N_of_ascii (pretty_N_char m) - 48)%N = m.
Proof.
  intros Hm.
  assert (m = 0 \/ m = 1 \/ m = 2 \/ m = 3 \/ m = 4 \/ m = 5 \/ m = 6 \/ m = 7
          \/ m = 8 \/ m = 9)%N as H by lia.
  repeat (destruct H as [->|H]; [reflexivity|]). subst m. reflexivity.
Qed.

Lemma pretty_N_go_digits x s :
  ASUApi.all_digits s = true -> ASUApi.all_digits (pretty_N_go x s) = true.
Proof.
  revert s. induction (N.lt_wf_0 x) as [x _ IH]; intros s Hs.
  assert (x = 0 \/ 0 < x)%N as [->|Hx] by lia; [now rewrite pretty_N_go_0|].
  rewrite pretty_N_go_step by exact Hx. apply IH; [now apply N.div_lt|].
  simpl. now rewrite pretty_N_char_digit, Hs.
Qed.

Lemma pretty_N_go_not_empty x s : (0 < x)%N -> pretty_N_go x s <> "".
Proof.
  revert s. induction (N.lt_wf_0 x) as [x _ IH]; intros s Hx.
  rewrite pretty_N_go_step by exact Hx.
  destruct (N.eq_0_gt_0_cases (x `div` 10)%N) as [->|Hd].
  - rewrite pretty_N_go_0. discriminate.
  - apply IH; [now apply N.div_lt|exact Hd].
Qed.

Lemma decimal_pretty_N_go x s :
  decimal (pretty_N_go x s)
  = (x * 10 ^ N.of_nat (String.length s) + decimal s)%N.
Proof.
  revert s. induction (N.lt_wf_0 x) as [x _ IH]; intros s.
  assert (x = 0 \/ 0 < x)%N as [->|Hx] by lia; [rewrite pretty_N_go_0; lia|].
  rewrite pretty_N_go_step by exact Hx. rewrite IH by (now apply N.div_lt).
  cbn [decimal String.length].
  rewrite pretty_N_char_value by (apply N.mod_lt; lia).
  rewrite Nat2N.inj_succ, N.pow_succ_r'.
  pose proof (N.div_mod x 10 ltac:(lia)) as Hdm.
  set (p := (10 ^ N.of_nat (String.length s))%N) in *.
  set (q := (x `div` 10)%N) in *. set (r := (x `mod` 10)%N) in *.
  clearbody p q r. nia.
Qed.

Lemma pretty_N_is_a_numeral (x : N) :
  ASUApi.strftime_date (pretty x) = true /\ decimal (pretty x) = x.
Proof.
  unfold pretty, pretty_N. destruct (decide (x = 0)%N) as [->|Hx]; [split; reflexivity|].
  unfold ASUApi.strftime_date. split.
  - rewrite pretty_N_go_digits by reflexivity. simpl.
    apply negb_true_iff, String.eqb_neq, pretty_N_go_not_empty. lia.
  - rewrite decimal_pretty_N_go. simpl. lia.
Qed.

(** [int(str(n)) = n]. *)
Lemma int_str other_int (n : Z) :
  ButtonHandler.int other_int (ButtonHandler.str n) = Ret n.
Proof.
  unfold ButtonHandler.int, ButtonHandler.str.
  destruct n as [|p|p]; [reflexivity|..].
  - change (pretty (Z.pos p)) with (pretty (N.pos p)).
    destruct (pretty_N_is_a_numeral (N.pos p)) as [-> ->]. reflexivity.
  - change (pretty (Z.neg p)) with (String "-" (pretty (N.pos p))).
    assert (ASUApi.strftime_date (String "-" (pretty (N.pos p))) = false) as ->
      by reflexivity.
    destruct (pretty_N_is_a_numeral (N.pos p)) as [-> ->]. reflexivity.
Qed.

Lemma digits_have_no c s :
  ASUApi.is_digit c = false -> ASUApi.all_digits s = true ->
  contains (String c "") s = false.
Proof.
  intros Hc. induction s as [|a s IH]; [reflexivity|].
  simpl. intros [Ha Hs]%andb_prop. rewrite contains_char_cons, (IH Hs).
  rewrite orb_false_r. apply Ascii.eqb_neq. intros <-. congruence.
Qed.

(** A number written out holds no character but digits and the sign. *)
Lemma str_has_no c (n : Z) :
  ASUApi.is_digit c = false -> c <> "-"%char ->
  contains (String c "") (ButtonHandler.str n) = false.
Proof.
  intros Hc Hsign. unfold ButtonHandler.str.
  destruct n as [|p|p].
  - apply (digits_have_no c "0" Hc). reflexivity.
  - destruct (pretty_N_is_a_numeral (N.pos p)) as [[Hd _]%andb_prop _].
    change (pretty (Z.pos p)) with (pretty (N.pos p)).
    apply digits_have_no; assumption.
  - destruct (pretty_N_is_a_numeral (N.pos p)) as [[Hd _]%andb_prop _].
    change (pretty (Z.neg p)) with (String "-" (pretty (N.pos p))).
    rewrite contains_char_cons, (digits_have_no c _ Hc Hd), orb_false_r.
    apply Ascii.eqb_neq. exact Hsign.
Qed.


(** ** The dispatch on callback data *)

Lemma startswith_app p s : startswith p (p +:+ s) = true.
Proof.
  unfold startswith. induction p as [|a p IH]; [apply prefix_empty|].
  change (String a p +:+ s) with (String a (p +:+ s)).
  change (String.prefix (String a p) (String a (p +:+ s)))
    with (if ascii_dec a a then String.prefix p (p +:+ s) else false).
  destruct (ascii_dec a a); [exact IH|contradiction].
Qed.


Section RouteFacts.
Import ButtonHandler.
Variable other_int : string -> res Z.

(** Settle the conditions of the chain that computation decides. *)
Ltac settle :=
  repeat match goal with
         | |- context [if ?c then _ else _] =>
             first [ replace c with false by reflexivity
                   | replace c with true
                       by (rewrite ?startswith_app; reflexivity) ];
             cbv beta iota
         end.

(** Cut the data at its underscores. *)
Ltac cut_data :=
  rewrite ?split_app_sep;
  repeat match goal with
         | H : contains "_" ?x = false |- context [split "_" ?x] =>
             rewrite (split_no_sep "_" x H)
         end.

Lemma route_group g :
  contains "_" g = false -> route other_int ("group_" +:+ g) = Ret (Group_today g).
Proof.
  intros Hg. unfold route. settle.
  change ("group_" +:+ g) with ("group" +:+ String "_" g). cut_data. reflexivity.
Qed.










Lemma route_next_page q (n : Z) :
  contains "_" q = false ->
  route other_int ("next_page_" +:+ q +:+ "_" +:+ str n) = Ret (Groups_page "next" q n).
Proof.
  intros Hq. pose proof (str_has_no "_" n eq_refl ltac:(discriminate)) as Hn.
  unfold route, page_args. settle.
  change ("next_page_" +:+ q +:+ "_" +:+ str n)
    with ("next" +:+ String "_" ("page" +:+ String "_" (q +:+ String "_" (str n)))).
  cut_data. simpl. rewrite int_str. reflexivity.
Qed.

Lemma route_prev_page q (n : Z) :
  contains "_" q = false ->
  route other_int ("prev_page_" +:+ q +:+ "_" +:+ str n) = Ret (Groups_page "prev" q n).
Proof.
  intros Hq. pose proof (str_has_no "_" n eq_refl ltac:(discriminate)) as Hn.
  unfold route, page_args. settle.
  change ("prev_page_" +:+ q +:+ "_" +:+ str n)
    with ("prev" +:+ String "_" ("page" +:+ String "_" (q +:+ String "_" (str n)))).
  cut_data. simpl. rewrite int_str. reflexivity.
Qed.

(** Walk down the chain of a routed piece of data, outermost test first. *)
Ltac walk H :=
  repeat match type of H with
         | (if ?c then _ else _) = _ => destruct c eqn:?
         end.


Lemma never_routed_to_stats_or_search data :
  route other_int data <> Ret Admin_techcard_stats
  /\ route other_int data <> Ret Admin_techcard_search.
Proof.
  split; intros H; unfold route, page_args in H; walk H;
    unfold res_bind in H; repeat case_match; simplify_eq;
    match goal with
    | Hp : startswith "admin_techcard_" ?d = false, He : String.eqb ?d _ = true |- _ =>
        apply String.eqb_eq in He; subst; vm_compute in Hp; discriminate
    end.
Qed.

End RouteFacts.



(** Two handlers of the chain can never be reached: the data of the
    buttons for the statistics and the search of tech cards is caught by the
    earlier test for the prefix ['admin_techcard_'], whose branch acts on
    [next] and [prev] only.  Two buttons of the mass actions menu carry data
    that no branch of the chain matches. *)
Theorem some_buttons_lead_nowhere (other_int : string -> res Z) :
  (forall data,
      ButtonHandler.route other_int data <> Ret ButtonHandler.Admin_techcard_stats
      /\ ButtonHandler.route other_int data <> Ret ButtonHandler.Admin_techcard_search)
  /\ ButtonHandler.routes other_int ButtonHandler.admin_techcards_keyboard
     = [ [Ret ButtonHandler.Admin_techcard_add];
         [Ret ButtonHandler.Admin_techcard_list];
         [Ret (ButtonHandler.Admin_techcard_action "search")];
         [Ret (ButtonHandler.Admin_techcard_action "stats")];
         [Ret ButtonHandler.Admin] ]
  /\ turns_techcard_page "search" = false
  /\ turns_techcard_page "stats" = false
  /\ ButtonHandler.routes other_int ButtonHandler.admin_users_mass_keyboard
     = [ [Ret ButtonHandler.Admin_broadcast];
         [Ret ButtonHandler.Unhandled];
         [Ret ButtonHandler.Unhandled];
         [Ret ButtonHandler.Admin_users] ].
Proof.
  split; [apply never_routed_to_stats_or_search|].
  repeat split.
Qed.

(** ** Paging through the groups found *)

Section PagingFacts.
Import ButtonHandler.
Context {A : Type}.
Implicit Types groups : list A.

Lemma slice_window (start : Z) groups :
  (0 <= start)%Z ->
  slice start (start + GROUPS_PER_PAGE) groups
  = take 10 (drop (Z.to_nat start) groups).
Proof.
  intros Hstart. unfold slice, slice_bound, GROUPS_PER_PAGE.
  assert ((start <? 0)%Z = false) as -> by lia.
  assert ((start + 10 <? 0)%Z = false) as -> by lia.
  set (n := List.length groups).
  destruct (decide (Z.of_nat n <= start)%Z) as [Hout|Hin].
  - rewrite !Z.min_r by lia. rewrite Z.sub_diag. simpl.
    rewrite (drop_ge groups (Z.to_nat start)) by (fold n; lia).
    now rewrite drop_ge by (fold n; lia).
  - rewrite (Z.min_l start) by lia.
    destruct (decide (start + 10 <= Z.of_nat n)%Z) as [Hfull|Hlast].
    + rewrite Z.min_l by lia. f_equal. lia.
    + rewrite Z.min_r by lia.
      rewrite !take_ge; [reflexivity|..]; rewrite length_drop; fold n; lia.
Qed.

Lemma windows_concat groups k :
  concat (map (fun i => take 10 (drop (10 * (i - 1)) groups)) (seq 1 k))
  = take (10 * k) groups.
Proof.
  induction k as [|k IH]; [reflexivity|].
  rewrite seq_S, map_app, concat_app, IH. simpl. rewrite app_nil_r.
  replace (k - 0) with k by lia.
  rewrite take_take_drop. f_equal. lia.
Qed.

Lemma total_pages_bounds groups :
  (0 <= total_pages groups)%Z
  /\ (Z.of_nat (List.length groups) <= 10 * total_pages groups)%Z
  /\ (10 * (total_pages groups - 1) < Z.of_nat (List.length groups))%Z.
Proof.
  unfold total_pages, GROUPS_PER_PAGE.
  pose proof (Z.div_mod (Z.of_nat (List.length groups) + 10 - 1) 10 ltac:(lia)) as Hdm.
  pose proof (Z.mod_pos_bound (Z.of_nat (List.length groups) + 10 - 1) 10 ltac:(lia)) as Hm.
  lia.
Qed.

Lemma page_in_range (page : Z) groups :
  (1 <= page)%Z ->
  page_slice page groups = take 10 (drop (10 * (Z.to_nat page - 1)) groups).
Proof.
  intros Hpage. unfold page_slice.
  rewrite slice_window by (unfold GROUPS_PER_PAGE; lia).
  f_equal. f_equal. unfold GROUPS_PER_PAGE. lia.
Qed.

Lemma shown_page_in_range (page : Z) groups :
  groups <> [] ->
  (1 <= shown_page page (total_pages groups) <= total_pages groups)%Z.
Proof.
  intros Hne. pose proof (total_pages_bounds groups) as (H0 & Hup & Hlow).
  assert (0 < List.length groups) by (destruct groups; [contradiction|simpl; lia]).
  unfold shown_page. repeat case_match; lia.
Qed.

Lemma pages_concat groups :
  concat (map (fun p => current_groups p groups) (page_numbers groups)) = groups.
Proof.
  pose proof (total_pages_bounds groups) as (H0 & Hup & Hlow).
  unfold page_numbers. rewrite map_map.
  rewrite (map_ext_in _ (fun i => take 10 (drop (10 * (i - 1)) groups))).
  - rewrite windows_concat. apply take_ge. lia.
  - intros i [Hi1 Hi2]%in_seq. unfold current_groups, shown_page.
    assert ((Z.of_nat i <? 1)%Z = false) as -> by lia.
    assert ((total_pages groups <? Z.of_nat i)%Z = false) as -> by lia.
    rewrite page_in_range by lia. now rewrite Nat2Z.id.
Qed.

Lemma current_groups_length (page : Z) groups :
  List.length (current_groups page groups) <= 10
  /\ (groups <> [] -> current_groups page groups <> []).
Proof.
  pose proof (total_pages_bounds groups) as (H0 & Hup & Hlow).
  unfold current_groups. split.
  - destruct (decide (1 <= shown_page page (total_pages groups))%Z) as [Hin|Hout].
    + rewrite page_in_range by exact Hin. rewrite length_take. lia.
    + assert (groups = []) as ->.
      { destruct groups; [reflexivity|]. exfalso. apply Hout.
        apply (shown_page_in_range page (a :: groups)). discriminate. }
      unfold page_slice, slice. rewrite drop_nil, take_nil. simpl. lia.
  - intros Hne. destruct (shown_page_in_range page groups Hne) as [H1 H2].
    rewrite page_in_range by exact H1.
    intros Hnil. apply (f_equal (@List.length _)) in Hnil.
    rewrite length_take, length_drop in Hnil.
    set (s := shown_page page (total_pages groups)) in *.
    set (n := List.length groups) in *.
    change (List.length (@nil A)) with 0 in Hnil.
    assert (10 * (Z.to_nat s - 1) < n) by lia.
    lia.
Qed.

End PagingFacts.

(** The pages of a search result share out the groups found: put one
    after the other, pages 1 to the last give back the list as it was found.
    Whatever page is asked for, the page shown holds at most ten groups, and
    at least one unless nothing was found; its number then lies between 1 and
    the number of pages. *)
Theorem pages_share_out_the_groups {A : Type} (groups : list A) :
  concat (map (fun p => ButtonHandler.current_groups p groups) (page_numbers groups))
  = groups
  /\ forall page : Z,
      List.length (ButtonHandler.current_groups page groups) <= 10
      /\ (groups <> [] ->
          ButtonHandler.current_groups page groups <> []
          /\ (1 <= ButtonHandler.shown_page page (ButtonHandler.total_pages groups)
              <= ButtonHandler.total_pages groups)%Z).
Proof.
  split; [apply pages_concat|].
  intros page. destruct (current_groups_length page groups) as [Hlen Hne].
  split; [exact Hlen|]. intros Hgroups.
  split; [apply Hne, Hgroups|apply shown_page_in_range, Hgroups].
Qed.

Lemma pages_share_out_the_groups_witness :
  concat (map (fun p => ButtonHandler.current_groups p demo_found) (page_numbers demo_found))
  = demo_found
  /\ List.length (ButtonHandler.current_groups 3 demo_found) <= 10.
Proof.
  destruct (pages_share_out_the_groups demo_found) as [Hall Hpage].
  split; [exact Hall|exact (proj1 (Hpage 3%Z))].
Defined.

Section ArrowFacts.
Import ButtonHandler.
Variable other_int : string -> res Z.

Lemma group_buttons_routes (groups : list group_row) :
  map (fun group => route other_int (callback_data (group_button group))) groups
  = map (fun group => Ret (Group_today (str (groupId group)))) groups.
Proof.
  apply map_ext. intros group. unfold group_button. cbn [callback_data].
  apply route_group. apply str_has_no; [reflexivity|discriminate].
Qed.

Lemma nav_buttons_routes q (page total : Z) :
  contains "_" q = false ->
  map (fun b => route other_int (callback_data b)) (nav_buttons q page total)
  = (if (1 <? page)%Z then [Ret (Groups_page "prev" q (page - 1))] else [])
    ++ [Ret Unhandled]
    ++ (if (page <? total)%Z then [Ret (Groups_page "next" q (page + 1))] else []).
Proof.
  intros Hq. unfold nav_buttons. rewrite !map_app.
  destruct (1 <? page)%Z, (page <? total)%Z; cbn [map app callback_data];
    rewrite ?route_prev_page, ?route_next_page by exact Hq; reflexivity.
Qed.

(** A search text with an underscore is cut at the underscore when the
    data of an arrow is read back. *)
Lemma underscore_cuts_the_query a b (n : Z) search_query page direction :
  contains "_" a = false ->
  route other_int ("next_page_" +:+ a +:+ "_" +:+ b +:+ "_" +:+ str n)
  = Ret (Groups_page direction search_query page) ->
  search_query = a.
Proof.
  intros Ha. unfold route, page_args. 
  repeat match goal with
         | |- context [if ?c then _ else _] =>
             first [ replace c with false by reflexivity
                   | replace c with true
                       by (rewrite ?startswith_app; reflexivity) ];
             cbv beta iota
         end.
  change ("next_page_" +:+ a +:+ "_" +:+ b +:+ "_" +:+ str n)
    with ("next" +:+ String "_" ("page" +:+ String "_"
            (a +:+ String "_" (b +:+ String "_" (str n))))).
  rewrite !split_app_sep, (split_no_sep "_" a Ha).
  replace (split "_" "next") with ["next"] by reflexivity.
  replace (split "_" "page") with ["page"] by reflexivity.
  pose proof (split_not_nil "_" b) as Hb.
  destruct (split "_" b) as [|b0 bs]; [contradiction|].
  unfold item. cbn [app lookup list_lookup res_bind].
  destruct (int other_int b0); cbn [res_bind]; [|discriminate].
  intros [= _ <- _]. reflexivity.
Qed.

End ArrowFacts.

(** The arrows under a page of groups lead to the neighbouring pages of
    the same search.  For a search text without an underscore, the arrow back
    is there exactly for a page after the first and is routed to the page
    before with the same text; the arrow on is there exactly for a page
    before the last and is routed to the page after; the page counter in
    between is routed nowhere; and every group of the page is routed to the
    schedule of that group.  A search text with an underscore is cut at its
    first underscore when the data of an arrow is read back. *)
Theorem arrows_lead_to_the_neighbouring_page
    (other_int : string -> res Z) (search_query : string) (page : Z)
    (groups : list ButtonHandler.group_row) :
  contains "_" search_query = false ->
  let total := ButtonHandler.total_pages groups in
  let p := ButtonHandler.shown_page page total in
  ButtonHandler.routes other_int (ButtonHandler.groups_keyboard search_query page groups)
  = map (fun group =>
           [Ret (ButtonHandler.Group_today
                   (ButtonHandler.str (ButtonHandler.groupId group)))])
        (ButtonHandler.current_groups page groups)
    ++ [ (if (1 <? p)%Z
          then [Ret (ButtonHandler.Groups_page "prev" search_query (p - 1))] else [])
         ++ [Ret ButtonHandler.Unhandled]
         ++ (if (p <? total)%Z
             then [Ret (ButtonHandler.Groups_page "next" search_query (p + 1))] else []);
         [Ret ButtonHandler.Search_group];
         [Ret ButtonHandler.Start] ]
  /\ ((1 < p)%Z -> p <= total ->
      ButtonHandler.shown_page (p - 1) total = (p - 1)%Z)%Z
  /\ ((p < total)%Z -> (1 <= p)%Z ->
      ButtonHandler.shown_page (p + 1) total = (p + 1)%Z)
  /\ forall a b n direction query page',
      contains "_" a = false ->
      ButtonHandler.route other_int
        ("next_page_" +:+ a +:+ "_" +:+ b +:+ "_" +:+ ButtonHandler.str n)
      = Ret (ButtonHandler.Groups_page direction query page') ->
      query = a.
Proof.
  intros Hq total p. split; [|split; [|split]].
  - unfold ButtonHandler.routes, ButtonHandler.groups_keyboard.
    fold total. fold p. rewrite map_app, map_map. cbn [map].
    rewrite (nav_buttons_routes other_int _ _ _ Hq).
    f_equal. unfold ButtonHandler.current_groups. fold total. fold p.
    apply map_ext. intros group. cbn [map ButtonHandler.callback_data].
    unfold ButtonHandler.group_button. cbn [ButtonHandler.callback_data].
    rewrite route_group; [reflexivity|]. apply str_has_no; [reflexivity|discriminate].
  - intros H1 H2. unfold ButtonHandler.shown_page. repeat case_match; lia.
  - intros H1 H2. unfold ButtonHandler.shown_page. repeat case_match; lia.
  - intros a b n direction query page'. apply underscore_cuts_the_query.
Qed.

Lemma arrows_lead_to_the_neighbouring_page_witness :
  ButtonHandler.routes no_other_int (ButtonHandler.groups_keyboard "305" 2 demo_found)
    !! 10
  = Some [ Ret (ButtonHandler.Groups_page "prev" "305" 1);
           Ret ButtonHandler.Unhandled;
           Ret (ButtonHandler.Groups_page "next" "305" 3) ].
Proof.
  destruct (arrows_lead_to_the_neighbouring_page no_other_int "305" 2 demo_found eq_refl)
    as [H _].
  rewrite H. reflexivity.
Defined.

(** ** The commands and handlers around the broadcast *)

Section BroadcastTexts.
Import TelegramBot.
Variable tg : telegram.
Variable admin_chat : nat -> bool.
Variable get_all_users : res (list UserRow.t).

Lemma broadcast_one_text total text user counts w :
  exists c,
    bot_calls (after (broadcast_one tg admin_chat total text user counts) w)
    = bot_calls w ++ [c]
    /\ call_text c = text.
Proof.
  destruct counts as [success_count fail_count].
  unfold broadcast_one, after.
  unfold mbind, M_bind.
  unfold try_except, bind, bot_send_message, post_status, sleep, logging, ret.
  cbn [fst snd bot_calls status_msgs set_bot_calls set_clock set_log set_status_msgs].
  destruct (tg (List.length (bot_calls w)) (UserRow.tg_id user) text)
    as [took [[]|e]]; cbn [sent TelegramBot.took].
  - destruct (Nat.eqb (S success_count mod 10) 0); cbn;
      [destruct (admin_chat (List.length (status_msgs w))); cbn|]; eauto.
  - destruct (is_Exception e); cbn; eauto.
Qed.

Lemma broadcast_loop_texts total text users counts w :
  exists cs,
    bot_calls (after (broadcast_loop tg admin_chat total text users counts) w)
    = bot_calls w ++ cs
    /\ Forall (fun c => call_text c = text) cs.
Proof.
  revert counts w. induction users as [|user rest IH]; intros counts w; simpl.
  - exists []. rewrite app_nil_r. split; [reflexivity|constructor].
  - destruct (broadcast_one_text total text user counts w) as (c & Hc & Htext).
    unfold after in *. unfold bind.
    destruct (broadcast_one tg admin_chat total text user counts w) as [[counts1|e] w1];
      simpl in *.
    + destruct (IH counts1 w1) as (cs & Hcs & Htexts).
      exists (c :: cs). rewrite Hcs, Hc, <- app_assoc. split; [reflexivity|].
      constructor; assumption.
    + exists [c]. split; [exact Hc|]. repeat constructor. exact Htext.
Qed.

(** A broadcast calls the channel with nothing but the text it was given,
    and not at all when it was given none. *)
Lemma broadcast_texts text w :
  Forall (fun c => Some (call_text c) = text)
    (new_calls w (after (process_broadcast tg admin_chat get_all_users text) w)).
Proof.
  unfold process_broadcast, after.
  destruct text as [[|a t]|]; simpl;
    try (unfold new_calls; rewrite drop_all; constructor).
  destruct get_all_users as [all_users|e]; simpl;
    [|unfold new_calls; simpl; rewrite drop_all; constructor].
  unfold mbind, M_bind. unfold bind, lift, post_status at 1. simpl.
  destruct (admin_chat (List.length (status_msgs w))); simpl.
  - match goal with
    | |- context [broadcast_loop tg admin_chat ?t ?m ?u ?c ?w0] =>
        destruct (broadcast_loop_texts t m u c w0) as (cs & Hcs & Htexts);
        unfold after in Hcs;
        destruct (broadcast_loop tg admin_chat t m u c w0) as [[[s f]|e] w1]
    end; simpl in *.
    + unfold post_status. simpl. rewrite (new_calls_app w _ cs) by exact Hcs.
      eapply Forall_impl; [exact Htexts|]. intros c ->. reflexivity.
    + rewrite (new_calls_app w _ cs) by exact Hcs.
      eapply Forall_impl; [exact Htexts|]. intros c ->. reflexivity.
  - unfold new_calls. simpl. rewrite drop_all. constructor.
Qed.

End BroadcastTexts.

Lemma hbind_keeps_world {A B} (m : Handlers.H A) (k : A -> Handlers.H B) :
  keeps_world m -> (forall a, keeps_world (k a)) -> keeps_world (Handlers.hbind m k).
Proof.
  intros Hm Hk s. specialize (Hm s). unfold Handlers.hworld, Handlers.hbind in *.
  destruct (m s) as [[a|e] s']; simpl in *; [|exact Hm].
  rewrite <- Hm. apply Hk.
Qed.

Lemma htry_keeps_world {A} (body : Handlers.H A) handler :
  keeps_world body -> (forall e, keeps_world (handler e)) ->
  keeps_world (Handlers.htry body handler).
Proof.
  intros Hm Hk s. specialize (Hm s). unfold Handlers.hworld, Handlers.htry in *.
  destruct (body s) as [[a|e] s']; simpl in *; [exact Hm|].
  destruct (is_Exception e); simpl; [|exact Hm].
  rewrite <- Hm. apply Hk.
Qed.

Lemma show_keeps_world chat m : keeps_world (Handlers.show chat m).
Proof. intros s. reflexivity. Qed.

Lemma note_down_keeps_world n : keeps_world (Handlers.note_down n).
Proof. intros s. reflexivity. Qed.

Lemma hret_keeps_world {A} (a : A) : keeps_world (Handlers.hret a).
Proof. intros s. reflexivity. Qed.

Lemma hraise_keeps_world {A} e : keeps_world (@Handlers.hraise A e).
Proof. intros s. reflexivity. Qed.

Lemma hbind_world_r {A B} (m : Handlers.H A) (k : A -> Handlers.H B) s :
  (forall a, keeps_world (k a)) ->
  Handlers.hworld (Handlers.hbind m k) s = Handlers.hworld m s.
Proof.
  intros Hk. unfold Handlers.hworld, Handlers.hbind.
  destruct (m s) as [[a|e] s']; simpl; [apply Hk|reflexivity].
Qed.

Lemma htry_world {A} (body : Handlers.H A) handler s :
  (forall e, keeps_world (handler e)) ->
  Handlers.hworld (Handlers.htry body handler) s = Handlers.hworld body s.
Proof.
  intros Hk. unfold Handlers.hworld, Handlers.htry.
  destruct (body s) as [[a|e] s']; simpl; [reflexivity|].
  destruct (is_Exception e); simpl; [apply Hk|reflexivity].
Qed.

Lemma hbind_assoc {A B C} (m : Handlers.H A) (k : A -> Handlers.H B)
    (k' : B -> Handlers.H C) s :
  Handlers.hworld (Handlers.hbind m (fun a => Handlers.hbind (k a) k')) s
  = Handlers.hworld (Handlers.hbind (Handlers.hbind m k) k') s.
Proof.
  unfold Handlers.hworld, Handlers.hbind. destruct (m s) as [[a|e] s']; reflexivity.
Qed.

Lemma set_state_keeps_world v : keeps_world (Handlers.set_state v).
Proof. intros s. reflexivity. Qed.

Lemma process_broadcast_world tg admin_chat get_all_users u w d :
  Handlers.hworld (Handlers.process_broadcast tg admin_chat get_all_users u) (w, d)
  = after (TelegramBot.process_broadcast tg admin_chat get_all_users (Handlers.text_of u)) w.
Proof.
  unfold Handlers.process_broadcast.
  destruct (truthy_str (Handlers.text_of u)) eqn:Htext; cbn [negb].
  - unfold mbind, Handlers.H_bind. rewrite hbind_world_r.
    + unfold Handlers.hworld, Handlers.in_world, after. cbn [fst].
      match goal with |- context [let (r, w') := ?run in _] => destruct run end.
      reflexivity.
    + intros _. apply set_state_keeps_world.
  - unfold after, TelegramBot.process_broadcast. rewrite Htext. reflexivity.
Qed.

(** [/broadcast] sends the message of the command as it was typed, the
    command word included: every call of the channel carries
    [update.message.text], whatever the arguments are.  The calls go to users
    that are not banned, in the order of the table, and to all of them when
    nothing fails on the way.  Sent by someone who is no administrator, or
    without arguments, the command calls the channel for nobody and answers
    with one message.  The update is one with a message, as a command typed
    in a chat is. *)
Theorem broadcast_command_sends_the_message_as_typed
    (chat : nat -> bool) (tg : TelegramBot.telegram) (admin_chat : nat -> bool)
    (get_all_users : res (list TelegramBot.UserRow.t)) (ADMIN_IDS : list Z)
    (u : Handlers.update) (args : list string)
    (user : Handlers.tg_user) (m : Handlers.message)
    (all_users : list TelegramBot.UserRow.t) (w : world) (d : Handlers.desk) :
  Handlers.effective_user u = Some user ->
  Handlers.update_message u = Some m ->
  get_all_users = Ret all_users ->
  let run := Handlers.broadcast_command chat tg admin_chat get_all_users ADMIN_IDS u args in
  let w' := Handlers.hworld run (w, d) in
  let recipients := map TelegramBot.UserRow.tg_id
                      (List.filter TelegramBot.not_banned all_users) in
  Forall (fun c => Some (call_text c) = Handlers.text_of u) (new_calls w w')
  /\ map call_chat (new_calls w w') `prefix_of` recipients
  /\ (Handlers.is_admin ADMIN_IDS (Handlers.user_id user) = false \/ args = [] ->
      w' = w /\ List.length (new_shown d (Handlers.hdesk run (w, d))) = 1)
  /\ (Handlers.is_admin ADMIN_IDS (Handlers.user_id user) = true ->
      args <> [] ->
      chat (List.length (Handlers.shown d)) = true ->
      no_cancellation tg ->
      truthy_str (Handlers.text_of u) = true ->
      admin_chat (List.length (status_msgs w)) = true ->
      map call_chat (new_calls w w') = recipients).
Proof.
  intros Huser Hmsg Hdb run w' recipients.
  set (go := Handlers.is_admin ADMIN_IDS (Handlers.user_id user)
             && match args with [] => false | _ => true end
             && chat (List.length (Handlers.shown d))).
  assert (w' = if go
               then after (TelegramBot.process_broadcast tg admin_chat get_all_users
                             (Handlers.text_of u)) w
               else w) as Hw.
  { subst w' run go.
    unfold Handlers.broadcast_command, Handlers.effective_user_id, Handlers.reply_text.
    rewrite Huser, Hmsg. unfold mbind, Handlers.H_bind.
    unfold Handlers.hbind at 1. unfold Handlers.hret at 1.
    destruct (Handlers.is_admin ADMIN_IDS (Handlers.user_id user)); cbn [negb andb];
      [|reflexivity].
    destruct args as [|arg args]; [reflexivity|].
    unfold Handlers.hworld, Handlers.hbind, Handlers.show. cbn [fst snd andb].
    destruct (chat (List.length (Handlers.shown d))); [|reflexivity].
    apply process_broadcast_world. }
  assert (go = false -> List.length (new_shown d (Handlers.hdesk run (w, d))) = 1)
    as Hshown.
  { subst run go.
    unfold Handlers.broadcast_command, Handlers.effective_user_id, Handlers.reply_text,
      new_shown.
    rewrite Huser, Hmsg. unfold mbind, Handlers.H_bind.
    unfold Handlers.hbind at 1. unfold Handlers.hret at 1.
    destruct (Handlers.is_admin ADMIN_IDS (Handlers.user_id user)); cbn [negb andb].
    - destruct args as [|arg args].
      + intros _. unfold Handlers.hdesk, Handlers.show. cbn [fst snd Handlers.shown].
        rewrite drop_app_length. reflexivity.
      + unfold Handlers.hdesk, Handlers.hbind, Handlers.show. cbn [fst snd andb].
        intros ->. cbn [fst snd Handlers.shown].
        rewrite drop_app_length. reflexivity.
    - intros _. unfold Handlers.hdesk, Handlers.show. cbn [fst snd Handlers.shown].
      rewrite drop_app_length. reflexivity. }
  clearbody w'. subst w'.
  pose proof (broadcast_texts tg admin_chat get_all_users (Handlers.text_of u) w)
    as Htexts.
  pose proof (broadcast_calls_only_the_unbanned tg admin_chat get_all_users
                (Handlers.text_of u) all_users w Hdb) as Hpre.
  pose proof (broadcast_reaches_the_unbanned tg admin_chat get_all_users) as Hall.
  subst go.
  destruct (Handlers.is_admin ADMIN_IDS (Handlers.user_id user)); cbn [andb] in *.
  - destruct args as [|arg args]; cbn [andb] in *.
    + unfold new_calls. rewrite drop_all.
      split; [constructor|]. split; [apply prefix_nil|]. split; [auto|].
      intros _ Hne. contradiction.
    + destruct (chat (List.length (Handlers.shown d))).
      * split; [exact Htexts|]. split; [exact Hpre|].
        split; [intros [?|?]; discriminate|].
        intros _ _ _ Htg Htext Hstart.
        destruct (Hall Htg (Handlers.text_of u) all_users w Htext Hdb Hstart)
          as [(cs & Hcs & Hchats & _) _].
        rewrite (new_calls_app w _ cs) by exact Hcs. exact Hchats.
      * unfold new_calls. rewrite drop_all.
        split; [constructor|]. split; [apply prefix_nil|].
        split; [intros [?|?]; discriminate|]. intros _ _ ?. discriminate.
  - unfold new_calls. rewrite drop_all.
    split; [constructor|]. split; [apply prefix_nil|]. split; [auto|].
    intros ?. discriminate.
Qed.

Lemma broadcast_command_sends_the_message_as_typed_witness :
  let w' := Handlers.hworld
              (Handlers.broadcast_command chat_open accepts_all admin_online
                 (Ret demo_users) [1%Z] (text_update 1 "/broadcast hello") ["hello"])
              (fresh, Handlers.empty_desk) in
  map call_chat (new_calls fresh w') = [11%Z; 13%Z]
  /\ Forall (fun c => Some (call_text c) = Some "/broadcast hello") (new_calls fresh w').
Proof.
  destruct (broadcast_command_sends_the_message_as_typed chat_open accepts_all
              admin_online (Ret demo_users) [1%Z] (text_update 1 "/broadcast hello")
              ["hello"] {| Handlers.user_id := 1; Handlers.username := None |}
              {| Handlers.message_text := Some "/broadcast hello"; Handlers.chat_id := 1;
                 Handlers.chat_type := "private"; Handlers.replies_to_the_bot := false |}
              demo_users fresh Handlers.empty_desk eq_refl eq_refl eq_refl)
    as (Htexts & _ & _ & Hall).
  specialize (Hall eq_refl ltac:(discriminate) eq_refl accepts_all_fails_ordinarily
                eq_refl eq_refl).
  split; [exact Hall|exact Htexts].
Defined.

(** ** The error handler *)

Section ErrorHandlerFacts.
Import Handlers.
Variable chat : nat -> bool.
Variable tg : TelegramBot.telegram.
Variable ADMIN_IDS : list Z.
Hypothesis tg_fails_ordinarily : no_cancellation tg.

Lemma notify_admin_effect text admin_id w d :
  exists c d',
    notify_admin tg text admin_id (w, d)
    = (Ret tt, (after (TelegramBot.bot_send_message tg admin_id text) w, d'))
    /\ bot_calls (after (TelegramBot.bot_send_message tg admin_id text) w)
       = bot_calls w ++ [c]
    /\ call_chat c = admin_id /\ call_text c = text
    /\ shown d' = shown d.
Proof.
  unfold notify_admin, htry, in_world, after, TelegramBot.bot_send_message, note_down.
  simpl.
  destruct (tg (List.length (bot_calls w)) admin_id text) as [took [[]|e]] eqn:Hsend;
    simpl.
  - eauto 10.
  - assert (is_Exception e = true) as ->.
    { eapply tg_fails_ordinarily. rewrite Hsend. reflexivity. }
    simpl. eauto 10.
Qed.

Lemma notify_admins_effect text admins w d :
  exists w' d' cs,
    hfor admins (notify_admin tg text) (w, d) = (Ret tt, (w', d'))
    /\ bot_calls w' = bot_calls w ++ cs
    /\ map (fun c => (call_chat c, call_text c)) cs = map (fun a => (a, text)) admins
    /\ shown d' = shown d.
Proof.
  revert w d. induction admins as [|a rest IH]; intros w d.
  - exists w, d, []. simpl. rewrite app_nil_r. auto.
  - destruct (notify_admin_effect text a w d) as (c & d1 & Hrun & Hc & Hchat & Htext & Hsh).
    cbn [hfor]. unfold mbind, H_bind, hbind. rewrite Hrun.
    destruct (IH (after (TelegramBot.bot_send_message tg a text) w) d1)
      as (w' & d' & cs & Hrest & Hcs & Hmap & Hsh').
    exists w', d', (c :: cs). rewrite Hrest, Hcs, Hc, <- app_assoc.
    split; [reflexivity|]. split; [reflexivity|].
    simpl. rewrite Hchat, Htext, Hmap. split; [reflexivity|congruence].
Qed.

End ErrorHandlerFacts.

(** The error handler never raises, however the sends and the reply to
    the user go.  For an update it calls the channel once for every
    administrator, in the order of [ADMIN_IDS] and with the same report,
    whether or not earlier calls fail, and answers the user when there is a
    message to answer, with the text for the class of the error.  Called
    with no update, as for an error raised outside the handling of one, it
    notifies no administrator: reading the user of the missing update raises,
    and all that is left is a log record. *)
Theorem error_handler_reports_to_every_admin
    (chat : nat -> bool) (tg : TelegramBot.telegram) (ADMIN_IDS : list Z)
    (update : option Handlers.update) (error : Handlers.failure)
    (w : world) (d : Handlers.desk) :
  no_cancellation tg ->
  let run := Handlers.error_handler chat tg ADMIN_IDS update error in
  Handlers.hresult run (w, d) = Ret tt
  /\ match update with
     | None =>
         Handlers.hworld run (w, d) = w
         /\ Handlers.shown (Handlers.hdesk run (w, d)) = Handlers.shown d
         /\ last (Handlers.notes (Handlers.hdesk run (w, d)))
            = Some (Handlers.Err_in_error_handler AttributeError)
     | Some u =>
         map (fun c => (call_chat c, call_text c))
           (new_calls w (Handlers.hworld run (w, d)))
         = map (fun a => (a, Handlers.join_lines (Handlers.error_info u error))) ADMIN_IDS
         /\ map (fun m => Handlers.body (fst m))
              (new_shown d (Handlers.hdesk run (w, d)))
            = if Handlers.effective_message u
              then [Handlers.user_error_text error] else []
     end.
Proof.
  intros Htg run. subst run.
  unfold Handlers.error_handler, Handlers.hresult, Handlers.hworld, Handlers.hdesk,
    Handlers.htry, new_shown.
  destruct update as [u|].
  - unfold mbind, Handlers.H_bind, Handlers.hbind.
    destruct (notify_admins_effect tg Htg
                (Handlers.join_lines (Handlers.error_info u error)) ADMIN_IDS w d)
      as (w' & d' & cs & Hrun & Hcs & Hmap & Hsh).
    rewrite Hrun.
    destruct (Handlers.effective_message u).
    + unfold Handlers.show, Handlers.note_down, Handlers.hret. simpl.
      destruct (chat (List.length (Handlers.shown d'))); simpl;
        (split; [reflexivity|]); rewrite (new_calls_app w w' cs) by exact Hcs;
        (split; [exact Hmap|]); rewrite Hsh, drop_app_length; reflexivity.
    + unfold Handlers.note_down, Handlers.hret. simpl. split; [reflexivity|].
      rewrite (new_calls_app w w' cs) by exact Hcs. split; [exact Hmap|].
      rewrite Hsh, drop_all. reflexivity.
  - simpl. split; [reflexivity|]. split; [reflexivity|]. split; [reflexivity|].
    apply last_snoc.
Qed.

Lemma error_handler_reports_to_every_admin_witness :
  map call_chat
    (new_calls fresh
       (Handlers.hworld
          (Handlers.error_handler chat_open rejects_first [1%Z; 2%Z]
             (Some (button_update 7 "group_4242")) demo_failure)
          (fresh, Handlers.empty_desk)))
  = [1%Z; 2%Z].
Proof.
  destruct (error_handler_reports_to_every_admin chat_open rejects_first [1%Z; 2%Z]
              (Some (button_update 7 "group_4242")) demo_failure fresh
              Handlers.empty_desk rejects_first_fails_ordinarily) as [_ [H _]].
  apply (f_equal (map fst)) in H. rewrite !map_map in H. exact H.
Defined.

(** ** Clearing the cache by hand *)

Lemma admin_system_handler_keeps_world chat ADMIN_IDS from_user probe :
  keeps_world (Handlers.admin_system_handler chat ADMIN_IDS from_user probe).
Proof.
  intros [w d]. unfold Handlers.admin_system_handler, Handlers.hworld.
  destruct (negb (Handlers.is_admin ADMIN_IDS from_user)); [reflexivity|].
  unfold mbind, Handlers.H_bind, Handlers.hbind, Handlers.in_world, lift. simpl.
  destruct probe; reflexivity.
Qed.

Lemma admin_clear_cache_world chat ADMIN_IDS connection from_user redis_cache probe w d :
  Handlers.is_admin ADMIN_IDS from_user = true ->
  let w' := Handlers.hworld
              (Handlers.admin_clear_cache_handler chat ADMIN_IDS connection from_user
                 redis_cache probe) (w, d) in
  schedule_cache w' = ∅
  /\ cache_last_update w' = ∅
  /\ lru w' = lru w
  /\ adapter_calls w' = adapter_calls w
  /\ clock w' = clock w
  /\ redis_store w'
     = match redis_cache with
       | Some _ => if connection (redis_execs w) then ∅ else redis_store w
       | None => redis_store w
       end.
Proof.
  intros Hadmin. unfold Handlers.admin_clear_cache_handler. rewrite Hadmin.
  cbn [negb]. cbv zeta.
  rewrite htry_world.
  2:{ intros e. apply hbind_keeps_world; [apply note_down_keeps_world|].
      intros _. apply show_keeps_world. }
  unfold mbind, Handlers.H_bind.
  rewrite (hbind_assoc (Handlers.in_world Handlers.clear_local_caches) (fun _ => _)).
  rewrite hbind_world_r.
  2:{ intros _. apply hbind_keeps_world; [apply show_keeps_world|].
      intros _. apply admin_system_handler_keeps_world. }
  unfold Handlers.hworld, Handlers.hbind, Handlers.in_world, Handlers.clear_local_caches.
  cbn [fst snd].
  destruct redis_cache as [cache|].
  - unfold Handlers.htry, Handlers.in_world, Handlers.flushdb. cbn [fst snd redis_execs].
    destruct (connection (redis_execs w)); simpl; auto 10.
  - simpl. auto 10.
Qed.

Lemma admin_clear_cache_desk chat ADMIN_IDS connection from_user redis_cache info w d :
  Handlers.is_admin ADMIN_IDS from_user = true ->
  (forall n, chat n = true) ->
  let run := Handlers.admin_clear_cache_handler chat ADMIN_IDS connection from_user
               redis_cache (Ret info) in
  Handlers.hresult run (w, d) = Ret tt
  /\ map (fun m => Handlers.body (fst m)) (new_shown d (Handlers.hdesk run (w, d)))
     = [ "✅ Кэш успешно очищен"; Handlers.system_message info 0 ].
Proof.
  intros Hadmin Hchat run. subst run.
  unfold Handlers.admin_clear_cache_handler, Handlers.admin_system_handler.
  rewrite Hadmin. cbn [negb]. cbv zeta.
  unfold Handlers.hresult, Handlers.hdesk, new_shown, Handlers.htry, mbind,
    Handlers.H_bind, Handlers.hbind, Handlers.in_world, Handlers.clear_local_caches,
    Handlers.show, Handlers.hret, Handlers.note_down, Handlers.flushdb, lift.
  destruct redis_cache as [cache|]; [destruct (connection (redis_execs w)) eqn:Hup|];
    cbn -[Handlers.system_message size drop]; rewrite ?Hup;
    cbn -[Handlers.system_message size drop]; rewrite !Hchat;
    cbn -[Handlers.system_message size drop]; rewrite ?Hchat;
    cbn -[Handlers.system_message size drop];
    (split; [reflexivity|]);
    rewrite <- ?app_assoc, drop_app_length; reflexivity.
Qed.

(** Clearing the cache from the system panel empties the two dictionaries
    of the bot and, where Redis answers, the Redis database; a Redis that
    does not answer does not stop it.  The memo of [get_cached_schedule] is
    not among them: a lookup the memo holds is still answered from it, with
    no call of the adapter, and only the lookups it does not hold go to the
    adapter again.  The panel shown afterwards counts no cached element. *)
Theorem clearing_by_hand_leaves_the_memo
    (chat : nat -> bool) (ADMIN_IDS : list Z) (connection : nat -> bool)
    (from_user : Z) (redis_cache : option RedisCache.t)
    (probe : res Handlers.system_info) (w : world) (d : Handlers.desk) :
  Handlers.is_admin ADMIN_IDS from_user = true ->
  let run := Handlers.admin_clear_cache_handler chat ADMIN_IDS connection from_user
               redis_cache probe in
  let w' := Handlers.hworld run (w, d) in
  schedule_cache w' = ∅
  /\ cache_last_update w' = ∅
  /\ redis_store w'
     = match redis_cache with
       | Some _ => if connection (redis_execs w) then ∅ else redis_store w
       | None => redis_store w
       end
  /\ (forall group_id date v,
        TelegramBot.lru_find (group_id, date) (lru w) = Some v ->
        result (TelegramBot.get_cached_schedule group_id date) w' = Ret v
        /\ adapter_calls (after (TelegramBot.get_cached_schedule group_id date) w')
           = adapter_calls w)
  /\ (forall group_id date,
        TelegramBot.lru_find (group_id, date) (lru w) = None ->
        adapter_calls (after (TelegramBot.get_cached_schedule group_id date) w')
        = adapter_calls w ++ [(group_id, date)])
  /\ (forall info,
        probe = Ret info -> (forall n, chat n = true) ->
        Handlers.hresult run (w, d) = Ret tt
        /\ map (fun m => Handlers.body (fst m)) (new_shown d (Handlers.hdesk run (w, d)))
           = [ "✅ Кэш успешно очищен"; Handlers.system_message info 0 ]).
Proof.
  intros Hadmin run w'.
  destruct (admin_clear_cache_world chat ADMIN_IDS connection from_user redis_cache
              probe w d Hadmin) as (Hcache & Hstamps & Hlru & Hcalls & Hclock & Hredis).
  fold run in Hcache, Hstamps, Hlru, Hcalls, Hclock, Hredis.
  fold w' in Hcache, Hstamps, Hlru, Hcalls, Hclock, Hredis.
  split; [exact Hcache|]. split; [exact Hstamps|]. split; [exact Hredis|].
  split; [|split].
  - intros group_id date v Hhit.
    unfold result, after, TelegramBot.get_cached_schedule.
    rewrite Hlru, Hhit. simpl. auto.
  - intros group_id date Hmiss.
    unfold after, TelegramBot.get_cached_schedule, TelegramBot.get_cached_schedule_body.
    rewrite Hlru, Hmiss, Hstamps, lookup_empty. simpl. rewrite Hcalls. reflexivity.
  - intros info -> Hchat. subst run.
    apply admin_clear_cache_desk; assumption.
Qed.

Lemma clearing_by_hand_leaves_the_memo_witness :
  let w' := Handlers.hworld
              (Handlers.admin_clear_cache_handler chat_open [1%Z] (fun _ => false) 1%Z
                 (Some RedisCache.init) (Ret demo_system_info))
              (stale_lookup, Handlers.empty_desk) in
  result (TelegramBot.get_cached_schedule "4242" "20240102") w' = Ret (PCoroutine 0)
  /\ cache_last_update w' = ∅.
Proof.
  assert (Handlers.is_admin [1%Z] 1%Z = true) as Hadmin by reflexivity.
  destruct (clearing_by_hand_leaves_the_memo chat_open [1%Z] (fun _ => false) 1%Z
              (Some RedisCache.init) (Ret demo_system_info) stale_lookup
              Handlers.empty_desk Hadmin) as (_ & Hstamps & _ & Hhit & _).
  split; [|exact Hstamps].
  apply (Hhit "4242" "20240102" (PCoroutine 0)). reflexivity.
Defined.

(** ** The broadcast of the administration panel *)

(** The panel asks the administrator for the text of a broadcast and notes
    that it is awaited.  Nothing takes the text up: the handler of typed
    messages answers a text that is no command with nothing and leaves the
    note as it is, and the end of [button_handler], which looks for the
    note, runs on the press of a button, an update without a message, so
    that it sends nothing either.  World and chat are the same before and
    after both. *)
Theorem panel_broadcast_is_never_sent
    (chat : nat -> bool) (tg : TelegramBot.telegram) (admin_chat : nat -> bool)
    (get_all_users : res (list TelegramBot.UserRow.t)) (ADMIN_IDS : list Z)
    (str_of_exn : exn -> string) (from_user : Z) (w : world) (d : Handlers.desk) :
  Handlers.is_admin ADMIN_IDS from_user = true ->
  chat (List.length (Handlers.shown d)) = true ->
  let s1 := snd (Handlers.admin_broadcast_handler chat ADMIN_IDS from_user (w, d)) in
  Handlers.state (snd s1) = Some "waiting_for_broadcast"
  /\ fst s1 = w
  /\ (forall u user m text,
        Handlers.effective_user u = Some user ->
        Handlers.update_message u = Some m ->
        Handlers.message_text m = Some text ->
        startswith "/" text = false ->
        Handlers.message_handler chat str_of_exn u s1 = (Ret tt, s1))
  /\ (forall u user,
        Handlers.effective_user u = Some user ->
        Handlers.update_message u = None ->
        Handlers.broadcast_if_awaited tg admin_chat get_all_users ADMIN_IDS u s1
        = (Ret tt, s1)).
Proof.
  intros Hadmin Hchat s1.
  assert (s1 = (w, {| Handlers.shown :=
                        Handlers.shown d
                        ++ [({| Handlers.body := Handlers.broadcast_prompt;
                                Handlers.reply_markup :=
                                  [[ {| ButtonHandler.text := "🔙 Отмена";
                                        ButtonHandler.callback_data := "admin" |} ]] |},
                             true)];
                      Handlers.notes := Handlers.notes d;
                      Handlers.state := Some "waiting_for_broadcast" |})) as Hs1.
  { subst s1. unfold Handlers.admin_broadcast_handler. rewrite Hadmin.
    unfold Handlers.htry, mbind, Handlers.H_bind, Handlers.hbind, Handlers.show,
      Handlers.set_state.
    cbn [negb fst snd]. rewrite Hchat. reflexivity. }
  clearbody s1. subst s1. cbn [fst snd Handlers.state].
  split; [reflexivity|]. split; [reflexivity|]. split.
  - intros u user m text Huser Hmsg Htext Hplain.
    unfold Handlers.message_handler, Handlers.htry. rewrite Hmsg, Htext, Huser, Hplain.
    destruct text as [|a text]; [reflexivity|].
    cbn [negb andb]. rewrite andb_true_r.
    destruct (Handlers.is_group_chat m && negb (Handlers.replies_to_the_bot m));
      reflexivity.
  - intros u user Huser Hmsg.
    unfold Handlers.broadcast_if_awaited. cbn [snd Handlers.state].
    unfold Handlers.effective_user_id, Handlers.process_broadcast, Handlers.text_of.
    rewrite Huser, Hmsg.
    unfold mbind, Handlers.H_bind, Handlers.hbind, Handlers.hret.
    destruct (Handlers.is_admin ADMIN_IDS (Handlers.user_id user)); reflexivity.
Qed.

Lemma panel_broadcast_is_never_sent_witness :
  let s1 := snd (Handlers.admin_broadcast_handler chat_open [1%Z] 1%Z
                   (fresh, Handlers.empty_desk)) in
  Handlers.message_handler chat_open (fun _ => "error") (text_update 1 "hello") s1
  = (Ret tt, s1)
  /\ Handlers.broadcast_if_awaited accepts_all admin_online (Ret demo_users) [1%Z]
       (button_update 1 "admin") s1
     = (Ret tt, s1).
Proof.
  assert (Handlers.is_admin [1%Z] 1%Z = true) as Hadmin by reflexivity.
  destruct (panel_broadcast_is_never_sent chat_open accepts_all admin_online
              (Ret demo_users) [1%Z] (fun _ => "error") 1%Z fresh Handlers.empty_desk
              Hadmin eq_refl) as (_ & _ & Htyped & Hpressed).
  split.
  - apply (Htyped (text_update 1 "hello")
             {| Handlers.user_id := 1; Handlers.username := None |}
             {| Handlers.message_text := Some "hello"; Handlers.chat_id := 1;
                Handlers.chat_type := "private"; Handlers.replies_to_the_bot := false |}
             "hello"); reflexivity.
  - apply (Hpressed (button_update 1 "admin")
             {| Handlers.user_id := 1; Handlers.username := None |}); reflexivity.
Defined.

(** ** A message to one user *)

(** [/send], from an administrator and with a target and a text: when the
    target names a user, the channel is called once, for that user, banned
    or not, with the words after the target joined by single blanks.  When
    the target names nobody, or looking it up fails, the channel is not
    called.  With a chat that takes the answers, nothing but a cancellation
    leaves the command as an exception. *)
Theorem send_command_reaches_its_target
    (chat : nat -> bool) (tg : TelegramBot.telegram) (ADMIN_IDS : list Z)
    (get_user_by_username : string -> res (option TelegramBot.UserRow.t))
    (get_user_by_tg_id : Z -> res (option TelegramBot.UserRow.t))
    (other_int : string -> res Z)
    (u : Handlers.update) (args : list string)
    (admin : Handlers.tg_user) (m : Handlers.message)
    (w : world) (d : Handlers.desk) :
  Handlers.effective_user u = Some admin ->
  Handlers.is_admin ADMIN_IDS (Handlers.user_id admin) = true ->
  Handlers.update_message u = Some m ->
  2 <= List.length args ->
  let run := Handlers.send_command chat tg ADMIN_IDS get_user_by_username
               get_user_by_tg_id other_int u args in
  let w' := Handlers.hworld run (w, d) in
  let found := Handlers.find_target get_user_by_username get_user_by_tg_id other_int
                 (List.hd "" args) in
  (forall row,
     found = Ret (Some row) ->
     new_calls w w'
     = [ {| call_time := clock w; call_chat := TelegramBot.UserRow.tg_id row;
            call_text := String.concat " " (List.tl args) |} ])
  /\ (found = Ret None \/ (exists e, found = Raise e) -> w' = w)
  /\ ((forall n, chat n = true) ->
      forall e, Handlers.hresult run (w, d) = Raise e -> is_Exception e = false).
Proof.
  intros Huser Hadmin Hmsg Hlen run w' found.
  assert (run (w, d)
          = Handlers.htry
              (user ← Handlers.in_world (lift found);
               match user with
               | None => Handlers.show chat (Handlers.plain "❌ Пользователь не найден")
               | Some user =>
                   Handlers.in_world
                     (TelegramBot.bot_send_message tg (TelegramBot.UserRow.tg_id user)
                        (String.concat " " (List.tl args)));;
                   Handlers.show chat (Handlers.plain "✅ Сообщение отправлено")
               end)
              (fun e =>
                 Handlers.note_down (Handlers.Err_in_send_command e);;
                 Handlers.show chat (Handlers.plain "❌ Ошибка при отправке сообщения"))
              (w, d)) as Hrun.
  { subst run found.
    unfold Handlers.send_command, Handlers.effective_user_id, Handlers.reply_text.
    rewrite Huser, Hmsg. unfold mbind, Handlers.H_bind.
    unfold Handlers.hbind at 1. unfold Handlers.hret at 1.
    rewrite Hadmin. cbn [negb].
    assert (Nat.ltb (List.length args) 2 = false) as ->
      by (apply Nat.ltb_ge; exact Hlen).
    reflexivity. }
  subst w'. unfold Handlers.hworld, Handlers.hresult. rewrite Hrun.
  clearbody run found. clear Hrun run.
  unfold Handlers.htry, mbind, Handlers.H_bind, Handlers.hbind,
    Handlers.in_world, lift, Handlers.note_down, Handlers.show.
  cbn [fst snd].
  destruct found as [[row|]|e0].
  - unfold TelegramBot.bot_send_message, new_calls. simpl.
    match goal with
    | |- context [TelegramBot.sent ?o] =>
        destruct (TelegramBot.sent o) as [[]|e1] eqn:Hsent
    end; cbn [fst snd Handlers.shown].
    + split; [|split].
      * intros row' [= <-].
        destruct (chat (List.length (Handlers.shown d))); simpl.
        all: rewrite drop_app_length; reflexivity.
      * intros [?|[? ?]]; discriminate.
      * intros Hchat e. rewrite !Hchat. discriminate.
    + split; [|split].
      * intros row' [= <-].
        destruct (is_Exception e1); simpl.
        all: rewrite drop_app_length; reflexivity.
      * intros [?|[? ?]]; discriminate.
      * intros Hchat e. destruct (is_Exception e1) eqn:He1; cbn [fst snd Handlers.shown].
        -- rewrite Hchat. discriminate.
        -- intros [= <-]. exact He1.
  - simpl. split; [|split].
    + intros row ?. discriminate.
    + intros _. destruct (chat (List.length (Handlers.shown d))); reflexivity.
    + intros Hchat e. rewrite !Hchat. discriminate.
  - simpl. split; [|split].
    + intros row ?. discriminate.
    + intros _. destruct (is_Exception e0); reflexivity.
    + intros Hchat e. destruct (is_Exception e0) eqn:He0; simpl.
      * rewrite Hchat. discriminate.
      * intros [= <-]. exact He0.
Qed.

Lemma send_command_reaches_its_target_witness :
  let w' := Handlers.hworld
              (Handlers.send_command chat_open accepts_all [1%Z] only_ann_by_name
                 only_ann_by_id no_other_int (text_update 1 "/send @ann hello there")
                 ["@ann"; "hello"; "there"])
              (fresh, Handlers.empty_desk) in
  new_calls fresh w'
  = [ {| call_time := 0; call_chat := 11; call_text := "hello there" |} ].
Proof.
  assert (Handlers.is_admin [1%Z] 1%Z = true) as Hadmin by reflexivity.
  assert (2 <= List.length ["@ann"; "hello"; "there"]) as Hlen by (simpl; lia).
  destruct (send_command_reaches_its_target chat_open accepts_all [1%Z]
              only_ann_by_name only_ann_by_id no_other_int
              (text_update 1 "/send @ann hello there") ["@ann"; "hello"; "there"]
              {| Handlers.user_id := 1; Handlers.username := None |}
              {| Handlers.message_text := Some "/send @ann hello there";
                 Handlers.chat_id := 1; Handlers.chat_type := "private";
                 Handlers.replies_to_the_bot := false |}
              fresh Handlers.empty_desk eq_refl Hadmin eq_refl Hlen) as (Hcall & _ & _).
  apply (Hcall ann). reflexivity.
Defined.

(** ** Stopping the bot *)

(** A constructor is not in a list of other constructors. *)
Ltac not_among :=
  let Hin := fresh "Hin" in
  intros Hin;
  repeat (apply elem_of_cons in Hin as [Hin|Hin]; [discriminate Hin|]);
  apply elem_of_nil in Hin; exact Hin.

(** [shutdown] lets no exception out but a cancellation.  When stopping
    the job queue, or after it the updater, fails, the method goes no
    further: the application is not stopped and the session of the adapter
    stays open.  When it is the application that fails to stop, the session
    is closed all the same and the shutdown is logged as completed. *)
Theorem failed_stop_leaves_the_session_open
    (outcome : Shutdown.step -> res unit) (s : Shutdown.bot) (e : exn) :
  is_Exception e = true ->
  Shutdown.queue_task_pending s = false \/ Shutdown.queue_task_ends outcome ->
  let run := Shutdown.shutdown outcome in
  let s' := snd (run s) in
  (forall e', fst (run s) = Raise e' -> is_Exception e' = false)
  /\ (outcome Shutdown.Stop_job_queue = Raise e
      \/ (outcome Shutdown.Stop_job_queue = Ret tt
          /\ Shutdown.updater_running s = true
          /\ outcome Shutdown.Stop_updater = Raise e) ->
      fst (run s) = Ret tt
      /\ (Shutdown.Stop_application ∉ Shutdown.new_steps s s')
      /\ (Shutdown.Close_session ∉ Shutdown.new_steps s s')
      /\ Shutdown.session s' = Shutdown.session s
      /\ Shutdown.new_entries s s'
         = [Shutdown.Info_starting_shutdown; Shutdown.Err_during_shutdown e])
  /\ (outcome Shutdown.Stop_job_queue = Ret tt ->
      Shutdown.updater_running s = false \/ outcome Shutdown.Stop_updater = Ret tt ->
      outcome Shutdown.Stop_application = Raise e ->
      outcome Shutdown.Close_session = Ret tt ->
      fst (run s) = Ret tt
      /\ Shutdown.session s' = false
      /\ Shutdown.new_entries s s'
         = [Shutdown.Info_starting_shutdown; Shutdown.Err_stopping_application e;
            Shutdown.Info_shutdown_completed]).
Proof.
  intros He Hqueue run s'. subst s' run.
  destruct s as [pending running session steps entries].
  unfold Shutdown.shutdown, Shutdown.close_session, Shutdown.when, Shutdown.ltry,
    mbind, Shutdown.L_bind, Shutdown.lbind,
    Shutdown.logging, Shutdown.cancel, Shutdown.pass_cancelled, Shutdown.await,
    Shutdown.forget_session, Shutdown.taken, Shutdown.new_steps, Shutdown.new_entries,
    Shutdown.queue_task_ends in *.
  cbn [Shutdown.queue_task_pending Shutdown.updater_running Shutdown.session
       Shutdown.steps Shutdown.entries fst snd] in *.
  split; [|split].
  - intros e'.
    destruct pending, running, session;
      cbn [Shutdown.queue_task_pending Shutdown.updater_running Shutdown.session
           Shutdown.steps Shutdown.entries fst snd];
      repeat match goal with
             | |- context [outcome ?c] =>
                 let Ho := fresh "Ho" in
                 destruct (outcome c) as [[]|?] eqn:Ho;
                 cbn [Shutdown.queue_task_pending Shutdown.updater_running
                      Shutdown.session Shutdown.steps Shutdown.entries fst snd]
             | |- context [is_Exception ?x] =>
                 let Hx := fresh "Hx" in
                 destruct (is_Exception x) eqn:Hx;
                 cbn [Shutdown.queue_task_pending Shutdown.updater_running
                      Shutdown.session Shutdown.steps Shutdown.entries fst snd]
             | |- context [match ?x with CancelledError => _ | _ => _ end] =>
                 destruct x;
                 cbn [Shutdown.queue_task_pending Shutdown.updater_running
                      Shutdown.session Shutdown.steps Shutdown.entries fst snd]
             end;
      intros Hr; try discriminate Hr; injection Hr as <-; try assumption;
      try reflexivity; congruence.
  - intros Hfail.
    destruct pending; cbn [fst snd].
    + destruct Hqueue as [Hq|[Hq|Hq]]; [discriminate Hq| |]; rewrite Hq;
        cbn [fst snd Shutdown.updater_running];
        (destruct Hfail as [Hj|(Hj & -> & Hu)];
         [rewrite Hj|rewrite Hj; cbn [fst snd Shutdown.updater_running]; rewrite Hu];
         cbn [fst snd]; rewrite He;
         cbn [fst snd Shutdown.steps Shutdown.entries Shutdown.session];
         rewrite <- ?app_assoc, !drop_app_length;
         repeat split; try reflexivity; not_among).
    + destruct Hfail as [Hj|(Hj & -> & Hu)];
        [rewrite Hj|rewrite Hj; cbn [fst snd Shutdown.updater_running]; rewrite Hu];
        cbn [fst snd]; rewrite He;
        cbn [fst snd Shutdown.steps Shutdown.entries Shutdown.session];
        rewrite <- ?app_assoc, !drop_app_length;
        repeat split; try reflexivity; not_among.
  - intros Hj Hupd Happ Hclose.
    assert ((if running then outcome Shutdown.Stop_updater else Ret tt) = Ret tt) as Hu.
    { destruct running; [|reflexivity]. destruct Hupd as [?|?]; [discriminate|assumption]. }
    clear Hupd.
    destruct pending; cbn [fst snd].
    + destruct Hqueue as [Hq|[Hq|Hq]]; [discriminate Hq| |]; rewrite Hq;
        cbn [fst snd Shutdown.updater_running]; rewrite Hj;
        cbn [fst snd Shutdown.updater_running];
        (destruct running; [rewrite Hu|]);
        cbn [fst snd]; rewrite Happ; cbn [fst snd]; rewrite He;
        cbn [fst snd Shutdown.session];
        (destruct session; cbn [fst snd Shutdown.session]; rewrite ?Hclose;
         cbn [fst snd Shutdown.steps Shutdown.entries Shutdown.session];
         rewrite <- ?app_assoc, !drop_app_length; repeat split; reflexivity).
    + rewrite Hj; cbn [fst snd Shutdown.updater_running];
        (destruct running; [rewrite Hu|]);
        cbn [fst snd]; rewrite Happ; cbn [fst snd]; rewrite He;
        cbn [fst snd Shutdown.session];
        (destruct session; cbn [fst snd Shutdown.session]; rewrite ?Hclose;
         cbn [fst snd Shutdown.steps Shutdown.entries Shutdown.session];
         rewrite <- ?app_assoc, !drop_app_length; repeat split; reflexivity).
Qed.

Lemma failed_stop_leaves_the_session_open_witness :
  let s' := snd (Shutdown.shutdown job_queue_fails running_bot) in
  Shutdown.session s' = true
  /\ Shutdown.new_entries running_bot s'
     = [Shutdown.Info_starting_shutdown; Shutdown.Err_during_shutdown AttributeError].
Proof.
  destruct (failed_stop_leaves_the_session_open job_queue_fails running_bot
              AttributeError eq_refl (or_intror (or_intror eq_refl)))
    as (_ & Hstop & _).
  destruct (Hstop (or_introl eq_refl)) as (_ & _ & _ & Hsession & Hentries).
  split; [exact Hsession|exact Hentries].
Defined.
